(** * The stock ledger of the ERP server: handlers over the relational store

    The handlers of [server/src/handlers] are embedded as functions over an
    explicit database state.  A table is the list of its rows in insertion
    order; [select ... where] is a filter, [update ... where] rewrites the
    matching rows, [insert] appends a row numbered by the table's serial
    sequence.  No handler of the repository opens a transaction, so every
    write is visible as soon as it is issued: a handler returns the store as
    it stands when the handler returns or throws.

    The unique indexes of [db/schema.ts] on which the embedded handlers insert
    or update ([items.sku], [work_orders.work_order_number],
    [purchase_orders.po_number]) are part of the embedding: a statement that
    would store a second row with the same key is refused, and the handler
    rethrows.  A refused [insert] has nevertheless drawn its value from the
    serial sequence.

    JavaScript integers are mathematical integers ([Z]), decimal amounts are
    exact rationals ([Q]); the width of the [integer] columns and the rounding
    of binary floating point and of the [numeric] columns are outside the
    embedding.  A theorem that asserts that a call is accepted therefore
    assumes that the numbers the call writes fit their columns
    ([integer_column], [numeric_column] below).  The clock ([new Date()],
    [defaultNow()]) is read once per call and passed in as [now]; the
    generated order numbers, which are derived from the clock, are passed in
    as well. *)

From Stdlib Require Import ZArith QArith String List Bool Lia Permutation
  Sorted.
Import ListNotations.

Local Open Scope Z_scope.

(** ** Enumerations ([schema.ts] and [db/schema.ts], in the source tree under
    [unnamed/part_010]) *)

Inductive UserRole := ADMIN | WAREHOUSE_MANAGER | PURCHASING_STAFF | TECHNICIAN.
Inductive PurchaseOrderStatus := DRAFT | PENDING | APPROVED | REJECTED.
Inductive WorkOrderStatus := OPEN | IN_PROGRESS | COMPLETED.
Inductive StockAdjustmentType := ADDITION | REMOVAL | CORRECTION.

Definition UserRole_eqb (a b : UserRole) : bool :=
  match a, b with
  | ADMIN, ADMIN | WAREHOUSE_MANAGER, WAREHOUSE_MANAGER
  | PURCHASING_STAFF, PURCHASING_STAFF | TECHNICIAN, TECHNICIAN => true
  | _, _ => false
  end.

Definition WorkOrderStatus_eqb (a b : WorkOrderStatus) : bool :=
  match a, b with
  | OPEN, OPEN | IN_PROGRESS, IN_PROGRESS | COMPLETED, COMPLETED => true
  | _, _ => false
  end.

(** ** Rows of the tables ([db/schema.ts]) *)

Module User.
Record t := mk {
  id : Z; clerk_id : string; email : string; name : string;
  role : UserRole; created_at : Z; updated_at : Z }.
End User.

Module Item.
Record t := mk {
  id : Z; sku : string; name : string; description : option string;
  current_stock : Z; minimum_stock : Z; unit_price : Q;
  created_at : Z; updated_at : Z }.
End Item.

Module Supplier.
Record t := mk {
  id : Z; name : string; contact_email : option string;
  contact_phone : option string; address : option string;
  bank_account : option string; tax_id : option string;
  created_at : Z; updated_at : Z }.
End Supplier.

Module PurchaseOrder.
Record t := mk {
  id : Z; po_number : string; supplier_id : Z;
  status : PurchaseOrderStatus; total_amount : Q; notes : option string;
  created_by : string; created_at : Z; updated_at : Z }.
End PurchaseOrder.

Module PurchaseOrderItem.
Record t := mk {
  id : Z; po_id : Z; item_id : Z; quantity : Z;
  unit_price : Q; total_price : Q }.
End PurchaseOrderItem.

Module WorkOrder.
Record t := mk {
  id : Z; work_order_number : string; description : string;
  assigned_technician : string; status : WorkOrderStatus;
  created_by : string; created_at : Z; updated_at : Z;
  completed_at : option Z }.
End WorkOrder.

Module WorkOrderItem.
Record t := mk {
  id : Z; work_order_id : Z; item_id : Z; quantity_used : Z }.
End WorkOrderItem.

Module StockAdjustment.
Record t := mk {
  id : Z; item_id : Z; adjustment_type : StockAdjustmentType;
  quantity_change : Z; reason : string;
  previous_stock : Z; new_stock : Z;
  adjusted_by : string; created_at : Z }.
End StockAdjustment.

(** ** The store: eight tables and their serial sequences *)

Record DB := mkDB {
  usersTable : list User.t;
  itemsTable : list Item.t;
  suppliersTable : list Supplier.t;
  purchaseOrdersTable : list PurchaseOrder.t;
  purchaseOrderItemsTable : list PurchaseOrderItem.t;
  workOrdersTable : list WorkOrder.t;
  workOrderItemsTable : list WorkOrderItem.t;
  stockAdjustmentsTable : list StockAdjustment.t;
  items_id_seq : Z;
  purchase_orders_id_seq : Z;
  purchase_order_items_id_seq : Z;
  work_orders_id_seq : Z;
  work_order_items_id_seq : Z;
  stock_adjustments_id_seq : Z }.

(** ** Errors

    The handlers throw [Error] with a message; one constructor per message,
    carrying the values the message interpolates. *)

Inductive error :=
| ItemNotFound (item_id : Z)
    (* Item with id/ID ${item_id} not found *)
| InsufficientStock (current attempted : Z)
    (* Insufficient stock. Current stock: .., attempted removal: .. *)
| NegativeCorrection (current correction : Z)
    (* Stock correction would result in negative stock. ... *)
| WorkOrderNotFound (work_order_id : Z)
    (* Work order with ID .. not found *)
| WorkOrderNotInProgress (status : WorkOrderStatus)
    (* Work order must be IN_PROGRESS to complete. Current status: .. *)
| InsufficientStockForItem (label : string) (available required : Z)
    (* Insufficient stock for item <sku or name>. Available: .., Required: .. *)
| SupplierNotFound (supplier_id : Z)
    (* Supplier with id .. not found *)
| ItemsNotFound (missing : list Z)
    (* Items with ids [..] not found *)
| TechnicianNotFound
    (* Assigned technician not found *)
| NotATechnician
    (* Assigned user must have TECHNICIAN role *)
| NoValues
    (* values() must be called with at least one value: thrown by the query
       builder, before any statement is sent *)
| UniqueViolation (index : string).
    (* duplicate key value violates unique constraint "..": thrown by the
       storage engine *)

Inductive result (A : Type) :=
| Ok (a : A)
| Err (e : error).
Arguments Ok {A} a.
Arguments Err {A} e.

(** ** Handlers as store transformers

    A handler maps the store to the store it leaves behind and either a value
    or the error it threw.  [bind] keeps the store reached so far when the
    first part throws: there is no roll-back. *)

Definition M (A : Type) : Type := DB -> DB * result A.

Definition ret {A} (a : A) : M A := fun db => (db, Ok a).
Definition throw {A} (e : error) : M A := fun db => (db, Err e).
Definition bind {A B} (m : M A) (k : A -> M B) : M B :=
  fun db =>
    match m db with
    | (db', Ok a) => k a db'
    | (db', Err e) => (db', Err e)
    end.

Notation "x <- m ;; k" := (bind m (fun x => k))
  (at level 61, m at next level, right associativity).
Notation "m ;;; k" := (bind m (fun _ => k))
  (at level 61, right associativity).

(** [for (const x of xs) { await body(x) }] *)
Fixpoint for_of {A} (xs : list A) (body : A -> M unit) : M unit :=
  match xs with
  | [] => ret tt
  | x :: rest => body x ;;; for_of rest body
  end.

Definition store_after {A} (r : DB * result A) : DB := fst r.
Definition outcome {A} (r : DB * result A) : result A := snd r.

Definition is_Ok {A} (r : result A) : bool :=
  match r with Ok _ => true | Err _ => false end.

(** ** Queries and statements used by the handlers *)

Definition select_items_by_id (id : Z) : M (list Item.t) :=
  fun db => (db, Ok (filter (fun it => Item.id it =? id) (itemsTable db))).

Definition set_items (rows : list Item.t) (db : DB) : DB :=
  mkDB (usersTable db) rows (suppliersTable db) (purchaseOrdersTable db)
       (purchaseOrderItemsTable db) (workOrdersTable db)
       (workOrderItemsTable db) (stockAdjustmentsTable db)
       (items_id_seq db) (purchase_orders_id_seq db)
       (purchase_order_items_id_seq db) (work_orders_id_seq db)
       (work_order_items_id_seq db) (stock_adjustments_id_seq db).

Definition Item_set_stock (newStock now : Z) (it : Item.t) : Item.t :=
  Item.mk (Item.id it) (Item.sku it) (Item.name it) (Item.description it)
          newStock (Item.minimum_stock it) (Item.unit_price it)
          (Item.created_at it) now.

(** [db.update(itemsTable).set({current_stock, updated_at}).where(eq(id))] *)
Definition update_item_stock (id newStock now : Z) : M unit :=
  fun db =>
    (set_items
       (map (fun it => if Item.id it =? id then Item_set_stock newStock now it
                       else it) (itemsTable db)) db,
     Ok tt).

(** [db.insert(stockAdjustmentsTable).values({...}).returning()]: the row gets
    the next value of the serial sequence and [created_at = now]. *)
Definition insert_stock_adjustment
    (item_id : Z) (ty : StockAdjustmentType) (quantity_change : Z)
    (reason : string) (previous_stock new_stock : Z) (adjusted_by : string)
    (now : Z) : M StockAdjustment.t :=
  fun db =>
    let row := StockAdjustment.mk (stock_adjustments_id_seq db) item_id ty
                 quantity_change reason previous_stock new_stock adjusted_by
                 now in
    (mkDB (usersTable db) (itemsTable db) (suppliersTable db)
          (purchaseOrdersTable db) (purchaseOrderItemsTable db)
          (workOrdersTable db) (workOrderItemsTable db)
          (stockAdjustmentsTable db ++ [row])
          (items_id_seq db) (purchase_orders_id_seq db)
          (purchase_order_items_id_seq db) (work_orders_id_seq db)
          (work_order_items_id_seq db) (stock_adjustments_id_seq db + 1),
     Ok row).

(** ** [adjustStock] ([handlers/adjust_stock.ts]; in the source tree under
    [server/src/handlers/create_work_order.ts], lines 104-182) *)

Record AdjustStockInput := mkAdjustStockInput {
  asi_item_id : Z;
  asi_adjustment_type : StockAdjustmentType;
  asi_quantity_change : Z;
  asi_reason : string }.

(** The [default] branch of the switch is unreachable: the type has the three
    constructors of the enumeration. *)
Definition adjustStock (input : AdjustStockInput) (adjustedBy : string)
    (now : Z) : M StockAdjustment.t :=
  existingItem <- select_items_by_id (asi_item_id input) ;;
  match existingItem with
  | [] => throw (ItemNotFound (asi_item_id input))
  | item :: _ =>
    let previousStock := Item.current_stock item in
    p <- match asi_adjustment_type input with
         | ADDITION =>
           let actualQuantityChange := Z.abs (asi_quantity_change input) in
           ret (actualQuantityChange, previousStock + actualQuantityChange)
         | REMOVAL =>
           let actualQuantityChange := - Z.abs (asi_quantity_change input) in
           let newStock := previousStock + actualQuantityChange in
           if newStock <? 0
           then throw (InsufficientStock previousStock
                         (Z.abs (asi_quantity_change input)))
           else ret (actualQuantityChange, newStock)
         | CORRECTION =>
           let actualQuantityChange := asi_quantity_change input in
           let newStock := previousStock + actualQuantityChange in
           if newStock <? 0
           then throw (NegativeCorrection previousStock
                         (asi_quantity_change input))
           else ret (actualQuantityChange, newStock)
         end ;;
    let actualQuantityChange := fst p in
    let newStock := snd p in
    update_item_stock (asi_item_id input) newStock now ;;;
    insert_stock_adjustment (asi_item_id input) (asi_adjustment_type input)
      actualQuantityChange (asi_reason input) previousStock newStock
      adjustedBy now
  end.

(** ** [completeWorkOrder] ([handlers/complete_work_order.ts]; in the source
    tree under [server/src/handlers/create_purchase_order.ts], lines 131-221) *)

Record CompleteWorkOrderInput := mkCompleteWorkOrderInput {
  cwi_work_order_id : Z }.

Definition select_work_orders_by_id (id : Z) : M (list WorkOrder.t) :=
  fun db =>
    (db, Ok (filter (fun wo => WorkOrder.id wo =? id) (workOrdersTable db))).

Definition select_work_order_items_by_work_order_id (id : Z)
  : M (list WorkOrderItem.t) :=
  fun db =>
    (db, Ok (filter (fun woi => WorkOrderItem.work_order_id woi =? id)
               (workOrderItemsTable db))).

Definition set_work_orders (rows : list WorkOrder.t) (db : DB) : DB :=
  mkDB (usersTable db) (itemsTable db) (suppliersTable db)
       (purchaseOrdersTable db) (purchaseOrderItemsTable db) rows
       (workOrderItemsTable db) (stockAdjustmentsTable db)
       (items_id_seq db) (purchase_orders_id_seq db)
       (purchase_order_items_id_seq db) (work_orders_id_seq db)
       (work_order_items_id_seq db) (stock_adjustments_id_seq db).

Definition WorkOrder_complete (completedAt : Z) (wo : WorkOrder.t)
  : WorkOrder.t :=
  WorkOrder.mk (WorkOrder.id wo) (WorkOrder.work_order_number wo)
    (WorkOrder.description wo) (WorkOrder.assigned_technician wo)
    COMPLETED (WorkOrder.created_by wo) (WorkOrder.created_at wo)
    completedAt (Some completedAt).

(** [db.update(workOrdersTable).set({status: 'COMPLETED', completed_at,
    updated_at}).where(eq(id)).returning()] *)
Definition update_work_order_completed (id completedAt : Z)
  : M (list WorkOrder.t) :=
  fun db =>
    let rows :=
      map (fun wo => if WorkOrder.id wo =? id
                     then WorkOrder_complete completedAt wo else wo)
          (workOrdersTable db) in
    (set_work_orders rows db,
     Ok (filter (fun wo => WorkOrder.id wo =? id) rows)).

Definition completion_reason (work_order_number : string) : string :=
  String.append "Work order completion: " work_order_number.

(** The body of the loop over the lines of the work order. *)
Definition deduct_line (workOrder : WorkOrder.t) (now : Z)
    (workOrderItem : WorkOrderItem.t) : M unit :=
  itemResults <- select_items_by_id (WorkOrderItem.item_id workOrderItem) ;;
  match itemResults with
  | [] => throw (ItemNotFound (WorkOrderItem.item_id workOrderItem))
  | item :: _ =>
    let previousStock := Item.current_stock item in
    let newStock := previousStock - WorkOrderItem.quantity_used workOrderItem in
    if newStock <? 0
    then throw (InsufficientStockForItem (Item.sku item) previousStock
                  (WorkOrderItem.quantity_used workOrderItem))
    else
      update_item_stock (WorkOrderItem.item_id workOrderItem) newStock now ;;;
      insert_stock_adjustment (WorkOrderItem.item_id workOrderItem) REMOVAL
        (- WorkOrderItem.quantity_used workOrderItem)
        (completion_reason (WorkOrder.work_order_number workOrder))
        previousStock newStock (WorkOrder.assigned_technician workOrder)
        now ;;;
      ret tt
  end.

(** The handler returns [updatedWorkOrderResults[0]]: [hd_error] of the rows
    the update returned. *)
Definition completeWorkOrder (input : CompleteWorkOrderInput) (now : Z)
  : M (option WorkOrder.t) :=
  workOrderResults <- select_work_orders_by_id (cwi_work_order_id input) ;;
  match workOrderResults with
  | [] => throw (WorkOrderNotFound (cwi_work_order_id input))
  | workOrder :: _ =>
    if negb (WorkOrderStatus_eqb (WorkOrder.status workOrder) IN_PROGRESS)
    then throw (WorkOrderNotInProgress (WorkOrder.status workOrder))
    else
      workOrderItems <-
        select_work_order_items_by_work_order_id (cwi_work_order_id input) ;;
      for_of workOrderItems (deduct_line workOrder now) ;;;
      updatedWorkOrderResults <-
        update_work_order_completed (cwi_work_order_id input) now ;;
      ret (hd_error updatedWorkOrderResults)
  end.

(** ** [createWorkOrder] ([server/src/handlers/create_work_order.ts],
    lines 1-78) *)

Record WorkOrderLineInput := mkWorkOrderLineInput {
  wli_item_id : Z;
  wli_quantity_used : Z }.

Record CreateWorkOrderInput := mkCreateWorkOrderInput {
  cwo_description : string;
  cwo_assigned_technician : string;
  cwo_items : list WorkOrderLineInput }.

Definition select_users_by_clerk_id (clerk_id : string) : M (list User.t) :=
  fun db =>
    (db, Ok (filter (fun u => String.eqb (User.clerk_id u) clerk_id)
               (usersTable db))).

(** [work_order_number: text('work_order_number').notNull().unique()] *)
Definition work_order_number_taken (db : DB) (work_order_number : string)
  : bool :=
  existsb (fun wo => String.eqb (WorkOrder.work_order_number wo)
                                work_order_number)
          (workOrdersTable db).

(** [db.insert(workOrdersTable).values({...}).returning()]: [created_at] and
    [updated_at] default to now, [completed_at] to null.  The row takes the
    next value of the serial sequence; when the number is already stored the
    row is refused and the value it took is lost. *)
Definition insert_work_order (work_order_number description
    assigned_technician : string) (status : WorkOrderStatus)
    (created_by : string) (now : Z) : M WorkOrder.t :=
  fun db =>
    let row := WorkOrder.mk (work_orders_id_seq db) work_order_number
                 description assigned_technician status created_by now now
                 None in
    let stored :=
      if work_order_number_taken db work_order_number then workOrdersTable db
      else workOrdersTable db ++ [row] in
    (mkDB (usersTable db) (itemsTable db) (suppliersTable db)
          (purchaseOrdersTable db) (purchaseOrderItemsTable db)
          stored (workOrderItemsTable db)
          (stockAdjustmentsTable db)
          (items_id_seq db) (purchase_orders_id_seq db)
          (purchase_order_items_id_seq db) (work_orders_id_seq db + 1)
          (work_order_items_id_seq db) (stock_adjustments_id_seq db),
     if work_order_number_taken db work_order_number
     then Err (UniqueViolation "work_orders_work_order_number_unique")
     else Ok row).

(** Rows of one multi-row insert are numbered consecutively from [seq]. *)
Fixpoint number_rows {A B} (mk : Z -> A -> B) (seq : Z) (values : list A)
  : list B :=
  match values with
  | [] => []
  | v :: rest => mk seq v :: number_rows mk (seq + 1) rest
  end.

(** [db.insert(workOrderItemsTable).values(workOrderItems)]: the query
    builder throws on an empty array of values. *)
Definition insert_work_order_items (values : list (Z * Z * Z)) : M unit :=
  match values with
  | [] => throw NoValues
  | _ :: _ =>
    fun db =>
      let rows :=
        number_rows (fun id v => WorkOrderItem.mk id (fst (fst v))
                                   (snd (fst v)) (snd v))
          (work_order_items_id_seq db) values in
      (mkDB (usersTable db) (itemsTable db) (suppliersTable db)
            (purchaseOrdersTable db) (purchaseOrderItemsTable db)
            (workOrdersTable db) (workOrderItemsTable db ++ rows)
            (stockAdjustmentsTable db)
            (items_id_seq db) (purchase_orders_id_seq db)
            (purchase_order_items_id_seq db) (work_orders_id_seq db)
            (work_order_items_id_seq db + Z.of_nat (length values))
            (stock_adjustments_id_seq db),
       Ok tt)
  end.

(** The body of the validation loop of step 3. *)
Definition check_line (item : WorkOrderLineInput) : M unit :=
  dbItem <- select_items_by_id (wli_item_id item) ;;
  match dbItem with
  | [] => throw (ItemNotFound (wli_item_id item))
  | d :: _ =>
    if Item.current_stock d <? wli_quantity_used item
    then throw (InsufficientStockForItem (Item.name d) (Item.current_stock d)
                  (wli_quantity_used item))
    else ret tt
  end.

Definition createWorkOrder (input : CreateWorkOrderInput) (createdBy : string)
    (workOrderNumber : string) (now : Z) : M WorkOrder.t :=
  technician <- select_users_by_clerk_id (cwo_assigned_technician input) ;;
  match technician with
  | [] => throw TechnicianNotFound
  | t0 :: _ =>
    if negb (UserRole_eqb (User.role t0) TECHNICIAN)
    then throw NotATechnician
    else
      for_of (cwo_items input) check_line ;;;
      workOrder <- insert_work_order workOrderNumber (cwo_description input)
                     (cwo_assigned_technician input) OPEN createdBy now ;;
      insert_work_order_items
        (map (fun item => (WorkOrder.id workOrder, wli_item_id item,
                           wli_quantity_used item)) (cwo_items input)) ;;;
      ret workOrder
  end.

(** ** [createPurchaseOrder] ([server/src/handlers/create_purchase_order.ts],
    lines 29-107) *)

Record PurchaseOrderLineInput := mkPurchaseOrderLineInput {
  pli_item_id : Z;
  pli_quantity : Z;
  pli_unit_price : Q }.

Record CreatePurchaseOrderInput := mkCreatePurchaseOrderInput {
  cpo_supplier_id : Z;
  cpo_items : list PurchaseOrderLineInput;
  cpo_notes : option string }.

Definition select_suppliers_by_id (id : Z) : M (list Supplier.t) :=
  fun db =>
    (db, Ok (filter (fun s => Supplier.id s =? id) (suppliersTable db))).

(** [ids.includes(id)] *)
Definition includes (ids : list Z) (id : Z) : bool :=
  existsb (fun x => x =? id) ids.

(** [select().from(itemsTable).where(inArray(itemsTable.id, itemIds))] *)
Definition select_items_in_array (itemIds : list Z) : M (list Item.t) :=
  fun db =>
    (db, Ok (filter (fun it => includes itemIds (Item.id it)) (itemsTable db))).

(** [input.notes || null]: undefined, null and the empty string all give
    null. *)
Definition or_null (s : option string) : option string :=
  match s with
  | Some EmptyString => None
  | other => other
  end.

(** [po_number: text('po_number').notNull().unique()] *)
Definition po_number_taken (db : DB) (po_number : string) : bool :=
  existsb (fun po => String.eqb (PurchaseOrder.po_number po) po_number)
          (purchaseOrdersTable db).

Definition insert_purchase_order (po_number : string) (supplier_id : Z)
    (status : PurchaseOrderStatus) (total_amount : Q) (notes : option string)
    (created_by : string) (now : Z) : M PurchaseOrder.t :=
  fun db =>
    let row := PurchaseOrder.mk (purchase_orders_id_seq db) po_number
                 supplier_id status total_amount notes created_by now now in
    let stored :=
      if po_number_taken db po_number then purchaseOrdersTable db
      else purchaseOrdersTable db ++ [row] in
    (mkDB (usersTable db) (itemsTable db) (suppliersTable db)
          stored (purchaseOrderItemsTable db)
          (workOrdersTable db) (workOrderItemsTable db)
          (stockAdjustmentsTable db)
          (items_id_seq db) (purchase_orders_id_seq db + 1)
          (purchase_order_items_id_seq db) (work_orders_id_seq db)
          (work_order_items_id_seq db) (stock_adjustments_id_seq db),
     if po_number_taken db po_number
     then Err (UniqueViolation "purchase_orders_po_number_unique")
     else Ok row).

Record PurchaseOrderItemValues := mkPurchaseOrderItemValues {
  poiv_po_id : Z;
  poiv_item_id : Z;
  poiv_quantity : Z;
  poiv_unit_price : Q;
  poiv_total_price : Q }.

(** [db.insert(purchaseOrderItemsTable).values(purchaseOrderItems)]: the
    query builder throws on an empty array of values. *)
Definition insert_purchase_order_items
    (values : list PurchaseOrderItemValues) : M unit :=
  match values with
  | [] => throw NoValues
  | _ :: _ =>
    fun db =>
      let rows :=
        number_rows (fun id v => PurchaseOrderItem.mk id (poiv_po_id v)
                                   (poiv_item_id v) (poiv_quantity v)
                                   (poiv_unit_price v) (poiv_total_price v))
          (purchase_order_items_id_seq db) values in
      (mkDB (usersTable db) (itemsTable db) (suppliersTable db)
            (purchaseOrdersTable db) (purchaseOrderItemsTable db ++ rows)
            (workOrdersTable db) (workOrderItemsTable db)
            (stockAdjustmentsTable db)
            (items_id_seq db) (purchase_orders_id_seq db)
            (purchase_order_items_id_seq db + Z.of_nat (length values))
            (work_orders_id_seq db)
            (work_order_items_id_seq db) (stock_adjustments_id_seq db),
       Ok tt)
  end.

(** [input.items.reduce((sum, item) => sum + item.quantity * item.unit_price, 0)] *)
Definition totalAmount (items : list PurchaseOrderLineInput) : Q :=
  fold_left
    (fun sum item =>
       Qplus sum (Qmult (inject_Z (pli_quantity item)) (pli_unit_price item)))
    items (0 # 1)%Q.

Definition createPurchaseOrder (input : CreatePurchaseOrderInput)
    (createdBy : string) (poNumber : string) (now : Z) : M PurchaseOrder.t :=
  supplier <- select_suppliers_by_id (cpo_supplier_id input) ;;
  match supplier with
  | [] => throw (SupplierNotFound (cpo_supplier_id input))
  | _ :: _ =>
    let itemIds := map pli_item_id (cpo_items input) in
    existingItems <- select_items_in_array itemIds ;;
    if negb (Nat.eqb (length existingItems) (length itemIds))
    then
      let foundIds := map Item.id existingItems in
      let missingIds := filter (fun id => negb (includes foundIds id)) itemIds in
      throw (ItemsNotFound missingIds)
    else
      purchaseOrder <-
        insert_purchase_order poNumber (cpo_supplier_id input) DRAFT
          (totalAmount (cpo_items input)) (or_null (cpo_notes input))
          createdBy now ;;
      insert_purchase_order_items
        (map (fun item =>
                mkPurchaseOrderItemValues (PurchaseOrder.id purchaseOrder)
                  (pli_item_id item) (pli_quantity item) (pli_unit_price item)
                  (Qmult (inject_Z (pli_quantity item)) (pli_unit_price item)))
             (cpo_items input)) ;;;
      ret purchaseOrder
  end.

(** ** [updateItem] and [createItem] ([handlers/update_item.ts], in the source
    tree under [unnamed/part_004]; [server/src/handlers/create_item.ts],
    lines 18-47) *)

(** An optional field is [None] when it is [undefined] in the input;
    [description] is nullable as well as optional. *)
Record UpdateItemInput := mkUpdateItemInput {
  uii_id : Z;
  uii_sku : option string;
  uii_name : option string;
  uii_description : option (option string);
  uii_minimum_stock : option Z;
  uii_unit_price : option Q }.

Definition or_keep {A} (provided : option A) (old : A) : A :=
  match provided with
  | Some v => v
  | None => old
  end.

(** The row after [set(updateData)], where [updateData] holds [updated_at]
    and the provided fields only. *)
Definition Item_apply_update (input : UpdateItemInput) (now : Z) (it : Item.t)
  : Item.t :=
  Item.mk (Item.id it)
    (or_keep (uii_sku input) (Item.sku it))
    (or_keep (uii_name input) (Item.name it))
    (or_keep (uii_description input) (Item.description it))
    (Item.current_stock it)
    (or_keep (uii_minimum_stock input) (Item.minimum_stock it))
    (or_keep (uii_unit_price input) (Item.unit_price it))
    (Item.created_at it) now.

(** [sku: text('sku').notNull().unique()]: some row, other than the rows
    with the id [except], holds the sku. *)
Definition sku_taken (db : DB) (except : option Z) (sku : string) : bool :=
  existsb (fun it => match except with
                     | Some id => negb (Item.id it =? id)
                     | None => true
                     end && String.eqb (Item.sku it) sku)
          (itemsTable db).

(** [db.update(itemsTable).set(updateData).where(eq(id)).returning()]: the
    statement is refused as a whole when it would give the row a sku that
    another row holds. *)
Definition update_item_returning (input : UpdateItemInput) (now : Z)
  : M (list Item.t) :=
  fun db =>
    if match uii_sku input with
       | Some sku => sku_taken db (Some (uii_id input)) sku
       | None => false
       end
    then (db, Err (UniqueViolation "items_sku_unique"))
    else
      let rows :=
        map (fun it => if Item.id it =? uii_id input
                       then Item_apply_update input now it else it)
            (itemsTable db) in
      (set_items rows db,
       Ok (filter (fun it => Item.id it =? uii_id input) rows)).

Definition updateItem (input : UpdateItemInput) (now : Z)
  : M (option Item.t) :=
  existingItems <- select_items_by_id (uii_id input) ;;
  match existingItems with
  | [] => throw (ItemNotFound (uii_id input))
  | _ :: _ =>
    result <- update_item_returning input now ;;
    ret (hd_error result)
  end.

Record CreateItemInput := mkCreateItemInput {
  cii_sku : string;
  cii_name : string;
  cii_description : option string;
  cii_current_stock : Z;
  cii_minimum_stock : Z;
  cii_unit_price : Q }.

(** The row takes the next value of the serial sequence; when the sku is
    already stored the row is refused and the value it took is lost. *)
Definition createItem (input : CreateItemInput) (now : Z) : M Item.t :=
  fun db =>
    let row := Item.mk (items_id_seq db) (cii_sku input) (cii_name input)
                 (or_null (cii_description input)) (cii_current_stock input)
                 (cii_minimum_stock input) (cii_unit_price input) now now in
    let stored :=
      if sku_taken db None (cii_sku input) then itemsTable db
      else itemsTable db ++ [row] in
    (mkDB (usersTable db) stored (suppliersTable db)
          (purchaseOrdersTable db) (purchaseOrderItemsTable db)
          (workOrdersTable db) (workOrderItemsTable db)
          (stockAdjustmentsTable db)
          (items_id_seq db + 1) (purchase_orders_id_seq db)
          (purchase_order_items_id_seq db) (work_orders_id_seq db)
          (work_order_items_id_seq db) (stock_adjustments_id_seq db),
     if sku_taken db None (cii_sku input)
     then Err (UniqueViolation "items_sku_unique")
     else Ok row).

(** ** Observations on the store used in the statements *)

(** What a read of item [id] returns: the first row with that id. *)
Definition find_item (db : DB) (id : Z) : option Item.t :=
  hd_error (filter (fun it => Item.id it =? id) (itemsTable db)).

Definition stock_of (db : DB) (id : Z) : option Z :=
  option_map Item.current_stock (find_item db id).

(** The stock column of the items table, row by row. *)
Definition stock_levels (db : DB) : list (Z * Z) :=
  map (fun it => (Item.id it, Item.current_stock it)) (itemsTable db).

Definition stock_nonneg (db : DB) : Prop :=
  Forall (fun it => 0 <= Item.current_stock it) (itemsTable db).

Definition find_work_order (db : DB) (id : Z) : option WorkOrder.t :=
  hd_error (filter (fun wo => WorkOrder.id wo =? id) (workOrdersTable db)).

Definition lines_of (db : DB) (work_order_id : Z) : list WorkOrderItem.t :=
  filter (fun woi => WorkOrderItem.work_order_id woi =? work_order_id)
         (workOrderItemsTable db).

(** The signed delta the Recorder is specified to apply. *)
Definition normalized_change (ty : StockAdjustmentType) (q : Z) : Z :=
  match ty with
  | ADDITION => Z.abs q
  | REMOVAL => - Z.abs q
  | CORRECTION => q
  end.

Definition row_balanced (r : StockAdjustment.t) : Prop :=
  StockAdjustment.new_stock r =
  StockAdjustment.previous_stock r + StockAdjustment.quantity_change r.

(** Sign of the stored change against the type: strictly, and allowing 0. *)
Definition sign_matches (r : StockAdjustment.t) : Prop :=
  match StockAdjustment.adjustment_type r with
  | ADDITION => 0 < StockAdjustment.quantity_change r
  | REMOVAL => StockAdjustment.quantity_change r < 0
  | CORRECTION => True
  end.

Definition sign_agrees (r : StockAdjustment.t) : Prop :=
  match StockAdjustment.adjustment_type r with
  | ADDITION => 0 <= StockAdjustment.quantity_change r
  | REMOVAL => StockAdjustment.quantity_change r <= 0
  | CORRECTION => True
  end.

(** Total quantity the lines draw from item [id]. *)
Fixpoint quantity_used_by (lines : list WorkOrderItem.t) (id : Z) : Z :=
  match lines with
  | [] => 0
  | l :: rest =>
    (if WorkOrderItem.item_id l =? id then WorkOrderItem.quantity_used l
     else 0) + quantity_used_by rest id
  end.

(** The audit row a completed line is specified to leave. *)
Definition removal_row_for (wo : WorkOrder.t) (l : WorkOrderItem.t)
    (r : StockAdjustment.t) : Prop :=
  StockAdjustment.item_id r = WorkOrderItem.item_id l /\
  StockAdjustment.adjustment_type r = REMOVAL /\
  StockAdjustment.quantity_change r = - WorkOrderItem.quantity_used l /\
  StockAdjustment.new_stock r =
    StockAdjustment.previous_stock r - WorkOrderItem.quantity_used l /\
  0 <= StockAdjustment.new_stock r /\
  StockAdjustment.reason r =
    completion_reason (WorkOrder.work_order_number wo) /\
  StockAdjustment.adjusted_by r = WorkOrder.assigned_technician wo.

Definition contains (s sub : string) : Prop :=
  exists pre post, s = String.append pre (String.append sub post).

Definition with_reason (reason : string) (input : AdjustStockInput)
  : AdjustStockInput :=
  mkAdjustStockInput (asi_item_id input) (asi_adjustment_type input)
    (asi_quantity_change input) reason.

Definition StockAdjustment_with_reason (reason : string)
    (r : StockAdjustment.t) : StockAdjustment.t :=
  StockAdjustment.mk (StockAdjustment.id r) (StockAdjustment.item_id r)
    (StockAdjustment.adjustment_type r) (StockAdjustment.quantity_change r)
    reason (StockAdjustment.previous_stock r) (StockAdjustment.new_stock r)
    (StockAdjustment.adjusted_by r) (StockAdjustment.created_at r).

Definition with_quantity_change (q : Z) (input : AdjustStockInput)
  : AdjustStockInput :=
  mkAdjustStockInput (asi_item_id input) (asi_adjustment_type input) q
    (asi_reason input).

(** The valuation of a purchase order as the sum of its line totals. *)
Definition line_total (l : PurchaseOrderLineInput) : Q :=
  Qmult (inject_Z (pli_quantity l)) (pli_unit_price l).

Fixpoint sum_line_totals (ls : list PurchaseOrderLineInput) : Q :=
  match ls with
  | [] => (0 # 1)%Q
  | l :: rest => Qplus (line_total l) (sum_line_totals rest)
  end.

(** ** Column types ([db/schema.ts])

    [integer(..)] holds the 32-bit signed integers.  [numeric(.., {precision,
    scale})] stores without rounding every amount that has at most [scale]
    decimals and at most [precision - scale] digits before the point. *)

Definition integer_column (v : Z) : bool :=
  (-2147483648 <=? v) && (v <=? 2147483647).

Definition numeric_column (precision scale : Z) (q : Q) : bool :=
  (Z.modulo (Qnum q * 10 ^ scale) (Zpos (Qden q)) =? 0)
  && (Z.abs (Qnum q) <? 10 ^ (precision - scale) * Zpos (Qden q)).

(** The numbers a purchase-order request writes fit their columns:
    [quantity], [unit_price] and [total_price] of every line, and
    [total_amount]. *)
Definition purchase_order_fits (input : CreatePurchaseOrderInput) : bool :=
  forallb (fun l => integer_column (pli_quantity l)
                    && numeric_column 10 2 (pli_unit_price l)
                    && numeric_column 12 2 (line_total l))
          (cpo_items input)
  && numeric_column 12 2 (totalAmount (cpo_items input)).

(** The numbers a work-order request writes fit their column:
    [quantity_used] of every line. *)
Definition work_order_fits (input : CreateWorkOrderInput) : bool :=
  forallb (fun l => integer_column (wli_quantity_used l)) (cwo_items input).

(** ** Sample stores, after the fixtures of the test suites *)

Local Open Scope string_scope.

Definition empty_store : DB := mkDB [] [] [] [] [] [] [] [] 1 1 1 1 1 1.

Definition test_item : Item.t :=
  Item.mk 1 "TEST-001" "Test Item" (Some "A test item for stock adjustments")
          100 10 (2550 # 100) 0 0.

(** [adjust_stock.test.ts]: one item with 100 in stock. *)
Definition adjust_store : DB :=
  mkDB [] [test_item] [] [] [] [] [] [] 2 1 1 1 1 1.

Definition item1 : Item.t :=
  Item.mk 1 "ITEM001" "Test Item 1" (Some "First test item") 50 10
          (1599 # 100) 0 0.
Definition item2 : Item.t :=
  Item.mk 2 "ITEM002" "Test Item 2" (Some "Second test item") 30 5
          (2550 # 100) 0 0.

Definition technician : User.t :=
  User.mk 1 "tech_clerk_123" "tech@example.com" "Test Technician" TECHNICIAN
          0 0.

Definition work_order_in_progress : WorkOrder.t :=
  WorkOrder.mk 1 "WO-TEST-001" "Test work order for completion"
               "tech_clerk_123" IN_PROGRESS "tech_clerk_123" 0 0 None.

(** [complete_work_order.test.ts]: two lines, 5 of item 1 and 3 of item 2. *)
Definition completion_store : DB :=
  mkDB [technician] [item1; item2] [] [] [] [work_order_in_progress]
       [WorkOrderItem.mk 1 1 1 5; WorkOrderItem.mk 2 1 2 3] []
       3 1 1 2 3 1.

(** The same work order when its second line asks for 31 of item 2, of which
    30 are in stock. *)
Definition short_store : DB :=
  mkDB [technician] [item1; item2] [] [] [] [work_order_in_progress]
       [WorkOrderItem.mk 1 1 1 5; WorkOrderItem.mk 2 1 2 31] []
       3 1 1 2 3 1.

(** A work order that was created and never started. *)
Definition open_store : DB :=
  mkDB [technician] [] [] [] []
       [WorkOrder.mk 1 "WO-TEST-002" "Test work order in wrong status"
                     "tech_clerk_123" OPEN "tech_clerk_123" 0 0 None]
       [] [] 1 1 1 2 1 1.

Definition test_supplier : Supplier.t :=
  Supplier.mk 1 "Test Supplier" (Some "supplier@test.com") None None None None
              0 0.

(** [create_purchase_order.test.ts]: a supplier and two items. *)
Definition purchasing_store : DB :=
  mkDB [] [item1; item2] [test_supplier] [] [] [] [] [] 3 1 1 1 1 1.

Definition decimal_lines : list PurchaseOrderLineInput :=
  [mkPurchaseOrderLineInput 1 7 (1233 # 100);
   mkPurchaseOrderLineInput 2 3 (4567 # 100)].

(** Two lines for the same, existing, item. *)
Definition repeated_lines : list PurchaseOrderLineInput :=
  [mkPurchaseOrderLineInput 1 2 (5 # 1); mkPurchaseOrderLineInput 1 3 (5 # 1)].

Local Close Scope string_scope.

(** ** Further observations: users, lines of a work-order request *)

(** The user a technician check looks at: the first row with that clerk id. *)
Definition find_user (db : DB) (clerk_id : string) : option User.t :=
  hd_error (filter (fun u => String.eqb (User.clerk_id u) clerk_id)
                   (usersTable db)).

(** A requested line passes step 3 of [createWorkOrder] on its own: the item
    exists and holds at least the requested quantity. *)
Definition line_available (db : DB) (l : WorkOrderLineInput) : bool :=
  match find_item db (wli_item_id l) with
  | Some d => negb (Item.current_stock d <? wli_quantity_used l)
  | None => false
  end.

Definition no_in_progress (db : DB) : Prop :=
  Forall (fun wo => WorkOrder.status wo <> IN_PROGRESS) (workOrdersTable db).

(** The most recent audit row of item [id], if any. *)
Definition last_adjustment (rows : list StockAdjustment.t) (id : Z)
  : option StockAdjustment.t :=
  fold_left (fun acc r => if StockAdjustment.item_id r =? id then Some r
                          else acc) rows None.

(** The ledger agrees with the stock: the most recent audit row of every item
    that has one records the stock the item holds now. *)
Definition ledger_agrees (db : DB) : Prop :=
  forall id row,
    last_adjustment (stockAdjustmentsTable db) id = Some row ->
    stock_of db id = Some (StockAdjustment.new_stock row).

(** Primary keys as the serial sequence hands them out: distinct and below
    the next value. *)
Definition item_keys_fresh (db : DB) : Prop :=
  NoDup (map Item.id (itemsTable db)) /\
  Forall (fun it => Item.id it < items_id_seq db) (itemsTable db).

Definition work_order_keys_fresh (db : DB) : Prop :=
  Forall (fun wo => WorkOrder.id wo < work_orders_id_seq db)
         (workOrdersTable db).

(** ** [getPurchaseOrders] ([server/src/handlers/get_purchase_orders.ts]) *)

(** [select().from(purchaseOrdersTable).innerJoin(suppliersTable,
    eq(purchaseOrdersTable.supplier_id, suppliersTable.id))], keeping the
    purchase-order half of every joined pair. *)
Definition getPurchaseOrders (db : DB) : list PurchaseOrder.t :=
  flat_map
    (fun po =>
       map (fun _ => po)
           (filter (fun s => PurchaseOrder.supplier_id po =? Supplier.id s)
                   (suppliersTable db)))
    (purchaseOrdersTable db).

Definition find_supplier (db : DB) (id : Z) : option Supplier.t :=
  hd_error (filter (fun s => Supplier.id s =? id) (suppliersTable db)).

(** ** [getInventoryHealth] ([handlers/get_inventory_health.ts]; in the source
    tree under [server/src/handlers/create_purchase_order.ts], lines 221-280) *)

Inductive InventoryHealthStatus := CRITICAL | WARNING | HEALTHY.

Record InventoryHealthItem := mkInventoryHealthItem {
  ihi_id : Z;
  ihi_sku : string;
  ihi_name : string;
  ihi_current_stock : Z;
  ihi_minimum_stock : Z;
  ihi_status : InventoryHealthStatus }.

Record InventoryHealthSummary := mkInventoryHealthSummary {
  total_items : Z;
  critical_count : Z;
  warning_count : Z;
  healthy_count : Z }.

Record InventoryHealthReport := mkInventoryHealthReport {
  critical : list InventoryHealthItem;
  warning : list InventoryHealthItem;
  healthy : list InventoryHealthItem;
  summary : InventoryHealthSummary }.

Definition healthItem (item : Item.t) : InventoryHealthItem :=
  mkInventoryHealthItem (Item.id item) (Item.sku item) (Item.name item)
    (Item.current_stock item) (Item.minimum_stock item)
    (if Item.current_stock item =? 0 then CRITICAL
     else if Item.current_stock item <=? Item.minimum_stock item then WARNING
     else HEALTHY).

(** The three arrays of the handler while [forEach] runs. *)
Definition categorize
    (acc : list InventoryHealthItem * list InventoryHealthItem
           * list InventoryHealthItem) (item : Item.t)
  : list InventoryHealthItem * list InventoryHealthItem
    * list InventoryHealthItem :=
  let '(critical, warning, healthy) := acc in
  let h := healthItem item in
  match ihi_status h with
  | CRITICAL => (critical ++ [h], warning, healthy)
  | WARNING => (critical, warning ++ [h], healthy)
  | HEALTHY => (critical, warning, healthy ++ [h])
  end.

Definition getInventoryHealth (db : DB) : InventoryHealthReport :=
  let items := itemsTable db in
  let '(critical, warning, healthy) := fold_left categorize items ([], [], []) in
  mkInventoryHealthReport critical warning healthy
    (mkInventoryHealthSummary (Z.of_nat (length items))
       (Z.of_nat (length critical)) (Z.of_nat (length warning))
       (Z.of_nat (length healthy))).

(** ** [getStockStatus] and [lowStockItems] of the inventory screen
    ([client/src/components/InventoryModule.tsx], lines 161-170) *)

Inductive StockStatus := OutOfStock | LowStock | InStock.

Definition getStockStatus (item : Item.t) : StockStatus :=
  if Item.current_stock item =? 0 then OutOfStock
  else if Item.current_stock item <=? Item.minimum_stock item then LowStock
  else InStock.

Definition lowStockItems (items : list Item.t) : list Item.t :=
  filter (fun item => Item.current_stock item <=? Item.minimum_stock item)
         items.

(** ** [orderBy]

    The engine returns the rows sorted by the given keys; rows that compare
    equal come in an order the engine is free to choose.  The embedding sorts
    by insertion, which keeps such rows in table order. *)

Fixpoint insert_by {A} (leb : A -> A -> bool) (x : A) (l : list A) : list A :=
  match l with
  | [] => [x]
  | y :: rest => if leb x y then x :: l else y :: insert_by leb x rest
  end.

Definition order_by {A} (leb : A -> A -> bool) (l : list A) : list A :=
  fold_right (insert_by leb) [] l.

(** ** [getLowStockAlerts] ([handlers/get_low_stock_alerts.ts]; in the source
    tree under [client/src/App.tsx], lines 217-245)

    [name_leb] is the order of the text column [name] under the collation of
    the database. *)

Definition alert_leb (name_leb : string -> string -> bool) (a b : Item.t)
  : bool :=
  (Item.current_stock a <? Item.current_stock b)
  || ((Item.current_stock a =? Item.current_stock b)
      && name_leb (Item.name a) (Item.name b)).

Definition getLowStockAlerts (name_leb : string -> string -> bool) (db : DB)
  : list Item.t :=
  order_by (alert_leb name_leb)
    (filter (fun it => Item.current_stock it <=? Item.minimum_stock it)
            (itemsTable db)).

(** ** [getStockAdjustments] ([server/src/handlers/get_stock_adjustments.ts]) *)

(** An absent filter is [None].  [item_id] is tested with [!== undefined];
    [adjusted_by] by truthiness, so the empty string sets no condition; the
    type and the dates are truthy whenever present. *)
Record GetStockAdjustmentsFilters := mkGetStockAdjustmentsFilters {
  gsf_item_id : option Z;
  gsf_adjusted_by : option string;
  gsf_adjustment_type : option StockAdjustmentType;
  gsf_start_date : option Z;
  gsf_end_date : option Z;
  gsf_limit : option Z;
  gsf_offset : option Z }.

Definition StockAdjustmentType_eqb (a b : StockAdjustmentType) : bool :=
  match a, b with
  | ADDITION, ADDITION | REMOVAL, REMOVAL | CORRECTION, CORRECTION => true
  | _, _ => false
  end.

(** The conjunction of the conditions pushed for the filters present. *)
Definition conditions (filters : GetStockAdjustmentsFilters)
    (r : StockAdjustment.t) : bool :=
  match gsf_item_id filters with
  | Some id => StockAdjustment.item_id r =? id
  | None => true
  end
  && match gsf_adjusted_by filters with
     | Some EmptyString | None => true
     | Some by_ => String.eqb (StockAdjustment.adjusted_by r) by_
     end
  && match gsf_adjustment_type filters with
     | Some ty => StockAdjustmentType_eqb (StockAdjustment.adjustment_type r) ty
     | None => true
     end
  && match gsf_start_date filters with
     | Some d => d <=? StockAdjustment.created_at r
     | None => true
     end
  && match gsf_end_date filters with
     | Some d => StockAdjustment.created_at r <=? d
     | None => true
     end.

(** The two inner joins: one result row per pair of an item with the row's
    [item_id] and a user whose [clerk_id] is the row's [adjusted_by]. *)
Definition joined_adjustments (db : DB) : list StockAdjustment.t :=
  flat_map
    (fun r =>
       flat_map
         (fun _ : Item.t =>
            map (fun _ : User.t => r)
                (filter (fun u => String.eqb (StockAdjustment.adjusted_by r)
                                             (User.clerk_id u))
                        (usersTable db)))
         (filter (fun it => StockAdjustment.item_id r =? Item.id it)
                 (itemsTable db)))
    (stockAdjustmentsTable db).

(** [filters.limit ?? 100], [filters.offset ?? 0] *)
Definition limit_of (filters : GetStockAdjustmentsFilters) : Z :=
  match gsf_limit filters with Some l => l | None => 100 end.
Definition offset_of (filters : GetStockAdjustmentsFilters) : Z :=
  match gsf_offset filters with Some o => o | None => 0 end.

(** [.limit(limit)]: the query builder writes a LIMIT clause for a limit that
    is not negative and leaves the clause out otherwise, so that a negative
    limit bounds nothing. *)
Definition limit_rows {A} (limit : Z) (rows : list A) : list A :=
  if limit <? 0 then rows else firstn (Z.to_nat limit) rows.

(** [.offset(offset)]: the engine refuses a negative OFFSET, and the handler
    rethrows: [None]. *)
Definition getStockAdjustments (filters : GetStockAdjustmentsFilters)
    (db : DB) : option (list StockAdjustment.t) :=
  if offset_of filters <? 0 then None
  else
    Some (limit_rows (limit_of filters)
            (skipn (Z.to_nat (offset_of filters))
               (order_by
                  (fun a b => StockAdjustment.created_at b
                              <=? StockAdjustment.created_at a)
                  (filter (conditions filters) (joined_adjustments db))))).

Definition no_filters : GetStockAdjustmentsFilters :=
  mkGetStockAdjustmentsFilters None None None None None None None.

(** Rows of a report that carry the given status. *)
Definition has_status (s : InventoryHealthStatus) (h : InventoryHealthItem)
  : bool :=
  match s, ihi_status h with
  | CRITICAL, CRITICAL | WARNING, WARNING | HEALTHY, HEALTHY => true
  | _, _ => false
  end.

(** ** The router and its guards ([server/src/index.ts]; in the source tree
    under [unnamed/part_010], lines 516-732)

    The context is read from two request headers.  [userId] is [None] when
    the header is absent; [userRole] is [None] when the header is absent,
    empty or not the name of a role, the three cases in which
    [!ctx.userRole || !allowedRoles.includes(ctx.userRole)] holds for every
    list of roles. *)

Record Context := mkContext {
  userId : option string;
  userRole : option UserRole }.

Inductive TRPCErrorCode := UNAUTHORIZED | FORBIDDEN | BAD_REQUEST.

(** [requireAuth]: [!ctx.userId] holds for an absent and for an empty id;
    otherwise the procedure runs with the id. *)
Definition requireAuth (ctx : Context) : TRPCErrorCode + string :=
  match userId ctx with
  | None | Some EmptyString => inl UNAUTHORIZED
  | Some id => inr id
  end.

(** [requireRole(allowedRoles)]: [requireAuth] first, then the role. *)
Definition requireRole (allowedRoles : list UserRole) (ctx : Context)
  : TRPCErrorCode + string :=
  match requireAuth ctx with
  | inl code => inl code
  | inr id =>
    match userRole ctx with
    | None => inl FORBIDDEN
    | Some role =>
      if existsb (UserRole_eqb role) allowedRoles then inr id
      else inl FORBIDDEN
    end
  end.

Definition adminProcedure := requireRole [ADMIN].
Definition warehouseManagerProcedure := requireRole [ADMIN; WAREHOUSE_MANAGER].
Definition purchasingProcedure := requireRole [ADMIN; PURCHASING_STAFF].
Definition technicianProcedure := requireRole [ADMIN; TECHNICIAN].

(** The mutations of the router whose handlers are embedded above
    ([users.create] and [suppliers.create] write to their own tables only and
    are not embedded). *)
Inductive Mutation :=
| InventoryItemsCreate (input : CreateItemInput)
| InventoryItemsUpdate (input : UpdateItemInput)
| InventoryAdjustStock (input : AdjustStockInput)
| PurchaseOrdersCreate (input : CreatePurchaseOrderInput)
| WorkOrdersCreate (input : CreateWorkOrderInput)
| WorkOrdersComplete (input : CompleteWorkOrderInput).

Inductive Reply :=
| ItemReply (item : Item.t)
| UpdatedItemReply (item : option Item.t)
| AdjustmentReply (row : StockAdjustment.t)
| PurchaseOrderReply (po : PurchaseOrder.t)
| WorkOrderReply (wo : WorkOrder.t)
| CompletedWorkOrderReply (wo : option WorkOrder.t).

Inductive Refusal :=
| Denied (code : TRPCErrorCode)
| Failed (e : error).

(** The guard the router puts in front of each mutation. *)
Definition guard (m : Mutation) : Context -> TRPCErrorCode + string :=
  match m with
  | InventoryItemsCreate _ | InventoryItemsUpdate _ | InventoryAdjustStock _
  | WorkOrdersCreate _ => warehouseManagerProcedure
  | PurchaseOrdersCreate _ => purchasingProcedure
  | WorkOrdersComplete _ => technicianProcedure
  end.

Definition reply {A} (wrap : A -> Reply) (r : DB * result A)
  : DB * (Refusal + Reply) :=
  match r with
  | (db', Ok a) => (db', inr (wrap a))
  | (db', Err e) => (db', inl (Failed e))
  end.

(** The refinements of the input schemas ([schema.ts]; in the source tree
    under [unnamed/part_010], lines 869-942) that the typed inputs do not
    carry: [nonnegative()] and [positive()]. *)
Definition Qpositive (q : Q) : bool := negb (Qle_bool q (0 # 1)).

Definition option_all {A} (p : A -> bool) (o : option A) : bool :=
  match o with
  | Some a => p a
  | None => true
  end.

Definition createItemInputSchema (input : CreateItemInput) : bool :=
  (0 <=? cii_current_stock input) && (0 <=? cii_minimum_stock input)
  && Qpositive (cii_unit_price input).

Definition updateItemInputSchema (input : UpdateItemInput) : bool :=
  option_all (fun m => 0 <=? m) (uii_minimum_stock input)
  && option_all Qpositive (uii_unit_price input).

Definition createPurchaseOrderInputSchema (input : CreatePurchaseOrderInput)
  : bool :=
  forallb (fun l => (0 <? pli_quantity l) && Qpositive (pli_unit_price l))
          (cpo_items input).

Definition createWorkOrderInputSchema (input : CreateWorkOrderInput) : bool :=
  forallb (fun l => 0 <? wli_quantity_used l) (cwo_items input).

Definition input_schema (m : Mutation) : bool :=
  match m with
  | InventoryItemsCreate input => createItemInputSchema input
  | InventoryItemsUpdate input => updateItemInputSchema input
  | InventoryAdjustStock _ => true
  | PurchaseOrdersCreate input => createPurchaseOrderInputSchema input
  | WorkOrdersCreate input => createWorkOrderInputSchema input
  | WorkOrdersComplete _ => true
  end.

(** One mutation request: the guard, then the input schema, then the handler
    with [ctx.userId] where the router passes it. *)
Definition mutate (ctx : Context) (m : Mutation) (number : string) (now : Z)
    (db : DB) : DB * (Refusal + Reply) :=
  match guard m ctx with
  | inl code => (db, inl (Denied code))
  | inr id =>
    if negb (input_schema m) then (db, inl (Denied BAD_REQUEST))
    else
      match m with
      | InventoryItemsCreate input => reply ItemReply (createItem input now db)
      | InventoryItemsUpdate input =>
        reply UpdatedItemReply (updateItem input now db)
      | InventoryAdjustStock input =>
        reply AdjustmentReply (adjustStock input id now db)
      | PurchaseOrdersCreate input =>
        reply PurchaseOrderReply (createPurchaseOrder input id number now db)
      | WorkOrdersCreate input =>
        reply WorkOrderReply (createWorkOrder input id number now db)
      | WorkOrdersComplete input =>
        reply CompletedWorkOrderReply (completeWorkOrder input now db)
      end
  end.

(** The roles a mutation is open to. *)
Definition open_to (m : Mutation) : list UserRole :=
  match m with
  | InventoryItemsCreate _ | InventoryItemsUpdate _ | InventoryAdjustStock _
  | WorkOrdersCreate _ => [ADMIN; WAREHOUSE_MANAGER]
  | PurchaseOrdersCreate _ => [ADMIN; PURCHASING_STAFF]
  | WorkOrdersComplete _ => [ADMIN; TECHNICIAN]
  end.

(** The store as the router keeps it: no negative stock, and only positive
    quantities on the stored work-order lines. *)
Definition store_sane (db : DB) : Prop :=
  stock_nonneg db /\
  Forall (fun l => 0 < WorkOrderItem.quantity_used l) (workOrderItemsTable db).

Definition writes_items (m : Mutation) : bool :=
  match m with
  | InventoryItemsCreate _ | InventoryItemsUpdate _ | InventoryAdjustStock _
  | WorkOrdersComplete _ => true
  | PurchaseOrdersCreate _ | WorkOrdersCreate _ => false
  end.

(** The errors of the validating steps of [createWorkOrder] (steps 2 and 3)
    and of [createPurchaseOrder] (steps 2 and 3). *)
Definition validation_error (e : error) : bool :=
  match e with
  | TechnicianNotFound | NotATechnician | ItemNotFound _
  | InsufficientStockForItem _ _ _ | SupplierNotFound _ | ItemsNotFound _ =>
    true
  | _ => false
  end.

(** The stock covers the lines of a work order: every line names a stored
    item that holds at least the total the lines draw from it. *)
Definition lines_covered (db : DB) (lines : list WorkOrderItem.t) : bool :=
  forallb (fun l => match stock_of db (WorkOrderItem.item_id l) with
                    | Some s =>
                      quantity_used_by lines (WorkOrderItem.item_id l) <=? s
                    | None => false
                    end) lines.

(** * Properties *)

(** ** Tables under [update ... where eq(id)] *)

Section RowUpdate.
Variable row : Type.
Variable key : row -> Z.
Variable f : row -> row.
Hypothesis f_key : forall r, key (f r) = key r.

Lemma filter_update_same (i : Z) (rows : list row) :
  filter (fun r => key r =? i)
         (map (fun r => if key r =? i then f r else r) rows) =
  map f (filter (fun r => key r =? i) rows).
Proof.
  induction rows as [|r rows IH]; simpl; [reflexivity|].
  destruct (key r =? i) eqn:E.
  - rewrite f_key, E. simpl. now rewrite IH.
  - rewrite E. exact IH.
Qed.

Lemma filter_update_other (i j : Z) (rows : list row) :
  i <> j ->
  filter (fun r => key r =? j)
         (map (fun r => if key r =? i then f r else r) rows) =
  filter (fun r => key r =? j) rows.
Proof.
  intros Hij.
  induction rows as [|r rows IH]; simpl; [reflexivity|].
  destruct (key r =? i) eqn:E.
  - rewrite f_key. apply Z.eqb_eq in E.
    destruct (key r =? j) eqn:E'; [apply Z.eqb_eq in E'; lia|].
    exact IH.
  - destruct (key r =? j); [f_equal|]; exact IH.
Qed.
End RowUpdate.

Lemma stock_of_update_same (db : DB) (i newStock now : Z) :
  stock_of (fst (update_item_stock i newStock now db)) i
  = option_map (fun _ => newStock) (stock_of db i).
Proof.
  unfold stock_of, find_item, update_item_stock. simpl.
  rewrite (filter_update_same Item.t Item.id (Item_set_stock newStock now))
    by (intros; reflexivity).
  destruct (filter _ (itemsTable db)); reflexivity.
Qed.

Lemma stock_of_update_other (db : DB) (i j newStock now : Z) :
  i <> j ->
  stock_of (fst (update_item_stock i newStock now db)) j = stock_of db j.
Proof.
  intros Hij. unfold stock_of, find_item, update_item_stock. simpl.
  rewrite (filter_update_other Item.t Item.id (Item_set_stock newStock now));
    [reflexivity | intros; reflexivity | assumption].
Qed.

Lemma update_item_stock_nonneg (db : DB) (i newStock now : Z) :
  0 <= newStock -> stock_nonneg db ->
  stock_nonneg (fst (update_item_stock i newStock now db)).
Proof.
  unfold stock_nonneg, update_item_stock. simpl. intros Hn H.
  induction H as [|r rows Hr _ IH]; simpl; constructor; [|exact IH].
  destruct (Item.id r =? i); simpl; assumption.
Qed.

(** ** [adjustStock], case by case *)

Ltac unfold_handler :=
  unfold bind, ret, throw, select_items_by_id, select_work_orders_by_id,
    select_work_order_items_by_work_order_id, select_users_by_clerk_id,
    select_suppliers_by_id, select_items_in_array in *.

Lemma adjustStock_not_found (input : AdjustStockInput) (by_ : string)
    (now : Z) (db : DB) :
  find_item db (asi_item_id input) = None ->
  adjustStock input by_ now db = (db, Err (ItemNotFound (asi_item_id input))).
Proof.
  unfold find_item, adjustStock. unfold_handler.
  destruct (filter _ (itemsTable db)); [reflexivity | discriminate].
Qed.

Lemma adjustStock_commits (input : AdjustStockInput) (by_ : string)
    (now : Z) (db : DB) (item : Item.t) :
  find_item db (asi_item_id input) = Some item ->
  asi_adjustment_type input = ADDITION \/
  0 <= Item.current_stock item +
       normalized_change (asi_adjustment_type input)
                         (asi_quantity_change input) ->
  adjustStock input by_ now db =
  insert_stock_adjustment (asi_item_id input) (asi_adjustment_type input)
    (normalized_change (asi_adjustment_type input) (asi_quantity_change input))
    (asi_reason input) (Item.current_stock item)
    (Item.current_stock item +
     normalized_change (asi_adjustment_type input) (asi_quantity_change input))
    by_ now
    (fst (update_item_stock (asi_item_id input)
            (Item.current_stock item +
             normalized_change (asi_adjustment_type input)
                               (asi_quantity_change input)) now db)).
Proof.
  unfold find_item, adjustStock. unfold_handler.
  destruct (filter _ (itemsTable db)) as [|it rest]; [discriminate|].
  simpl. intros [= ->] Hok.
  destruct (asi_adjustment_type input); simpl in *.
  - reflexivity.
  - destruct (Z.ltb_spec (Item.current_stock item
                          + - Z.abs (asi_quantity_change input)) 0);
      [destruct Hok; [discriminate | lia] | reflexivity].
  - destruct (Z.ltb_spec (Item.current_stock item
                          + asi_quantity_change input) 0);
      [destruct Hok; [discriminate | lia] | reflexivity].
Qed.

Lemma adjustStock_insufficient (input : AdjustStockInput) (by_ : string)
    (now : Z) (db : DB) (item : Item.t) :
  find_item db (asi_item_id input) = Some item ->
  asi_adjustment_type input = REMOVAL ->
  Item.current_stock item - Z.abs (asi_quantity_change input) < 0 ->
  adjustStock input by_ now db =
  (db, Err (InsufficientStock (Item.current_stock item)
              (Z.abs (asi_quantity_change input)))).
Proof.
  unfold find_item, adjustStock. unfold_handler.
  destruct (filter _ (itemsTable db)) as [|it rest]; [discriminate|].
  simpl. intros [= ->] -> Hneg. simpl.
  destruct (Z.ltb_spec (Item.current_stock item
                        + - Z.abs (asi_quantity_change input)) 0);
    [reflexivity | lia].
Qed.

Lemma adjustStock_negative_correction (input : AdjustStockInput)
    (by_ : string) (now : Z) (db : DB) (item : Item.t) :
  find_item db (asi_item_id input) = Some item ->
  asi_adjustment_type input = CORRECTION ->
  Item.current_stock item + asi_quantity_change input < 0 ->
  adjustStock input by_ now db =
  (db, Err (NegativeCorrection (Item.current_stock item)
              (asi_quantity_change input))).
Proof.
  unfold find_item, adjustStock. unfold_handler.
  destruct (filter _ (itemsTable db)) as [|it rest]; [discriminate|].
  simpl. intros [= ->] -> Hneg. simpl.
  destruct (Z.ltb_spec (Item.current_stock item
                        + asi_quantity_change input) 0);
    [reflexivity | lia].
Qed.

(** The three ways a call on an existing item can go. *)
Lemma adjustStock_cases (input : AdjustStockInput) (item : Item.t) :
  let d := normalized_change (asi_adjustment_type input)
                             (asi_quantity_change input) in
  (asi_adjustment_type input = ADDITION \/ 0 <= Item.current_stock item + d)
  \/ (asi_adjustment_type input = REMOVAL /\
      Item.current_stock item - Z.abs (asi_quantity_change input) < 0)
  \/ (asi_adjustment_type input = CORRECTION /\
      Item.current_stock item + asi_quantity_change input < 0).
Proof.
  destruct (asi_adjustment_type input) eqn:E; simpl.
  - left. now left.
  - destruct (Z.lt_ge_cases
                (Item.current_stock item - Z.abs (asi_quantity_change input))
                0); [right; left; easy | left; right; lia].
  - destruct (Z.lt_ge_cases
                (Item.current_stock item + asi_quantity_change input) 0);
      [right; right; easy | left; right; lia].
Qed.

Lemma adjustStock_failure_keeps_store (input : AdjustStockInput)
    (by_ : string) (now : Z) (db : DB) (e : error) :
  outcome (adjustStock input by_ now db) = Err e ->
  store_after (adjustStock input by_ now db) = db.
Proof.
  destruct (find_item db (asi_item_id input)) as [item|] eqn:F.
  - destruct (adjustStock_cases input item) as [H | [[H1 H2] | [H1 H2]]].
    + rewrite (adjustStock_commits _ _ _ _ _ F H). discriminate.
    + now rewrite (adjustStock_insufficient _ _ _ _ _ F H1 H2).
    + now rewrite (adjustStock_negative_correction _ _ _ _ _ F H1 H2).
  - now rewrite (adjustStock_not_found _ _ _ _ F).
Qed.

Lemma adjustStock_opposite (input : AdjustStockInput) (by_ : string)
    (now : Z) (db : DB) :
  asi_adjustment_type input <> CORRECTION ->
  adjustStock (with_quantity_change (- asi_quantity_change input) input)
              by_ now db
  = adjustStock input by_ now db.
Proof.
  intros Hty. unfold adjustStock, with_quantity_change. simpl.
  destruct (asi_adjustment_type input); [| |congruence];
    now rewrite Z.abs_opp.
Qed.

Lemma adjustStock_success_row (input : AdjustStockInput) (by_ : string)
    (now : Z) (db : DB) (item : Item.t) (row : StockAdjustment.t) :
  find_item db (asi_item_id input) = Some item ->
  outcome (adjustStock input by_ now db) = Ok row ->
  row = StockAdjustment.mk (stock_adjustments_id_seq db) (asi_item_id input)
          (asi_adjustment_type input)
          (normalized_change (asi_adjustment_type input)
                             (asi_quantity_change input))
          (asi_reason input) (Item.current_stock item)
          (Item.current_stock item
           + normalized_change (asi_adjustment_type input)
                               (asi_quantity_change input))
          by_ now /\
  stock_of (store_after (adjustStock input by_ now db)) (asi_item_id input)
    = Some (StockAdjustment.new_stock row) /\
  stockAdjustmentsTable (store_after (adjustStock input by_ now db))
    = stockAdjustmentsTable db ++ [row].
Proof.
  intros F Hok.
  destruct (adjustStock_cases input item) as [H | [[H1 H2] | [H1 H2]]].
  - rewrite (adjustStock_commits _ _ _ _ _ F H) in Hok |- *.
    unfold insert_stock_adjustment, outcome, store_after in *. simpl in *.
    injection Hok as <-. simpl.
    repeat split.
    change (stock_of
              (fst (update_item_stock (asi_item_id input)
                      (Item.current_stock item
                       + normalized_change (asi_adjustment_type input)
                                           (asi_quantity_change input))
                      now db)) (asi_item_id input)
            = Some (Item.current_stock item
                    + normalized_change (asi_adjustment_type input)
                                        (asi_quantity_change input))).
    rewrite stock_of_update_same. unfold stock_of. now rewrite F.
  - rewrite (adjustStock_insufficient _ _ _ _ _ F H1 H2) in Hok. discriminate.
  - rewrite (adjustStock_negative_correction _ _ _ _ _ F H1 H2) in Hok.
    discriminate.
Qed.

(** C4: on an existing item, [adjustStock] applies the delta normalised by
    type: ADDITION adds the magnitude of the quantity, REMOVAL subtracts it,
    CORRECTION applies the quantity as given.  Whenever the call returns, the
    row it returns stores that signed value rather than the raw input,
    together with the stock before and after, and the item holds the new
    stock.  The call does return whenever the new stock is not negative (for
    an ADDITION: in any case) and the three numbers of the row fit the
    integer columns.  For ADDITION and REMOVAL the sign of the input is
    immaterial: a call with the opposite quantity behaves identically. *)
Theorem adjustStock_normalizes (input : AdjustStockInput) (by_ : string)
    (now : Z) (db : DB) (item : Item.t) :
  find_item db (asi_item_id input) = Some item ->
  let previous := Item.current_stock item in
  let d := normalized_change (asi_adjustment_type input)
                             (asi_quantity_change input) in
  let r := adjustStock input by_ now db in
  (forall row,
     outcome r = Ok row ->
     StockAdjustment.quantity_change row = d /\
     StockAdjustment.adjustment_type row = asi_adjustment_type input /\
     StockAdjustment.previous_stock row = previous /\
     StockAdjustment.new_stock row = previous + d /\
     stock_of (store_after r) (asi_item_id input) = Some (previous + d) /\
     stockAdjustmentsTable (store_after r)
     = stockAdjustmentsTable db ++ [row]) /\
  (integer_column previous = true ->
   integer_column d = true ->
   integer_column (previous + d) = true ->
   asi_adjustment_type input = ADDITION \/ 0 <= previous + d ->
   exists row, outcome r = Ok row) /\
  (asi_adjustment_type input <> CORRECTION ->
   adjustStock (with_quantity_change (- asi_quantity_change input) input)
               by_ now db
   = r).
Proof.
  intros F previous d r. subst previous d r.
  split; [|split].
  - intros row Hok.
    destruct (adjustStock_success_row _ _ _ _ _ _ F Hok)
      as (Hrow & Hstock & Htab).
    rewrite Hstock, Htab. subst row. simpl. now repeat split.
  - intros _ _ _ Hfits.
    rewrite (adjustStock_commits _ _ _ _ _ F Hfits).
    unfold insert_stock_adjustment, outcome. cbn [snd]. eexists. reflexivity.
  - apply adjustStock_opposite.
Qed.

(** Scenario C and its companions, on the item holding 100: a REMOVAL called
    with -40 stores -40 and leaves 60, exactly as a call with +40 does; an
    ADDITION called with -40 stores +40 and leaves 140; a CORRECTION by -40
    stores -40 and leaves 60, one by +40 stores +40 and leaves 140. *)
Lemma adjustStock_normalizes_witness :
  let call ty q := adjustStock (mkAdjustStockInput 1 ty q "x")
                     "user_test123" 5 adjust_store in
  find_item adjust_store 1 = Some test_item /\
  outcome (call REMOVAL (-40))
  = Ok (StockAdjustment.mk 1 1 REMOVAL (-40) "x" 100 60 "user_test123" 5) /\
  stock_of (store_after (call REMOVAL (-40))) 1 = Some 60 /\
  call REMOVAL 40 = call REMOVAL (-40) /\
  outcome (call ADDITION (-40))
  = Ok (StockAdjustment.mk 1 1 ADDITION 40 "x" 100 140 "user_test123" 5) /\
  stock_of (store_after (call ADDITION (-40))) 1 = Some 140 /\
  outcome (call CORRECTION (-40))
  = Ok (StockAdjustment.mk 1 1 CORRECTION (-40) "x" 100 60 "user_test123" 5)
  /\
  outcome (call CORRECTION 40)
  = Ok (StockAdjustment.mk 1 1 CORRECTION 40 "x" 100 140 "user_test123" 5).
Proof.
  intros call.
  destruct (adjustStock_normalizes (mkAdjustStockInput 1 REMOVAL (-40) "x")
              "user_test123" 5 adjust_store test_item eq_refl)
    as (Hrem & _ & Hopp).
  destruct (adjustStock_normalizes (mkAdjustStockInput 1 ADDITION (-40) "x")
              "user_test123" 5 adjust_store test_item eq_refl)
    as (Hadd & _ & _).
  destruct (Hrem _ eq_refl) as (_ & _ & _ & _ & Srem & _).
  destruct (Hadd _ eq_refl) as (_ & _ & _ & _ & Sadd & _).
  split; [reflexivity|]. split; [reflexivity|]. split; [exact Srem|].
  split; [apply Hopp; discriminate|].
  split; [reflexivity|]. split; [exact Sadd|].
  split; reflexivity.
Defined.

(** C5: [adjustStock] throws the insufficient-stock error exactly when the
    type is REMOVAL and the new stock would be negative, the negative-stock
    error exactly when the type is CORRECTION and the new stock would be
    negative; an ADDITION never throws either of the two; an unknown item is
    reported; and whenever the call fails the store is left as it was, so
    neither [current_stock] nor the adjustments table changes. *)
Theorem adjustStock_failure_modes (input : AdjustStockInput) (by_ : string)
    (now : Z) (db : DB) :
  let r := adjustStock input by_ now db in
  (forall item, find_item db (asi_item_id input) = Some item ->
     ((exists c a, outcome r = Err (InsufficientStock c a)) <->
      asi_adjustment_type input = REMOVAL /\
      Item.current_stock item - Z.abs (asi_quantity_change input) < 0) /\
     ((exists c q, outcome r = Err (NegativeCorrection c q)) <->
      asi_adjustment_type input = CORRECTION /\
      Item.current_stock item + asi_quantity_change input < 0) /\
     (asi_adjustment_type input = ADDITION ->
      forall c q, outcome r <> Err (InsufficientStock c q) /\
                  outcome r <> Err (NegativeCorrection c q))) /\
  (find_item db (asi_item_id input) = None ->
   outcome r = Err (ItemNotFound (asi_item_id input))) /\
  (forall e, outcome r = Err e ->
     store_after r = db /\
     stock_levels (store_after r) = stock_levels db /\
     stockAdjustmentsTable (store_after r) = stockAdjustmentsTable db).
Proof.
  intros r. subst r. split; [|split].
  - intros item F.
    destruct (adjustStock_cases input item) as [H | [[H1 H2] | [H1 H2]]].
    + rewrite (adjustStock_commits _ _ _ _ _ F H).
      unfold insert_stock_adjustment, outcome. simpl.
      split; [|split].
      * split; [intros (c & a & E); discriminate|].
        intros [Hty Hneg]. destruct H as [H|H]; [congruence|].
        rewrite Hty in H. simpl in H. lia.
      * split; [intros (c & a & E); discriminate|].
        intros [Hty Hneg]. destruct H as [H|H]; [congruence|].
        rewrite Hty in H. simpl in H. lia.
      * intros _ c q. split; discriminate.
    + rewrite (adjustStock_insufficient _ _ _ _ _ F H1 H2).
      unfold outcome. simpl. split; [|split].
      * split; [tauto | intros _; eauto].
      * split; [intros (c & a & E); discriminate | intros [Hty _]; congruence].
      * congruence.
    + rewrite (adjustStock_negative_correction _ _ _ _ _ F H1 H2).
      unfold outcome. simpl. split; [|split].
      * split; [intros (c & a & E); discriminate | intros [Hty _]; congruence].
      * split; [tauto | intros _; eauto].
      * congruence.
  - intros F. now rewrite (adjustStock_not_found _ _ _ _ F).
  - intros e He.
    rewrite (adjustStock_failure_keeps_store _ _ _ _ _ He). now repeat split.
Qed.

(** Scenario B: stock 100, REMOVAL of 150 fails and the stock remains 100. *)
Lemma adjustStock_failure_modes_witness :
  let input := mkAdjustStockInput 1 REMOVAL 150 "x" in
  let r := adjustStock input "user_test123" 5 adjust_store in
  find_item adjust_store 1 = Some test_item /\
  outcome r = Err (InsufficientStock 100 150) /\
  store_after r = adjust_store /\
  stock_of (store_after r) 1 = Some 100.
Proof.
  intros input r.
  destruct (adjustStock_failure_modes input "user_test123" 5 adjust_store)
    as (Hfound & _ & Hkeep).
  destruct (Hfound test_item eq_refl) as ((_ & Hins) & _ & _).
  assert (E : outcome r = Err (InsufficientStock 100 150)) by reflexivity.
  destruct (Hkeep _ E) as (K & _ & _).
  split; [reflexivity|]. split; [exact E|]. split; [exact K|].
  fold r in K. rewrite K. reflexivity.
Defined.

(** The handler never looks at the reason. *)
Lemma adjustStock_with_reason (input : AdjustStockInput) (reason : string)
    (by_ : string) (now : Z) (db : DB) :
  let r := adjustStock input by_ now db in
  let r' := adjustStock (with_reason reason input) by_ now db in
  itemsTable (store_after r') = itemsTable (store_after r) /\
  match outcome r, outcome r' with
  | Ok row, Ok row' =>
    row' = StockAdjustment_with_reason reason row /\
    stockAdjustmentsTable (store_after r') = stockAdjustmentsTable db ++ [row']
  | Err e, Err e' => e' = e
  | _, _ => False
  end.
Proof.
  simpl.
  destruct (find_item db (asi_item_id input)) as [item|] eqn:F.
  - assert (F' : find_item db (asi_item_id (with_reason reason input))
                 = Some item) by exact F.
    destruct (adjustStock_cases input item) as [H | [[H1 H2] | [H1 H2]]].
    + rewrite (adjustStock_commits _ _ _ _ _ F H).
      rewrite (adjustStock_commits _ _ _ _ _ F' H).
      simpl. repeat split.
    + rewrite (adjustStock_insufficient _ _ _ _ _ F H1 H2).
      rewrite (adjustStock_insufficient _ _ _ _ _ F' H1 H2).
      simpl. repeat split.
    + rewrite (adjustStock_negative_correction _ _ _ _ _ F H1 H2).
      rewrite (adjustStock_negative_correction _ _ _ _ _ F' H1 H2).
      simpl. repeat split.
  - assert (F' : find_item db (asi_item_id (with_reason reason input)) = None)
      by exact F.
    rewrite (adjustStock_not_found _ _ _ _ F).
    rewrite (adjustStock_not_found _ _ _ _ F').
    simpl. repeat split.
Qed.

(** C8, as stated, fails: an ADDITION of 50 with the empty reason on the item
    holding 100 succeeds, moves the stock to 150 and records a row whose
    reason is empty. *)
Lemma adjustStock_empty_reason_accepted :
  outcome (adjustStock (mkAdjustStockInput 1 ADDITION 50 EmptyString)
             "user_test123" 5 adjust_store)
  = Ok (StockAdjustment.mk 1 1 ADDITION 50 EmptyString 100 150
          "user_test123" 5) /\
  stock_of (store_after
              (adjustStock (mkAdjustStockInput 1 ADDITION 50 EmptyString)
                 "user_test123" 5 adjust_store)) 1 = Some 150 /\
  ~ (forall (input : AdjustStockInput) (by_ : string) (now : Z) (db : DB),
       asi_reason input = EmptyString ->
       is_Ok (outcome (adjustStock input by_ now db)) = false /\
       store_after (adjustStock input by_ now db) = db).
Proof.
  split; [reflexivity|]. split; [reflexivity|].
  intros H.
  destruct (H (mkAdjustStockInput 1 ADDITION 50 EmptyString)
              "user_test123"%string 5 adjust_store eq_refl) as [Hfail _].
  vm_compute in Hfail. discriminate.
Qed.

(** C8, amended: the reason is a required string that may be empty.
    [adjustStock] does not inspect it: a call with the reason replaced (by the
    empty string, say) fails with the same error or succeeds with the same
    stock movement as the original call, and the row it records carries the
    reason exactly as given. *)
Theorem adjustStock_reason_verbatim (input : AdjustStockInput)
    (by_ : string) (now : Z) (db : DB) :
  let r := adjustStock input by_ now db in
  let r0 := adjustStock (with_reason EmptyString input) by_ now db in
  is_Ok (outcome r0) = is_Ok (outcome r) /\
  itemsTable (store_after r0) = itemsTable (store_after r) /\
  (forall e, outcome r = Err e -> outcome r0 = Err e) /\
  (forall row, outcome r = Ok row ->
     StockAdjustment.reason row = asi_reason input /\
     outcome r0 = Ok (StockAdjustment_with_reason EmptyString row) /\
     stockAdjustmentsTable (store_after r0)
       = stockAdjustmentsTable db
         ++ [StockAdjustment_with_reason EmptyString row]).
Proof.
  intros r r0.
  destruct (adjustStock_with_reason input EmptyString by_ now db) as [Hi Ho].
  fold r r0 in Hi, Ho.
  assert (Hr : forall row, outcome r = Ok row ->
               StockAdjustment.reason row = asi_reason input).
  { intros row Hrow. subst r.
    destruct (find_item db (asi_item_id input)) as [item|] eqn:F.
    - destruct (adjustStock_success_row _ _ _ _ _ _ F Hrow) as (-> & _).
      reflexivity.
    - rewrite (adjustStock_not_found _ _ _ _ F) in Hrow. discriminate. }
  destruct (outcome r) as [row|e] eqn:Er, (outcome r0) as [row0|e0] eqn:Er0;
    try contradiction.
  - destruct Ho as [-> Ht].
    split; [reflexivity|]. split; [assumption|]. split; [discriminate|].
    intros row' [= <-]. split; [now apply Hr|]. split; [reflexivity | exact Ht].
  - subst e0.
    split; [reflexivity|]. split; [assumption|].
    split; [intros e' [= <-]; reflexivity | discriminate].
Qed.

Lemma adjustStock_reason_verbatim_witness :
  let input := mkAdjustStockInput 1 ADDITION 50 "restock" in
  let r0 := adjustStock (with_reason EmptyString input) "user_test123" 5
              adjust_store in
  outcome r0
    = Ok (StockAdjustment.mk 1 1 ADDITION 50 EmptyString 100 150
            "user_test123" 5) /\
  stock_of (store_after r0) 1 = Some 150.
Proof.
  intros input r0.
  destruct (adjustStock_reason_verbatim input "user_test123" 5 adjust_store)
    as (_ & _ & _ & Hrow).
  destruct (Hrow (StockAdjustment.mk 1 1 ADDITION 50 "restock" 100 150
                    "user_test123" 5) eq_refl) as (_ & Ho & _).
  split; [exact Ho | reflexivity].
Defined.

(** ** Loops: a failing loop stops at its first failing element *)

Lemma for_of_failure {A} (body : A -> M unit) (xs : list A) (db db' : DB)
    (e : error) :
  for_of xs body db = (db', Err e) ->
  exists pre x post dbm,
    xs = pre ++ x :: post /\
    for_of pre body db = (dbm, Ok tt) /\
    body x dbm = (db', Err e).
Proof.
  revert db. induction xs as [|x xs IH]; intros db H; simpl in H.
  - discriminate.
  - unfold bind in H. destruct (body x db) as [db1 [[]|e1]] eqn:B.
    + destruct (IH _ H) as (pre & y & post & dbm & -> & Hpre & Hy).
      exists (x :: pre), y, post, dbm.
      split; [reflexivity|]. split; [|exact Hy].
      simpl. unfold bind. rewrite B. exact Hpre.
    + injection H as <- <-. exists [], x, xs, db.
      split; [reflexivity|]. split; [reflexivity | exact B].
Qed.

Lemma for_of_preserves {A} (P : DB -> Prop) (body : A -> M unit)
    (xs : list A) :
  (forall x db, P db -> P (fst (body x db))) ->
  forall db, P db -> P (fst (for_of xs body db)).
Proof.
  intros Hbody. induction xs as [|x xs IH]; intros db HP; simpl.
  - exact HP.
  - unfold bind. specialize (Hbody x db HP).
    destruct (body x db) as [db1 [u|e]]; simpl in *; [now apply IH | exact Hbody].
Qed.

(** ** [completeWorkOrder]: one line, then all lines *)

Lemma deduct_line_cases (wo : WorkOrder.t) (now : Z) (l : WorkOrderItem.t)
    (db : DB) :
  match find_item db (WorkOrderItem.item_id l) with
  | None =>
    deduct_line wo now l db
    = (db, Err (ItemNotFound (WorkOrderItem.item_id l)))
  | Some item =>
    let previousStock := Item.current_stock item in
    let newStock := previousStock - WorkOrderItem.quantity_used l in
    (newStock < 0 /\
     deduct_line wo now l db
     = (db, Err (InsufficientStockForItem (Item.sku item) previousStock
                   (WorkOrderItem.quantity_used l))))
    \/
    (0 <= newStock /\
     deduct_line wo now l db
     = (fst (insert_stock_adjustment (WorkOrderItem.item_id l) REMOVAL
               (- WorkOrderItem.quantity_used l)
               (completion_reason (WorkOrder.work_order_number wo))
               previousStock newStock (WorkOrder.assigned_technician wo) now
               (fst (update_item_stock (WorkOrderItem.item_id l) newStock now
                       db))),
        Ok tt))
  end.
Proof.
  unfold find_item, deduct_line. unfold_handler.
  destruct (filter _ (itemsTable db)) as [|item rest]; simpl; [reflexivity|].
  destruct (Z.ltb_spec (Item.current_stock item
                        - WorkOrderItem.quantity_used l) 0);
    [left | right]; (split; [assumption | reflexivity]).
Qed.

Lemma deduct_line_failure (wo : WorkOrder.t) (now : Z) (l : WorkOrderItem.t)
    (db db' : DB) (e : error) :
  deduct_line wo now l db = (db', Err e) -> db' = db.
Proof.
  intros H. pose proof (deduct_line_cases wo now l db) as C.
  destruct (find_item db (WorkOrderItem.item_id l)) as [item|].
  - destruct C as [[_ C] | [_ C]]; rewrite C in H.
    + now injection H.
    + discriminate.
  - rewrite C in H. now injection H.
Qed.

Lemma option_map_minus_0 (o : option Z) :
  option_map (fun s => s - 0) o = o.
Proof. destruct o; simpl; [f_equal; lia | reflexivity]. Qed.

Lemma deduct_line_ok (wo : WorkOrder.t) (now : Z) (l : WorkOrderItem.t)
    (db db' : DB) (u : unit) :
  deduct_line wo now l db = (db', Ok u) ->
  exists row,
    stockAdjustmentsTable db' = stockAdjustmentsTable db ++ [row] /\
    removal_row_for wo l row /\
    row_balanced row /\
    workOrdersTable db' = workOrdersTable db /\
    workOrderItemsTable db' = workOrderItemsTable db /\
    (forall i,
       stock_of db' i =
       option_map
         (fun s => s - (if WorkOrderItem.item_id l =? i
                        then WorkOrderItem.quantity_used l else 0))
         (stock_of db i)).
Proof.
  intros H. pose proof (deduct_line_cases wo now l db) as C.
  destruct (find_item db (WorkOrderItem.item_id l)) as [item|] eqn:F;
    [|rewrite C in H; discriminate].
  destruct C as [[_ C] | [Hnn C]]; rewrite C in H; [discriminate|].
  injection H as <- _.
  eexists. split; [reflexivity|].
  split; [unfold removal_row_for; simpl; repeat split; assumption|].
  split; [unfold row_balanced; simpl; lia|].
  split; [reflexivity|]. split; [reflexivity|].
  intros i.
  change (stock_of
            (fst (update_item_stock (WorkOrderItem.item_id l)
                    (Item.current_stock item - WorkOrderItem.quantity_used l)
                    now db)) i
          = option_map
              (fun s => s - (if WorkOrderItem.item_id l =? i
                             then WorkOrderItem.quantity_used l else 0))
              (stock_of db i)).
  destruct (Z.eqb_spec (WorkOrderItem.item_id l) i) as [<- | Hne].
  - rewrite stock_of_update_same.
    unfold stock_of. rewrite F. reflexivity.
  - rewrite stock_of_update_other by assumption.
    now rewrite option_map_minus_0.
Qed.

Lemma deduct_lines_ok (wo : WorkOrder.t) (now : Z)
    (ls : list WorkOrderItem.t) :
  forall (db db' : DB) (u : unit),
    for_of ls (deduct_line wo now) db = (db', Ok u) ->
    exists rows,
      stockAdjustmentsTable db' = stockAdjustmentsTable db ++ rows /\
      Forall2 (removal_row_for wo) ls rows /\
      Forall row_balanced rows /\
      workOrdersTable db' = workOrdersTable db /\
      workOrderItemsTable db' = workOrderItemsTable db /\
      (forall i,
         stock_of db' i =
         option_map (fun s => s - quantity_used_by ls i) (stock_of db i)).
Proof.
  induction ls as [|l ls IH]; intros db db' u H; simpl in H.
  - injection H as <- _. exists [].
    rewrite app_nil_r. repeat split; try constructor.
    intros i. simpl. now rewrite option_map_minus_0.
  - unfold bind in H.
    destruct (deduct_line wo now l db) as [db1 [u1|e1]] eqn:D; [|discriminate].
    destruct (deduct_line_ok _ _ _ _ _ _ D)
      as (row & Ht & Hrow & Hbal & Hwo & Hwoi & Hst).
    destruct (IH _ _ _ H) as (rows & Ht' & Hrows & Hbals & Hwo' & Hwoi' & Hst').
    exists (row :: rows).
    split; [rewrite Ht', Ht, <- app_assoc; reflexivity|].
    split; [constructor; assumption|].
    split; [constructor; assumption|].
    split; [congruence|]. split; [congruence|].
    intros i. rewrite Hst', Hst. simpl.
    destruct (stock_of db i); simpl; [f_equal; lia | reflexivity].
Qed.

Lemma completeWorkOrder_not_found (input : CompleteWorkOrderInput) (now : Z)
    (db : DB) :
  find_work_order db (cwi_work_order_id input) = None ->
  completeWorkOrder input now db
  = (db, Err (WorkOrderNotFound (cwi_work_order_id input))).
Proof.
  unfold find_work_order, completeWorkOrder. unfold_handler.
  destruct (filter _ (workOrdersTable db)); [reflexivity | discriminate].
Qed.

Lemma completeWorkOrder_wrong_status (input : CompleteWorkOrderInput)
    (now : Z) (db : DB) (wo : WorkOrder.t) :
  find_work_order db (cwi_work_order_id input) = Some wo ->
  WorkOrder.status wo <> IN_PROGRESS ->
  completeWorkOrder input now db
  = (db, Err (WorkOrderNotInProgress (WorkOrder.status wo))).
Proof.
  unfold find_work_order, completeWorkOrder. unfold_handler.
  destruct (filter _ (workOrdersTable db)) as [|w rest]; [discriminate|].
  simpl. intros [= ->] Hst.
  destruct (WorkOrder.status wo); simpl; [reflexivity | congruence | reflexivity].
Qed.

Lemma completeWorkOrder_in_progress (input : CompleteWorkOrderInput)
    (now : Z) (db : DB) (wo : WorkOrder.t) :
  find_work_order db (cwi_work_order_id input) = Some wo ->
  WorkOrder.status wo = IN_PROGRESS ->
  completeWorkOrder input now db =
  match for_of (lines_of db (cwi_work_order_id input)) (deduct_line wo now) db
  with
  | (db1, Ok _) =>
    let db2 :=
      fst (update_work_order_completed (cwi_work_order_id input) now db1) in
    (db2, Ok (find_work_order db2 (cwi_work_order_id input)))
  | (db1, Err e) => (db1, Err e)
  end.
Proof.
  unfold find_work_order, completeWorkOrder, lines_of. unfold_handler.
  destruct (filter _ (workOrdersTable db)) as [|w rest]; [discriminate|].
  simpl. intros [= ->] ->. simpl.
  destruct (for_of _ _ db) as [db1 [u|e]]; reflexivity.
Qed.

Lemma find_work_order_completed (id now : Z) (db : DB) :
  find_work_order (fst (update_work_order_completed id now db)) id
  = option_map (WorkOrder_complete now) (find_work_order db id).
Proof.
  unfold find_work_order, update_work_order_completed. simpl.
  rewrite (filter_update_same WorkOrder.t WorkOrder.id
             (WorkOrder_complete now)) by (intros; reflexivity).
  destruct (filter _ (workOrdersTable db)); reflexivity.
Qed.

Lemma completion_reason_contains (number : string) :
  contains (completion_reason number) number.
Proof.
  exists "Work order completion: "%string, EmptyString.
  unfold completion_reason. f_equal.
  induction number as [|c s IH]; simpl; [reflexivity | now rewrite <- IH].
Qed.

Lemma status_dec (s : WorkOrderStatus) : {s = IN_PROGRESS} + {s <> IN_PROGRESS}.
Proof. destruct s; [right | left | right]; congruence. Qed.

(** The claim of C1 as stated fails: on the work order whose first line (5 of
    item 1, 50 in stock) can be served and whose second line (31 of item 2, 30
    in stock) cannot, the call throws the insufficient-stock error while the
    deduction and the audit row of the first line stay in the store. *)
Lemma completeWorkOrder_partial_deduction :
  outcome (completeWorkOrder (mkCompleteWorkOrderInput 1) 7 short_store)
  = Err (InsufficientStockForItem "ITEM002" 30 31) /\
  stock_of short_store 1 = Some 50 /\
  stock_of (store_after
              (completeWorkOrder (mkCompleteWorkOrderInput 1) 7 short_store)) 1
  = Some 45 /\
  stockAdjustmentsTable short_store = [] /\
  stockAdjustmentsTable
    (store_after (completeWorkOrder (mkCompleteWorkOrderInput 1) 7 short_store))
  = [StockAdjustment.mk 1 1 REMOVAL (-5)
       "Work order completion: WO-TEST-001" 50 45 "tech_clerk_123" 7] /\
  ~ (forall (input : CompleteWorkOrderInput) (now : Z) (db : DB)
            (label : string) (available required : Z),
       outcome (completeWorkOrder input now db)
       = Err (InsufficientStockForItem label available required) ->
       stockAdjustmentsTable (store_after (completeWorkOrder input now db))
       = stockAdjustmentsTable db /\
       stock_levels (store_after (completeWorkOrder input now db))
       = stock_levels db /\
       map WorkOrder.status
           (workOrdersTable (store_after (completeWorkOrder input now db)))
       = map WorkOrder.status (workOrdersTable db)).
Proof.
  split; [reflexivity|]. split; [reflexivity|]. split; [reflexivity|].
  split; [reflexivity|]. split; [reflexivity|].
  intros H.
  destruct (H (mkCompleteWorkOrderInput 1) 7 short_store "ITEM002"%string 30 31
              eq_refl) as (_ & Hstock & _).
  vm_compute in Hstock. discriminate.
Qed.

(** C1, amended: when [completeWorkOrder] stops on the insufficient-stock
    check of a line, the lines before that line have been applied and stay
    applied (one audit row each, their items decremented), the failing line
    and the lines after it leave no trace, and the work-orders table, so the
    status of the work order, is unchanged.  When the failing line is the
    first one the store is exactly as before the call. *)
Theorem completeWorkOrder_stops_at_failing_line
    (input : CompleteWorkOrderInput) (now : Z) (db : DB) (label : string)
    (available required : Z) :
  outcome (completeWorkOrder input now db)
  = Err (InsufficientStockForItem label available required) ->
  let db' := store_after (completeWorkOrder input now db) in
  exists wo pre l post rows,
    find_work_order db (cwi_work_order_id input) = Some wo /\
    lines_of db (cwi_work_order_id input) = pre ++ l :: post /\
    for_of pre (deduct_line wo now) db = (db', Ok tt) /\
    deduct_line wo now l db'
    = (db', Err (InsufficientStockForItem label available required)) /\
    stockAdjustmentsTable db' = stockAdjustmentsTable db ++ rows /\
    Forall2 (removal_row_for wo) pre rows /\
    (forall i,
       stock_of db' i =
       option_map (fun s => s - quantity_used_by pre i) (stock_of db i)) /\
    workOrdersTable db' = workOrdersTable db /\
    (pre = [] -> db' = db).
Proof.
  intros H db'. subst db'.
  destruct (find_work_order db (cwi_work_order_id input)) as [wo|] eqn:F;
    [|rewrite (completeWorkOrder_not_found _ _ _ F) in H; discriminate].
  destruct (status_dec (WorkOrder.status wo)) as [S|S];
    [|rewrite (completeWorkOrder_wrong_status _ _ _ _ F S) in H; discriminate].
  rewrite (completeWorkOrder_in_progress _ _ _ _ F S) in H |- *.
  destruct (for_of _ _ db) as [db1 [u|e]] eqn:L; [discriminate|].
  unfold outcome, store_after in *. simpl in *. injection H as ->.
  destruct (for_of_failure _ _ _ _ _ L) as (pre & l & post & dbm & Hl & Hpre & Hbody).
  assert (db1 = dbm) by (eapply deduct_line_failure; exact Hbody). subst dbm.
  destruct (deduct_lines_ok _ _ _ _ _ _ Hpre)
    as (rows & Ht & Hrows & _ & Hwo & _ & Hst).
  exists wo, pre, l, post, rows.
  split; [reflexivity|].
  repeat (split; [assumption|]).
  intros ->. simpl in Hpre. now injection Hpre.
Qed.

Lemma completeWorkOrder_stops_at_failing_line_witness :
  let r := completeWorkOrder (mkCompleteWorkOrderInput 1) 7 short_store in
  outcome r = Err (InsufficientStockForItem "ITEM002" 30 31) /\
  exists rows,
    stockAdjustmentsTable (store_after r)
    = stockAdjustmentsTable short_store ++ rows /\
    length rows = 1%nat /\
    stock_of (store_after r) 1 = Some 45 /\
    stock_of (store_after r) 2 = Some 30 /\
    workOrdersTable (store_after r) = workOrdersTable short_store.
Proof.
  intros r. split; [reflexivity|].
  destruct (completeWorkOrder_stops_at_failing_line
              (mkCompleteWorkOrderInput 1) 7 short_store "ITEM002" 30 31
              eq_refl)
    as (wo & pre & l & post & rows & _ & _ & _ & _ & Ht & _ & _ & Hwo & _).
  exists rows. fold r in Ht, Hwo.
  split; [exact Ht|].
  split; [|split; [reflexivity | split; [reflexivity | exact Hwo]]].
  assert (E : length (stockAdjustmentsTable (store_after r)) = 1%nat)
    by reflexivity.
  rewrite Ht, length_app in E. exact E.
Defined.

Lemma Forall2_length_eq {A B} (R : A -> B -> Prop) (xs : list A)
    (ys : list B) :
  Forall2 R xs ys -> length ys = length xs.
Proof. induction 1; simpl; congruence. Qed.

(** What a returning [completeWorkOrder] has done. *)
Lemma completeWorkOrder_returns (input : CompleteWorkOrderInput) (now : Z)
    (db : DB) (returned : option WorkOrder.t) :
  outcome (completeWorkOrder input now db) = Ok returned ->
  let db' := store_after (completeWorkOrder input now db) in
  let lines := lines_of db (cwi_work_order_id input) in
  exists wo rows,
    find_work_order db (cwi_work_order_id input) = Some wo /\
    WorkOrder.status wo = IN_PROGRESS /\
    returned = Some (WorkOrder_complete now wo) /\
    find_work_order db' (cwi_work_order_id input)
    = Some (WorkOrder_complete now wo) /\
    stockAdjustmentsTable db' = stockAdjustmentsTable db ++ rows /\
    Forall2 (removal_row_for wo) lines rows /\
    (forall i,
       stock_of db' i =
       option_map (fun s => s - quantity_used_by lines i) (stock_of db i)).
Proof.
  intros H db' lines. subst db' lines.
  destruct (find_work_order db (cwi_work_order_id input)) as [wo|] eqn:F;
    [|rewrite (completeWorkOrder_not_found _ _ _ F) in H; discriminate].
  destruct (status_dec (WorkOrder.status wo)) as [S|S];
    [|rewrite (completeWorkOrder_wrong_status _ _ _ _ F S) in H; discriminate].
  rewrite (completeWorkOrder_in_progress _ _ _ _ F S) in H |- *.
  destruct (for_of _ _ db) as [db1 [u|e]] eqn:L; [|discriminate].
  unfold outcome, store_after in *. cbv zeta in *.
  cbn [fst snd] in *.
  destruct (deduct_lines_ok _ _ _ _ _ _ L)
    as (rows & Ht & Hrows & _ & Hwo & _ & Hst).
  assert (F1 : find_work_order db1 (cwi_work_order_id input) = Some wo).
  { unfold find_work_order in *. now rewrite Hwo. }
  rewrite find_work_order_completed, F1 in H |- *. simpl in H.
  injection H as <-.
  exists wo, rows.
  split; [reflexivity|]. split; [exact S|]. split; [reflexivity|].
  split; [reflexivity|]. split; [exact Ht|]. split; [exact Hrows | exact Hst].
Qed.

Lemma quantity_used_by_nonneg (ls : list WorkOrderItem.t) (i : Z) :
  Forall (fun l => 0 <= WorkOrderItem.quantity_used l) ls ->
  0 <= quantity_used_by ls i.
Proof.
  induction 1 as [|l ls Hl _ IH]; simpl; [lia|].
  destruct (WorkOrderItem.item_id l =? i); lia.
Qed.

Lemma quantity_used_by_unnamed (ls : list WorkOrderItem.t) (i : Z) :
  quantity_used_by ls i = 0 \/
  exists l, In l ls /\ WorkOrderItem.item_id l = i.
Proof.
  induction ls as [|l ls IH]; simpl; [now left|].
  destruct (Z.eqb_spec (WorkOrderItem.item_id l) i) as [E|NE].
  - right. exists l. split; [now left | exact E].
  - destruct IH as [-> | (l' & Hin & E)]; [now left|].
    right. exists l'. split; [now right | exact E].
Qed.

Lemma lines_covered_spec (db : DB) (ls : list WorkOrderItem.t) :
  lines_covered db ls = true <->
  forall l, In l ls ->
            exists s, stock_of db (WorkOrderItem.item_id l) = Some s /\
                      quantity_used_by ls (WorkOrderItem.item_id l) <= s.
Proof.
  unfold lines_covered. rewrite forallb_forall. split.
  - intros H l Hl. specialize (H l Hl).
    destruct (stock_of db (WorkOrderItem.item_id l)) as [s|]; [|discriminate].
    exists s. split; [reflexivity | now apply Z.leb_le].
  - intros H l Hl. destruct (H l Hl) as (s & -> & Hs). now apply Z.leb_le.
Qed.

(** The loop over the lines runs to its end exactly when the stock covers
    the lines, provided no line has a negative quantity. *)
Lemma deduct_lines_succeed_iff (wo : WorkOrder.t) (now : Z)
    (ls : list WorkOrderItem.t) :
  Forall (fun l => 0 <= WorkOrderItem.quantity_used l) ls ->
  forall db,
    is_Ok (snd (for_of ls (deduct_line wo now) db)) = true <->
    lines_covered db ls = true.
Proof.
  induction 1 as [|l ls Hl Hls IH]; intros db.
  - simpl. split; reflexivity.
  - rewrite lines_covered_spec. cbn [for_of]. unfold bind.
    pose proof (quantity_used_by_nonneg ls (WorkOrderItem.item_id l) Hls)
      as Hrest.
    pose proof (deduct_line_cases wo now l db) as C.
    destruct (find_item db (WorkOrderItem.item_id l)) as [item|] eqn:F.
    2:{ rewrite C. cbn [snd is_Ok]. split; [discriminate|].
        intros H. destruct (H l (or_introl eq_refl)) as (s & Hs & _).
        unfold stock_of in Hs. rewrite F in Hs. discriminate. }
    assert (Hstock : stock_of db (WorkOrderItem.item_id l)
                     = Some (Item.current_stock item))
      by (unfold stock_of; now rewrite F).
    cbv zeta in C. destruct C as [[Hneg C] | [Hnn C]].
    { rewrite C. cbn [snd is_Ok]. split; [discriminate|].
      intros H. destruct (H l (or_introl eq_refl)) as (s & Hs & Hle).
      rewrite Hstock in Hs. injection Hs as <-.
      cbn [quantity_used_by] in Hle. rewrite Z.eqb_refl in Hle. lia. }
    destruct (deduct_line wo now l db) as [db1 [u|e]] eqn:D;
      [|rewrite C in D; discriminate].
    destruct (deduct_line_ok _ _ _ _ _ _ D) as (_ & _ & _ & _ & _ & _ & Hst).
    rewrite (IH db1), lines_covered_spec.
    split.
    + intros H l' [<- | Hl'].
      * exists (Item.current_stock item). split; [exact Hstock|].
        cbn [quantity_used_by]. rewrite Z.eqb_refl.
        destruct (quantity_used_by_unnamed ls (WorkOrderItem.item_id l))
          as [-> | (l'' & Hin & E)]; [lia|].
        destruct (H l'' Hin) as (s1 & Hs1 & Hle).
        rewrite E, Hst, Hstock, Z.eqb_refl in Hs1. cbn in Hs1.
        injection Hs1 as <-. rewrite E in Hle. lia.
      * destruct (H l' Hl') as (s1 & Hs1 & Hle).
        rewrite Hst in Hs1.
        destruct (stock_of db (WorkOrderItem.item_id l')) as [s'|];
          [|discriminate].
        cbn in Hs1. injection Hs1 as <-.
        exists s'. split; [reflexivity|]. cbn [quantity_used_by].
        destruct (WorkOrderItem.item_id l =? WorkOrderItem.item_id l'); lia.
    + intros H l' Hl'.
      destruct (H l' (or_intror Hl')) as (s' & Hs' & Hle).
      cbn [quantity_used_by] in Hle.
      rewrite Hst, Hs'. cbn.
      eexists. split; [reflexivity|].
      destruct (WorkOrderItem.item_id l =? WorkOrderItem.item_id l'); lia.
Qed.

(** C6: what a returning [completeWorkOrder] has done, and when it returns.
    A call that returns found the work order IN_PROGRESS; it appended exactly
    one audit row per line, in line order, each a REMOVAL of minus the line's
    quantity whose reason contains the work-order number and whose actor is
    the assigned technician; every item's stock went down by the quantities
    of the lines that name it; the stored and the returned work order are
    COMPLETED with [completed_at] set.  On a work order that is IN_PROGRESS
    and whose lines carry no negative quantity, the call returns exactly when
    the stock covers the lines; in particular a work order with no lines is
    completed, with no audit row added and no item touched. *)
Theorem completeWorkOrder_success (input : CompleteWorkOrderInput) (now : Z)
    (db : DB) :
  let r := completeWorkOrder input now db in
  let db' := store_after r in
  let lines := lines_of db (cwi_work_order_id input) in
  (forall returned,
     outcome r = Ok returned ->
     exists wo rows,
       find_work_order db (cwi_work_order_id input) = Some wo /\
       WorkOrder.status wo = IN_PROGRESS /\
       returned = Some (WorkOrder_complete now wo) /\
       find_work_order db' (cwi_work_order_id input)
       = Some (WorkOrder_complete now wo) /\
       WorkOrder.status (WorkOrder_complete now wo) = COMPLETED /\
       WorkOrder.completed_at (WorkOrder_complete now wo) = Some now /\
       stockAdjustmentsTable db' = stockAdjustmentsTable db ++ rows /\
       Forall2 (removal_row_for wo) lines rows /\
       length rows = length lines /\
       Forall (fun r => contains (StockAdjustment.reason r)
                          (WorkOrder.work_order_number wo)) rows /\
       (forall i,
          stock_of db' i =
          option_map (fun s => s - quantity_used_by lines i) (stock_of db i)))
  /\
  (forall wo,
     find_work_order db (cwi_work_order_id input) = Some wo ->
     WorkOrder.status wo = IN_PROGRESS ->
     (Forall (fun l => 0 <= WorkOrderItem.quantity_used l) lines ->
      (is_Ok (outcome r) = true <-> lines_covered db lines = true)) /\
     (lines = [] ->
      outcome r = Ok (Some (WorkOrder_complete now wo)) /\
      stockAdjustmentsTable db' = stockAdjustmentsTable db /\
      itemsTable db' = itemsTable db)).
Proof.
  intros r db' lines. subst r db' lines. split.
  - intros returned H.
    destruct (completeWorkOrder_returns _ _ _ _ H)
      as (wo & rows & F & S & Hret & F' & Ht & Hrows & Hst).
    exists wo, rows.
    split; [exact F|]. split; [exact S|]. split; [exact Hret|].
    split; [exact F'|]. split; [reflexivity|]. split; [reflexivity|].
    split; [exact Ht|]. split; [exact Hrows|].
    split; [exact (Forall2_length_eq _ _ _ Hrows)|].
    split; [|exact Hst].
    clear - Hrows. induction Hrows as [|l r ls rs Hr _ IH]; constructor;
      [|exact IH].
    destruct Hr as (_ & _ & _ & _ & _ & -> & _).
    apply completion_reason_contains.
  - intros wo F S.
    rewrite (completeWorkOrder_in_progress _ _ _ _ F S).
    split.
    + intros Hnn.
      rewrite <- (deduct_lines_succeed_iff wo now _ Hnn db).
      destruct (for_of _ _ db) as [db1 [u|e]]; reflexivity.
    + intros ->. cbn [for_of ret].
      unfold outcome, store_after. cbn [fst snd].
      rewrite find_work_order_completed, F.
      split; [reflexivity|]. split; reflexivity.
Qed.

(** Scenario D: lines (item 1, 5) and (item 2, 3) against stocks 50 and 30;
    and the completion of a work order that has no lines. *)
Lemma completeWorkOrder_success_witness :
  let r := completeWorkOrder (mkCompleteWorkOrderInput 1) 7 completion_store in
  let bare := mkDB [technician] [item1; item2] [] [] []
                [work_order_in_progress] [] [] 3 1 1 2 1 1 in
  lines_covered completion_store (lines_of completion_store 1) = true /\
  is_Ok (outcome r) = true /\
  (exists rows,
     stockAdjustmentsTable (store_after r) = rows /\
     length rows = 2%nat /\
     stock_of (store_after r) 1 = Some 45 /\
     stock_of (store_after r) 2 = Some 27) /\
  completeWorkOrder (mkCompleteWorkOrderInput 1) 7 bare
  = (set_work_orders [WorkOrder_complete 7 work_order_in_progress] bare,
     Ok (Some (WorkOrder_complete 7 work_order_in_progress))).
Proof.
  intros r bare.
  destruct (completeWorkOrder_success (mkCompleteWorkOrderInput 1) 7
              completion_store) as [Hdone Hwhen].
  destruct (Hwhen work_order_in_progress eq_refl eq_refl) as [Hiff _].
  assert (Hnn : Forall (fun l => 0 <= WorkOrderItem.quantity_used l)
                  (lines_of completion_store 1))
    by (repeat constructor; simpl; lia).
  assert (Hok : is_Ok (outcome r) = true) by (apply (Hiff Hnn); reflexivity).
  split; [reflexivity|]. split; [exact Hok|]. split; [|reflexivity].
  destruct (Hdone _ eq_refl)
    as (wo & rows & _ & _ & _ & _ & _ & _ & Ht & _ & Hlen & _ & Hst).
  exists rows. fold r in Ht, Hst.
  split; [exact Ht|]. split; [exact Hlen|].
  split; [exact (Hst 1) | exact (Hst 2)].
Defined.

(** C7: [completeWorkOrder] reports a missing work order, rejects any work
    order whose status is not IN_PROGRESS, in both cases leaving the store as
    it was; and after a successful completion a second call on the same work
    order is rejected for its status and changes nothing, so nothing is
    deducted twice. *)
Theorem completeWorkOrder_guards (input : CompleteWorkOrderInput) (now : Z)
    (db : DB) :
  (find_work_order db (cwi_work_order_id input) = None ->
   completeWorkOrder input now db
   = (db, Err (WorkOrderNotFound (cwi_work_order_id input)))) /\
  (forall wo,
     find_work_order db (cwi_work_order_id input) = Some wo ->
     WorkOrder.status wo <> IN_PROGRESS ->
     completeWorkOrder input now db
     = (db, Err (WorkOrderNotInProgress (WorkOrder.status wo)))) /\
  (forall returned later,
     outcome (completeWorkOrder input now db) = Ok returned ->
     let db' := store_after (completeWorkOrder input now db) in
     completeWorkOrder input later db'
     = (db', Err (WorkOrderNotInProgress COMPLETED))).
Proof.
  split; [apply completeWorkOrder_not_found|].
  split; [intros wo; apply completeWorkOrder_wrong_status|].
  intros returned later H db'.
  destruct (completeWorkOrder_returns _ _ _ _ H)
    as (wo & rows & _ & _ & _ & F' & _).
  fold db' in F'.
  apply (completeWorkOrder_wrong_status input later db' _ F').
  simpl. discriminate.
Qed.

(** Scenario F, with the unknown id 999 and an OPEN work order besides. *)
Lemma completeWorkOrder_guards_witness :
  let first := completeWorkOrder (mkCompleteWorkOrderInput 1) 7
                 completion_store in
  completeWorkOrder (mkCompleteWorkOrderInput 999) 7 completion_store
  = (completion_store, Err (WorkOrderNotFound 999)) /\
  completeWorkOrder (mkCompleteWorkOrderInput 1) 7 open_store
  = (open_store, Err (WorkOrderNotInProgress OPEN)) /\
  is_Ok (outcome first) = true /\
  completeWorkOrder (mkCompleteWorkOrderInput 1) 8 (store_after first)
  = (store_after first, Err (WorkOrderNotInProgress COMPLETED)) /\
  stock_of (store_after first) 1 = Some 45.
Proof.
  intros first.
  destruct (completeWorkOrder_guards (mkCompleteWorkOrderInput 999) 7
              completion_store) as (Hnf & _ & _).
  destruct (completeWorkOrder_guards (mkCompleteWorkOrderInput 1) 7
              open_store) as (_ & Hopen & _).
  destruct (completeWorkOrder_guards (mkCompleteWorkOrderInput 1) 7
              completion_store) as (_ & _ & Hagain).
  split; [exact (Hnf eq_refl)|].
  split; [apply (Hopen _ eq_refl); discriminate|].
  split; [reflexivity|].
  split; [exact (Hagain _ 8 eq_refl) | reflexivity].
Defined.

(** ** The stock column under every handler *)

Lemma find_item_In (db : DB) (id : Z) (item : Item.t) :
  find_item db id = Some item -> In item (itemsTable db).
Proof.
  unfold find_item. intros H.
  destruct (filter _ (itemsTable db)) as [|it rest] eqn:E; [discriminate|].
  injection H as ->.
  assert (Hin : In item (item :: rest)) by now left.
  rewrite <- E in Hin. now apply filter_In in Hin.
Qed.

Lemma find_item_nonneg (db : DB) (id : Z) (item : Item.t) :
  stock_nonneg db -> find_item db id = Some item ->
  0 <= Item.current_stock item.
Proof.
  intros Hnn F. unfold stock_nonneg in Hnn. rewrite Forall_forall in Hnn.
  apply Hnn. eapply find_item_In. exact F.
Qed.

Lemma adjustStock_nonneg (input : AdjustStockInput) (by_ : string) (now : Z)
    (db : DB) :
  stock_nonneg db -> stock_nonneg (store_after (adjustStock input by_ now db)).
Proof.
  intros Hnn.
  destruct (find_item db (asi_item_id input)) as [item|] eqn:F.
  - pose proof (find_item_nonneg _ _ _ Hnn F) as Hitem.
    destruct (adjustStock_cases input item) as [H | [[H1 H2] | [H1 H2]]].
    + rewrite (adjustStock_commits _ _ _ _ _ F H).
      apply (update_item_stock_nonneg db); [|exact Hnn].
      destruct H as [H|H]; [rewrite H; simpl; lia | exact H].
    + now rewrite (adjustStock_insufficient _ _ _ _ _ F H1 H2).
    + now rewrite (adjustStock_negative_correction _ _ _ _ _ F H1 H2).
  - now rewrite (adjustStock_not_found _ _ _ _ F).
Qed.

Lemma deduct_line_nonneg (wo : WorkOrder.t) (now : Z) (l : WorkOrderItem.t)
    (db : DB) :
  stock_nonneg db -> stock_nonneg (fst (deduct_line wo now l db)).
Proof.
  intros Hnn. pose proof (deduct_line_cases wo now l db) as C.
  destruct (find_item db (WorkOrderItem.item_id l)) as [item|].
  - destruct C as [[_ ->] | [H ->]]; [exact Hnn|].
    apply (update_item_stock_nonneg db); assumption.
  - now rewrite C.
Qed.

Lemma completeWorkOrder_nonneg (input : CompleteWorkOrderInput) (now : Z)
    (db : DB) :
  stock_nonneg db -> stock_nonneg (store_after (completeWorkOrder input now db)).
Proof.
  intros Hnn.
  destruct (find_work_order db (cwi_work_order_id input)) as [wo|] eqn:F;
    [|now rewrite (completeWorkOrder_not_found _ _ _ F)].
  destruct (status_dec (WorkOrder.status wo)) as [S|S];
    [|now rewrite (completeWorkOrder_wrong_status _ _ _ _ F S)].
  rewrite (completeWorkOrder_in_progress _ _ _ _ F S).
  pose proof (for_of_preserves stock_nonneg (deduct_line wo now)
                (lines_of db (cwi_work_order_id input))
                (deduct_line_nonneg wo now) db Hnn) as P.
  destruct (for_of _ _ db) as [db1 [u|e]]; exact P.
Qed.

Lemma check_line_result (l : WorkOrderLineInput) (db : DB) :
  exists r, check_line l db = (db, r) /\ is_Ok r = line_available db l.
Proof.
  unfold check_line, line_available, find_item. unfold_handler.
  destruct (filter _ (itemsTable db)) as [|d rest]; simpl.
  - eexists. split; reflexivity.
  - destruct (Item.current_stock d <? wli_quantity_used l);
      eexists; split; reflexivity.
Qed.

Lemma check_lines_result (ls : list WorkOrderLineInput) (db : DB) :
  exists r, for_of ls check_line db = (db, r) /\
            is_Ok r = forallb (line_available db) ls.
Proof.
  induction ls as [|l ls IH]; simpl.
  - eexists. split; reflexivity.
  - unfold bind. destruct (check_line_result l db) as (r & -> & Hr).
    destruct r as [[]|e]; simpl in Hr; rewrite <- Hr; simpl.
    + exact IH.
    + eexists. split; reflexivity.
Qed.

(** The ways a call of [createWorkOrder] can go, in the order of the
    handler's steps. *)
Lemma createWorkOrder_cases (input : CreateWorkOrderInput)
    (createdBy number : string) (now : Z) (db : DB) :
  createWorkOrder input createdBy number now db =
  match find_user db (cwo_assigned_technician input) with
  | None => (db, Err TechnicianNotFound)
  | Some t0 =>
    if UserRole_eqb (User.role t0) TECHNICIAN
    then
      match snd (for_of (cwo_items input) check_line db) with
      | Err e => (db, Err e)
      | Ok _ =>
        let db1 :=
          fst (insert_work_order number (cwo_description input)
                 (cwo_assigned_technician input) OPEN createdBy now db) in
        if work_order_number_taken db number
        then (db1, Err (UniqueViolation "work_orders_work_order_number_unique"))
        else
          match cwo_items input with
          | [] => (db1, Err NoValues)
          | _ :: _ =>
            (fst (insert_work_order_items
                    (map (fun item => (work_orders_id_seq db, wli_item_id item,
                                       wli_quantity_used item))
                         (cwo_items input)) db1),
             Ok (WorkOrder.mk (work_orders_id_seq db) number
                   (cwo_description input) (cwo_assigned_technician input)
                   OPEN createdBy now now None))
          end
      end
    else (db, Err NotATechnician)
  end.
Proof.
  unfold createWorkOrder, find_user. unfold_handler.
  destruct (filter _ (usersTable db)) as [|t0 rest]; simpl; [reflexivity|].
  destruct (UserRole_eqb (User.role t0) TECHNICIAN); simpl; [|reflexivity].
  destruct (check_lines_result (cwo_items input) db) as (r & -> & _).
  destruct r as [u|e]; [|reflexivity]. simpl.
  unfold insert_work_order.
  destruct (work_order_number_taken db number); simpl; [reflexivity|].
  destruct (cwo_items input); reflexivity.
Qed.

(** Every branch of [createWorkOrder], for statements about the store it
    leaves. *)
Ltac createWorkOrder_branches input db number :=
  rewrite createWorkOrder_cases;
  destruct (find_user db (cwo_assigned_technician input)) as [?t0|];
  [destruct (UserRole_eqb (User.role t0) TECHNICIAN);
   [destruct (snd (for_of (cwo_items input) check_line db));
    [cbv zeta; unfold insert_work_order;
     destruct (work_order_number_taken db number) eqn:?Htaken;
     [|destruct (cwo_items input) eqn:?Hitems]|]|]|].

Lemma createWorkOrder_items (input : CreateWorkOrderInput)
    (createdBy number : string) (now : Z) (db : DB) :
  itemsTable (store_after (createWorkOrder input createdBy number now db))
  = itemsTable db.
Proof. createWorkOrder_branches input db number; reflexivity. Qed.

(** The ways a call of [createPurchaseOrder] can go, in the order of the
    handler's steps. *)
Lemma createPurchaseOrder_cases (input : CreatePurchaseOrderInput)
    (createdBy number : string) (now : Z) (db : DB) :
  createPurchaseOrder input createdBy number now db =
  match find_supplier db (cpo_supplier_id input) with
  | None => (db, Err (SupplierNotFound (cpo_supplier_id input)))
  | Some _ =>
    let itemIds := map pli_item_id (cpo_items input) in
    let existingItems :=
      filter (fun it => includes itemIds (Item.id it)) (itemsTable db) in
    if Nat.eqb (length existingItems) (length itemIds)
    then
      let db1 :=
        fst (insert_purchase_order number (cpo_supplier_id input) DRAFT
               (totalAmount (cpo_items input)) (or_null (cpo_notes input))
               createdBy now db) in
      if po_number_taken db number
      then (db1, Err (UniqueViolation "purchase_orders_po_number_unique"))
      else
        match cpo_items input with
        | [] => (db1, Err NoValues)
        | _ :: _ =>
          (fst (insert_purchase_order_items
                  (map (fun item =>
                          mkPurchaseOrderItemValues (purchase_orders_id_seq db)
                            (pli_item_id item) (pli_quantity item)
                            (pli_unit_price item)
                            (Qmult (inject_Z (pli_quantity item))
                                   (pli_unit_price item)))
                       (cpo_items input)) db1),
           Ok (PurchaseOrder.mk (purchase_orders_id_seq db) number
                 (cpo_supplier_id input) DRAFT (totalAmount (cpo_items input))
                 (or_null (cpo_notes input)) createdBy now now))
        end
    else
      (db, Err (ItemsNotFound
                  (filter (fun id => negb (includes (map Item.id existingItems)
                                             id)) itemIds)))
  end.
Proof.
  unfold createPurchaseOrder, find_supplier. unfold_handler.
  destruct (filter _ (suppliersTable db)); simpl; [reflexivity|].
  destruct (Nat.eqb _ _); simpl; [|reflexivity].
  unfold insert_purchase_order.
  destruct (po_number_taken db number); simpl; [reflexivity|].
  destruct (cpo_items input); reflexivity.
Qed.

(** Every branch of [createPurchaseOrder], for statements about the store it
    leaves. *)
Ltac createPurchaseOrder_branches input db number :=
  rewrite createPurchaseOrder_cases;
  destruct (find_supplier db (cpo_supplier_id input)) as [?s0|];
  [cbv zeta;
   destruct (Nat.eqb
               (length (filter (fun it => includes (map pli_item_id
                                                       (cpo_items input))
                                                   (Item.id it))
                               (itemsTable db)))
               (length (map pli_item_id (cpo_items input)))) eqn:?Hcount;
   [unfold insert_purchase_order;
    destruct (po_number_taken db number) eqn:?Htaken;
    [|destruct (cpo_items input) eqn:?Hitems]|]|].

Lemma createPurchaseOrder_items (input : CreatePurchaseOrderInput)
    (createdBy number : string) (now : Z) (db : DB) :
  itemsTable (store_after (createPurchaseOrder input createdBy number now db))
  = itemsTable db.
Proof. createPurchaseOrder_branches input db number; reflexivity. Qed.

Lemma stock_levels_apply_update (input : UpdateItemInput) (now : Z)
    (rows : list Item.t) :
  map (fun it => (Item.id it, Item.current_stock it))
      (map (fun it => if Item.id it =? uii_id input
                      then Item_apply_update input now it else it) rows)
  = map (fun it => (Item.id it, Item.current_stock it)) rows.
Proof.
  rewrite map_map. apply map_ext. intros it.
  destruct (Item.id it =? uii_id input); reflexivity.
Qed.

(** The ways a call of [updateItem] can go. *)
Lemma updateItem_cases (input : UpdateItemInput) (now : Z) (db : DB) :
  updateItem input now db =
  match find_item db (uii_id input) with
  | None => (db, Err (ItemNotFound (uii_id input)))
  | Some item =>
    if match uii_sku input with
       | Some sku => sku_taken db (Some (uii_id input)) sku
       | None => false
       end
    then (db, Err (UniqueViolation "items_sku_unique"))
    else
      (set_items
         (map (fun it => if Item.id it =? uii_id input
                         then Item_apply_update input now it else it)
              (itemsTable db)) db,
       Ok (Some (Item_apply_update input now item)))
  end.
Proof.
  unfold find_item, updateItem, update_item_returning. unfold_handler.
  destruct (filter _ (itemsTable db)) as [|it rest] eqn:E; [reflexivity|].
  cbn [hd_error].
  destruct (match uii_sku input with
            | Some sku => sku_taken db (Some (uii_id input)) sku
            | None => false
            end); [reflexivity|].
  cbn [fst snd]. do 2 f_equal.
  rewrite (filter_update_same Item.t Item.id (Item_apply_update input now))
    by (intros; reflexivity).
  now rewrite E.
Qed.

Ltac updateItem_branches input db :=
  rewrite updateItem_cases;
  destruct (find_item db (uii_id input)) as [?item|];
  [destruct (match uii_sku input with
             | Some sku => sku_taken db (Some (uii_id input)) sku
             | None => false
             end) eqn:?Hclash|].

Lemma updateItem_stock_levels (input : UpdateItemInput) (now : Z) (db : DB) :
  stock_levels (store_after (updateItem input now db)) = stock_levels db.
Proof.
  updateItem_branches input db; try reflexivity.
  apply stock_levels_apply_update.
Qed.

Lemma stock_nonneg_levels (db db' : DB) :
  stock_levels db' = stock_levels db -> stock_nonneg db -> stock_nonneg db'.
Proof.
  unfold stock_levels, stock_nonneg. intros E H.
  assert (L : Forall (fun p => 0 <= snd p)
                (map (fun it => (Item.id it, Item.current_stock it))
                     (itemsTable db))).
  { rewrite Forall_map. exact H. }
  rewrite <- E in L. rewrite Forall_map in L. exact L.
Qed.

(** C2: starting from a store in which every item has a non-negative
    [current_stock], the store left by [adjustStock], [completeWorkOrder],
    [createWorkOrder], [createPurchaseOrder] or [updateItem] has the same
    property, whether the call returned or threw. *)
Theorem stock_never_negative (db : DB) :
  stock_nonneg db ->
  (forall input by_ now,
     stock_nonneg (store_after (adjustStock input by_ now db))) /\
  (forall input now,
     stock_nonneg (store_after (completeWorkOrder input now db))) /\
  (forall input createdBy number now,
     stock_nonneg (store_after (createWorkOrder input createdBy number now db)))
  /\
  (forall input createdBy number now,
     stock_nonneg
       (store_after (createPurchaseOrder input createdBy number now db))) /\
  (forall input now,
     stock_nonneg (store_after (updateItem input now db))).
Proof.
  intros Hnn.
  split; [intros; now apply adjustStock_nonneg|].
  split; [intros; now apply completeWorkOrder_nonneg|].
  split; [intros; unfold stock_nonneg; now rewrite createWorkOrder_items|].
  split; [intros; unfold stock_nonneg; now rewrite createPurchaseOrder_items|].
  intros. eapply stock_nonneg_levels; [apply updateItem_stock_levels | exact Hnn].
Qed.

Lemma stock_never_negative_witness :
  stock_nonneg short_store /\
  stock_nonneg
    (store_after (completeWorkOrder (mkCompleteWorkOrderInput 1) 7 short_store))
  /\
  stock_nonneg
    (store_after (adjustStock (mkAdjustStockInput 2 CORRECTION (-31) "count")
                    "user_test123" 7 short_store)).
Proof.
  assert (H : stock_nonneg short_store)
    by (repeat constructor; simpl; lia).
  destruct (stock_never_negative short_store H) as (Ha & Hc & _).
  split; [exact H|]. split; [apply Hc | apply Ha].
Defined.

(** ** The audit rows *)

Lemma completeWorkOrder_rows (input : CompleteWorkOrderInput) (now : Z)
    (db : DB) :
  exists pre post rows,
    lines_of db (cwi_work_order_id input) = pre ++ post /\
    stockAdjustmentsTable (store_after (completeWorkOrder input now db))
    = stockAdjustmentsTable db ++ rows /\
    Forall2 (fun l r =>
               row_balanced r /\
               StockAdjustment.adjustment_type r = REMOVAL /\
               StockAdjustment.quantity_change r
               = - WorkOrderItem.quantity_used l) pre rows.
Proof.
  assert (Hweaken : forall wo pre rows,
            Forall2 (removal_row_for wo) pre rows ->
            Forall2 (fun l r =>
                       row_balanced r /\
                       StockAdjustment.adjustment_type r = REMOVAL /\
                       StockAdjustment.quantity_change r
                       = - WorkOrderItem.quantity_used l) pre rows).
  { intros wo pre rows H. induction H as [|l r ls rs Hr _ IH];
      constructor; [|exact IH].
    destruct Hr as (_ & Hty & Hq & Hn & _).
    unfold row_balanced. repeat split; [lia | exact Hty | exact Hq]. }
  assert (Hnone : exists pre post rows,
            lines_of db (cwi_work_order_id input) = pre ++ post /\
            stockAdjustmentsTable db = stockAdjustmentsTable db ++ rows /\
            Forall2 (fun l r =>
                       row_balanced r /\
                       StockAdjustment.adjustment_type r = REMOVAL /\
                       StockAdjustment.quantity_change r
                       = - WorkOrderItem.quantity_used l) pre rows).
  { exists [], (lines_of db (cwi_work_order_id input)), [].
    split; [reflexivity|]. split; [now rewrite app_nil_r | constructor]. }
  destruct (find_work_order db (cwi_work_order_id input)) as [wo|] eqn:F;
    [|rewrite (completeWorkOrder_not_found _ _ _ F); exact Hnone].
  destruct (status_dec (WorkOrder.status wo)) as [S|S];
    [|rewrite (completeWorkOrder_wrong_status _ _ _ _ F S); exact Hnone].
  rewrite (completeWorkOrder_in_progress _ _ _ _ F S).
  destruct (for_of _ _ db) as [db1 [u|e]] eqn:L.
  - destruct (deduct_lines_ok _ _ _ _ _ _ L) as (rows & Ht & Hrows & _).
    exists (lines_of db (cwi_work_order_id input)), [], rows.
    split; [now rewrite app_nil_r|]. split; [exact Ht|].
    eapply Hweaken; exact Hrows.
  - destruct (for_of_failure _ _ _ _ _ L)
      as (pre & l & post & dbm & Hl & Hpre & Hbody).
    assert (db1 = dbm) by (eapply deduct_line_failure; exact Hbody).
    subst dbm.
    destruct (deduct_lines_ok _ _ _ _ _ _ Hpre) as (rows & Ht & Hrows & _).
    exists pre, (l :: post), rows.
    split; [exact Hl|]. split; [exact Ht|].
    eapply Hweaken; exact Hrows.
Qed.

(** The claim of C3 as stated fails at the quantity 0, which the input schema
    admits: an ADDITION of 0 records a row whose change is not positive. *)
Lemma adjustStock_zero_change_row :
  outcome (adjustStock (mkAdjustStockInput 1 ADDITION 0 "recount")
             "user_test123" 5 adjust_store)
  = Ok (StockAdjustment.mk 1 1 ADDITION 0 "recount" 100 100 "user_test123" 5)
  /\
  ~ sign_matches
      (StockAdjustment.mk 1 1 ADDITION 0 "recount" 100 100 "user_test123" 5)
  /\
  ~ (forall (input : AdjustStockInput) (by_ : string) (now : Z) (db : DB)
            (row : StockAdjustment.t),
       outcome (adjustStock input by_ now db) = Ok row ->
       row_balanced row /\ sign_matches row).
Proof.
  split; [reflexivity|]. split.
  - unfold sign_matches. simpl. lia.
  - intros H.
    destruct (H (mkAdjustStockInput 1 ADDITION 0 "recount"%string)
                "user_test123"%string 5 adjust_store _ eq_refl) as [_ Hsign].
    unfold sign_matches in Hsign. simpl in Hsign. lia.
Qed.

(** C3, amended: every row appended to the adjustments table by [adjustStock]
    or by [completeWorkOrder] has [new_stock = previous_stock +
    quantity_change].  A row of [adjustStock] has a change that is not
    negative for ADDITION and not positive for REMOVAL (either sign for
    CORRECTION), and strictly of that sign unless the input quantity is 0, in
    which case 0 is stored.  A row of [completeWorkOrder] is a REMOVAL whose
    change is minus the quantity of the line it was written for (the rows
    answer, in order, the lines that were applied), and is negative when the
    quantities of the stored work-order lines are positive. *)
Theorem adjustment_rows_consistent :
  (forall (input : AdjustStockInput) (by_ : string) (now : Z) (db : DB),
     exists rows,
       stockAdjustmentsTable (store_after (adjustStock input by_ now db))
       = stockAdjustmentsTable db ++ rows /\
       Forall (fun r => row_balanced r /\ sign_agrees r /\
                        (asi_quantity_change input <> 0 -> sign_matches r) /\
                        (asi_quantity_change input = 0 ->
                         StockAdjustment.quantity_change r = 0))
              rows) /\
  (forall (input : CompleteWorkOrderInput) (now : Z) (db : DB),
     exists rows,
       stockAdjustmentsTable (store_after (completeWorkOrder input now db))
       = stockAdjustmentsTable db ++ rows /\
       Forall (fun r => row_balanced r /\
                        StockAdjustment.adjustment_type r = REMOVAL) rows /\
       (Forall (fun l => 0 < WorkOrderItem.quantity_used l)
               (workOrderItemsTable db) ->
        Forall sign_matches rows) /\
       exists applied rest,
         lines_of db (cwi_work_order_id input) = applied ++ rest /\
         Forall2 (fun l r => StockAdjustment.quantity_change r
                             = - WorkOrderItem.quantity_used l)
                 applied rows).
Proof.
  split.
  - intros input by_ now db.
    assert (Hnone : exists rows,
              stockAdjustmentsTable db = stockAdjustmentsTable db ++ rows /\
              Forall (fun r => row_balanced r /\ sign_agrees r /\
                               (asi_quantity_change input <> 0 ->
                                sign_matches r) /\
                               (asi_quantity_change input = 0 ->
                                StockAdjustment.quantity_change r = 0)) rows).
    { exists []. split; [now rewrite app_nil_r | constructor]. }
    destruct (find_item db (asi_item_id input)) as [item|] eqn:F;
      [|rewrite (adjustStock_not_found _ _ _ _ F); exact Hnone].
    destruct (adjustStock_cases input item) as [H | [[H1 H2] | [H1 H2]]];
      [|rewrite (adjustStock_insufficient _ _ _ _ _ F H1 H2); exact Hnone
       |rewrite (adjustStock_negative_correction _ _ _ _ _ F H1 H2);
        exact Hnone].
    rewrite (adjustStock_commits _ _ _ _ _ F H).
    eexists. split; [reflexivity|].
    constructor; [|constructor].
    unfold row_balanced, sign_agrees, sign_matches. simpl.
    split; [reflexivity|].
    destruct (asi_adjustment_type input); simpl;
      (split; [|split]); try lia; trivial.
  - intros input now db.
    destruct (completeWorkOrder_rows input now db)
      as (pre & post & rows & Hl & Ht & Hrows).
    exists rows. split; [exact Ht|]. split; [|split].
    + clear - Hrows. induction Hrows as [|l r ls rs Hr _ IH]; constructor;
        [tauto | exact IH].
    + intros Hpos.
      assert (Hpre : Forall (fun l => 0 < WorkOrderItem.quantity_used l) pre).
      { rewrite Forall_forall in Hpos |- *. intros l Hin. apply Hpos.
        assert (Hin' : In l (lines_of db (cwi_work_order_id input)))
          by (rewrite Hl; apply in_or_app; now left).
        unfold lines_of in Hin'. now apply filter_In in Hin'. }
      clear - Hrows Hpre.
      induction Hrows as [|l r ls rs Hr _ IH]; constructor.
      * destruct Hr as (_ & Hty & Hq). unfold sign_matches. rewrite Hty, Hq.
        inversion Hpre; subst. lia.
      * apply IH. now inversion Hpre.
    + exists pre, post. split; [exact Hl|].
      clear - Hrows. induction Hrows as [|l r ls rs Hr _ IH]; constructor;
        [tauto | exact IH].
Qed.

Lemma adjustment_rows_consistent_witness :
  Forall (fun l => 0 < WorkOrderItem.quantity_used l)
         (workOrderItemsTable completion_store) /\
  exists rows,
    stockAdjustmentsTable
      (store_after (completeWorkOrder (mkCompleteWorkOrderInput 1) 7
                      completion_store)) = rows /\
    Forall (fun r => row_balanced r /\
                     StockAdjustment.adjustment_type r = REMOVAL) rows /\
    Forall sign_matches rows.
Proof.
  assert (Hpos : Forall (fun l => 0 < WorkOrderItem.quantity_used l)
                   (workOrderItemsTable completion_store))
    by (repeat constructor; simpl; lia).
  split; [exact Hpos|].
  destruct adjustment_rows_consistent as [_ Hc].
  destruct (Hc (mkCompleteWorkOrderInput 1) 7 completion_store)
    as (rows & Ht & Hbal & Hsign & _).
  exists rows. split; [exact Ht|]. split; [exact Hbal | exact (Hsign Hpos)].
Defined.

(** ** Handlers outside the Recorder *)

Lemma updateItem_stock_of (input : UpdateItemInput) (now : Z) (db : DB)
    (i : Z) :
  stock_of (store_after (updateItem input now db)) i = stock_of db i.
Proof.
  updateItem_branches input db; try reflexivity.
  unfold store_after, stock_of, find_item. simpl.
  destruct (Z.eq_dec (uii_id input) i) as [<- | Hne].
  - rewrite (filter_update_same Item.t Item.id (Item_apply_update input now))
      by (intros; reflexivity).
    destruct (filter _ (itemsTable db)); reflexivity.
  - rewrite (filter_update_other Item.t Item.id (Item_apply_update input now));
      [reflexivity | intros; reflexivity | assumption].
Qed.

(** What [updateItem] and [createItem] return when they return. *)
Lemma updateItem_returns (input : UpdateItemInput) (now : Z) (db : DB)
    (returned : option Item.t) :
  outcome (updateItem input now db) = Ok returned ->
  exists item,
    find_item db (uii_id input) = Some item /\
    returned = Some (Item_apply_update input now item).
Proof.
  updateItem_branches input db; try discriminate.
  intros [= <-]. now exists item.
Qed.

Lemma createItem_returns (input : CreateItemInput) (now : Z) (db : DB)
    (created : Item.t) :
  outcome (createItem input now db) = Ok created ->
  sku_taken db None (cii_sku input) = false /\
  created = Item.mk (items_id_seq db) (cii_sku input) (cii_name input)
              (or_null (cii_description input)) (cii_current_stock input)
              (cii_minimum_stock input) (cii_unit_price input) now now /\
  itemsTable (store_after (createItem input now db))
  = itemsTable db ++ [created].
Proof.
  unfold createItem, outcome, store_after. cbn [fst snd itemsTable].
  destruct (sku_taken db None (cii_sku input)); [discriminate|].
  intros [= <-]. now repeat split.
Qed.

Lemma createItem_throws (input : CreateItemInput) (now : Z) (db : DB)
    (e : error) :
  outcome (createItem input now db) = Err e ->
  sku_taken db None (cii_sku input) = true /\
  itemsTable (store_after (createItem input now db)) = itemsTable db.
Proof.
  unfold createItem, outcome, store_after. cbn [fst snd itemsTable].
  destruct (sku_taken db None (cii_sku input)); [|discriminate].
  now split.
Qed.

(** C10: [updateItem] never changes a stock level: after the call, whatever
    the input and whether it returned or threw, the items table holds the
    same items with the same [current_stock], and an item it returns carries
    the stock the item had.  Its input has no stock field.  The other
    handlers outside the Recorder and the completion of work orders leave the
    items table alone ([createWorkOrder], [createPurchaseOrder]) or, when
    they return, have only added the new item to it with the stock of the
    input, and have changed nothing in it when they throw ([createItem]). *)
Theorem updateItem_keeps_stock (input : UpdateItemInput) (now : Z) (db : DB) :
  stock_levels (store_after (updateItem input now db)) = stock_levels db /\
  (forall i, stock_of (store_after (updateItem input now db)) i
             = stock_of db i) /\
  (forall returned,
     outcome (updateItem input now db) = Ok returned ->
     exists item updated,
       find_item db (uii_id input) = Some item /\
       returned = Some updated /\
       Item.id updated = Item.id item /\
       Item.current_stock updated = Item.current_stock item) /\
  (forall woInput createdBy number,
     itemsTable (store_after (createWorkOrder woInput createdBy number now db))
     = itemsTable db) /\
  (forall poInput createdBy number,
     itemsTable
       (store_after (createPurchaseOrder poInput createdBy number now db))
     = itemsTable db) /\
  (forall itemInput created,
     outcome (createItem itemInput now db) = Ok created ->
     Item.current_stock created = cii_current_stock itemInput /\
     itemsTable (store_after (createItem itemInput now db))
     = itemsTable db ++ [created]) /\
  (forall itemInput e,
     outcome (createItem itemInput now db) = Err e ->
     itemsTable (store_after (createItem itemInput now db)) = itemsTable db).
Proof.
  split; [apply updateItem_stock_levels|].
  split; [apply updateItem_stock_of|].
  split.
  { intros returned H.
    destruct (updateItem_returns _ _ _ _ H) as (item & F & ->).
    exists item, (Item_apply_update input now item).
    now repeat split. }
  split; [intros; apply createWorkOrder_items|].
  split; [intros; apply createPurchaseOrder_items|].
  split.
  { intros itemInput created H.
    destruct (createItem_returns _ _ _ _ H) as (_ & -> & Ht).
    split; [reflexivity | exact Ht]. }
  intros itemInput e H. now destruct (createItem_throws _ _ _ _ H).
Qed.

(** The update of the item-update test suite: a new sku, a cleared
    description, a new minimum and a new price; the stock stays 100.  A new
    item is appended with the stock it was given; an item under the sku that
    is already stored is refused and the items table stays as it was. *)
Lemma updateItem_keeps_stock_witness :
  let input := mkUpdateItemInput 1 (Some "UPDATED-SKU"%string) None
                 (Some None) (Some 20) (Some (1999 # 100)) in
  let fresh := mkCreateItemInput "NEW-1" "New item" None 7 2 (3 # 1) in
  let clash := mkCreateItemInput "TEST-001" "Same sku" None 7 2 (3 # 1) in
  find_item adjust_store 1 = Some test_item /\
  (exists updated,
     outcome (updateItem input 9 adjust_store) = Ok (Some updated) /\
     Item.sku updated = "UPDATED-SKU"%string /\
     Item.current_stock updated = 100 /\
     Item.minimum_stock updated = 20) /\
  stock_of (store_after (updateItem input 9 adjust_store)) 1 = Some 100 /\
  (exists created,
     outcome (createItem fresh 9 adjust_store) = Ok created /\
     Item.current_stock created = 7 /\
     itemsTable (store_after (createItem fresh 9 adjust_store))
     = [test_item; created]) /\
  outcome (createItem clash 9 adjust_store)
  = Err (UniqueViolation "items_sku_unique") /\
  itemsTable (store_after (createItem clash 9 adjust_store)) = [test_item].
Proof.
  intros input fresh clash.
  destruct (updateItem_keeps_stock input 9 adjust_store)
    as (_ & Hstock & Hreturned & _ & _ & Hcreated & Hrefused).
  split; [reflexivity|]. split; [|split; [|split; [|split]]].
  - destruct (Hreturned _ eq_refl) as (item & updated & F & E & _ & Hs).
    injection E as <-. eexists. split; [reflexivity|].
    split; [reflexivity|]. split; reflexivity.
  - rewrite Hstock. reflexivity.
  - eexists. split; [reflexivity|].
    destruct (Hcreated fresh _ eq_refl) as [Hs Ht].
    split; [exact Hs | exact Ht].
  - reflexivity.
  - exact (Hrefused clash _ eq_refl).
Defined.

(** ** [createPurchaseOrder] *)

Lemma includes_In (ids : list Z) (id : Z) :
  includes ids id = true <-> In id ids.
Proof.
  unfold includes. rewrite existsb_exists. split.
  - intros (x & Hin & E). apply Z.eqb_eq in E. now subst.
  - intros Hin. exists id. split; [exact Hin | apply Z.eqb_refl].
Qed.

(** The ids of the rows a query selects are distinct when the ids of the
    table are. *)
Lemma selected_ids_distinct (ids : list Z) (rows : list Item.t) :
  NoDup (map Item.id rows) ->
  NoDup (map Item.id
             (filter (fun it => includes ids (Item.id it)) rows)).
Proof.
  induction rows as [|it rows IH]; intros Hnd; simpl in *.
  - exact Hnd.
  - apply NoDup_cons_iff in Hnd. destruct Hnd as [Hfresh Hrest].
    specialize (IH Hrest).
    destruct (includes ids (Item.id it)); simpl; [|exact IH].
    apply NoDup_cons; [|exact IH].
    intros Hin. apply Hfresh.
    apply in_map_iff in Hin. destruct Hin as (other & Eid & Hother).
    rewrite <- Eid. apply in_map.
    apply filter_In in Hother. tauto.
Qed.

(** With distinct requested ids that all exist, the query returns as many
    rows as ids were requested. *)
Lemma select_in_array_count (ids : list Z) (rows : list Item.t) :
  NoDup (map Item.id rows) -> NoDup ids ->
  (forall id, In id ids -> In id (map Item.id rows)) ->
  length (filter (fun it => includes ids (Item.id it)) rows) = length ids.
Proof.
  intros Hrows Hids Hall.
  rewrite <- (length_map Item.id).
  apply Permutation_length. apply NoDup_Permutation.
  - now apply selected_ids_distinct.
  - exact Hids.
  - intros x. rewrite in_map_iff. split.
    + intros (it & <- & Hin). apply filter_In in Hin.
      now apply includes_In.
    + intros Hx. destruct (proj1 (in_map_iff _ _ _) (Hall x Hx))
        as (it & <- & Hit).
      exists it. split; [reflexivity|]. apply filter_In.
      split; [exact Hit | now apply includes_In].
Qed.

Lemma totalAmount_from (ls : list PurchaseOrderLineInput) (acc : Q) :
  Qeq (fold_left
         (fun sum item =>
            Qplus sum (Qmult (inject_Z (pli_quantity item))
                             (pli_unit_price item))) ls acc)
      (Qplus acc (sum_line_totals ls)).
Proof.
  revert acc. induction ls as [|l ls IH]; intros acc; simpl.
  - ring.
  - rewrite IH. unfold line_total. ring.
Qed.

Lemma totalAmount_sum (ls : list PurchaseOrderLineInput) :
  Qeq (totalAmount ls) (sum_line_totals ls).
Proof. unfold totalAmount. rewrite totalAmount_from. ring. Qed.

Lemma number_rows_map {A B C} (make : Z -> A -> B) (g : B -> C) (h : A -> C)
    (seq : Z) (values : list A) :
  (forall id v, g (make id v) = h v) ->
  map g (number_rows make seq values) = map h values.
Proof.
  intros H. revert seq. induction values as [|v vs IH]; intros seq; simpl;
    [reflexivity|]. now rewrite H, IH.
Qed.

(** What the handler does on lines that name pairwise distinct existing
    items, under a number that is not taken and with numbers that fit their
    columns: the order is stored as DRAFT, valued from the prices of the
    input, with one stored line per input line, and no item is touched. *)
Lemma createPurchaseOrder_distinct_lines (input : CreatePurchaseOrderInput)
    (createdBy number : string) (now : Z) (db : DB) :
  find_supplier db (cpo_supplier_id input) <> None ->
  NoDup (map Item.id (itemsTable db)) ->
  NoDup (map pli_item_id (cpo_items input)) ->
  (forall l, In l (cpo_items input) ->
             In (pli_item_id l) (map Item.id (itemsTable db))) ->
  cpo_items input <> [] ->
  po_number_taken db number = false ->
  purchase_order_fits input = true ->
  let r := createPurchaseOrder input createdBy number now db in
  exists po lines,
    outcome r = Ok po /\
    PurchaseOrder.status po = DRAFT /\
    Qeq (PurchaseOrder.total_amount po) (sum_line_totals (cpo_items input)) /\
    purchaseOrdersTable (store_after r) = purchaseOrdersTable db ++ [po] /\
    purchaseOrderItemsTable (store_after r)
    = purchaseOrderItemsTable db ++ lines /\
    map (fun x => (PurchaseOrderItem.po_id x, PurchaseOrderItem.item_id x,
                   PurchaseOrderItem.quantity x,
                   PurchaseOrderItem.unit_price x,
                   PurchaseOrderItem.total_price x)) lines
    = map (fun l => (PurchaseOrder.id po, pli_item_id l, pli_quantity l,
                     pli_unit_price l, line_total l)) (cpo_items input) /\
    itemsTable (store_after r) = itemsTable db.
Proof.
  intros Hsup Hrows Hids Hall Hne Hfree _ r. subst r.
  rewrite createPurchaseOrder_cases.
  destruct (find_supplier db (cpo_supplier_id input)); [|congruence].
  cbv zeta.
  rewrite select_in_array_count; try assumption.
  2:{ intros id Hin. apply in_map_iff in Hin.
      destruct Hin as (l & <- & Hl). now apply Hall. }
  rewrite Nat.eqb_refl, Hfree.
  unfold insert_purchase_order. rewrite Hfree.
  destruct (cpo_items input) as [|l0 ls]; [congruence|].
  unfold insert_purchase_order_items, outcome, store_after.
  cbn [map fst snd purchaseOrdersTable purchaseOrderItemsTable itemsTable].
  eexists. eexists.
  split; [reflexivity|]. split; [reflexivity|].
  split; [apply totalAmount_sum|].
  split; [reflexivity|]. split; [reflexivity|].
  split; [|reflexivity].
  rewrite (number_rows_map _ _
             (fun v => (poiv_po_id v, poiv_item_id v, poiv_quantity v,
                        poiv_unit_price v, poiv_total_price v)))
    by reflexivity.
  cbn [map]. rewrite map_map. reflexivity.
Qed.

(** Scenario E: 7 at 12.33 and 3 at 45.67 are valued 223.32, from the prices
    of the input and not from the catalogue prices 15.99 and 25.50. *)
Lemma createPurchaseOrder_decimal_prices :
  let r := createPurchaseOrder
             (mkCreatePurchaseOrderInput 1 decimal_lines None)
             "test_user_123" "PO-2024-01-15-0001" 9 purchasing_store in
  purchase_order_fits (mkCreatePurchaseOrderInput 1 decimal_lines None) = true
  /\
  exists po,
    outcome r = Ok po /\
    PurchaseOrder.status po = DRAFT /\
    Qeq (PurchaseOrder.total_amount po) (22332 # 100) /\
    length (purchaseOrderItemsTable (store_after r)) = 2%nat /\
    itemsTable (store_after r) = itemsTable purchasing_store.
Proof.
  split; [reflexivity|].
  eexists. split; [reflexivity|]. split; [reflexivity|].
  split; [reflexivity|]. split; reflexivity.
Qed.

(** C9 does not hold of the code when two lines name the same item: item 1
    exists, yet the order with two lines for item 1 is refused with the
    message listing no missing id, and nothing is stored.  The query of step 3
    returns one row per existing item while the request is counted per
    line. *)
Theorem createPurchaseOrder_repeated_item_refused :
  let r := createPurchaseOrder
             (mkCreatePurchaseOrderInput 1 repeated_lines None)
             "test_user_123" "PO-2024-01-15-0001" 9 purchasing_store in
  map (fun l => find_item purchasing_store (pli_item_id l)) repeated_lines
  = [Some item1; Some item1] /\
  outcome r = Err (ItemsNotFound []) /\
  store_after r = purchasing_store.
Proof.
  split; [reflexivity|]. split; reflexivity.
Qed.

(** * Further properties of the handlers *)

(** ** [createWorkOrder]: validation before any write *)

Lemma createWorkOrder_ok_iff (input : CreateWorkOrderInput)
    (createdBy number : string) (now : Z) (db : DB) :
  is_Ok (outcome (createWorkOrder input createdBy number now db)) = true <->
  (exists t0, find_user db (cwo_assigned_technician input) = Some t0 /\
              User.role t0 = TECHNICIAN) /\
  forallb (line_available db) (cwo_items input) = true /\
  cwo_items input <> [] /\
  work_order_number_taken db number = false.
Proof.
  rewrite createWorkOrder_cases.
  destruct (check_lines_result (cwo_items input) db) as (r & Hr & Hok).
  rewrite Hr. cbn [snd]. rewrite <- Hok.
  destruct (find_user db (cwo_assigned_technician input)) as [t0|].
  - destruct (User.role t0) eqn:R; simpl;
      try (split; [discriminate | intros [(t & [= <-] & Ht) _]; congruence]).
    destruct r as [u|e]; simpl;
      [|split; [discriminate | intros (_ & H & _); discriminate]].
    destruct (work_order_number_taken db number); simpl;
      [split; [discriminate | intros (_ & _ & _ & H); discriminate]|].
    destruct (cwo_items input) as [|l ls]; simpl.
    + split; [discriminate | intros (_ & _ & H & _); congruence].
    + split; [|reflexivity]. intros _.
      split; [exists t0; now split|].
      split; [reflexivity|]. split; [discriminate | reflexivity].
  - simpl. split; [discriminate | intros [(t & Ht & _) _]; discriminate].
Qed.

Lemma createWorkOrder_returns (input : CreateWorkOrderInput)
    (createdBy number : string) (now : Z) (db : DB) (wo : WorkOrder.t) :
  outcome (createWorkOrder input createdBy number now db) = Ok wo ->
  let db' := store_after (createWorkOrder input createdBy number now db) in
  wo = WorkOrder.mk (work_orders_id_seq db) number (cwo_description input)
         (cwo_assigned_technician input) OPEN createdBy now now None /\
  workOrdersTable db' = workOrdersTable db ++ [wo] /\
  (exists rows,
     workOrderItemsTable db' = workOrderItemsTable db ++ rows /\
     map (fun r => (WorkOrderItem.work_order_id r, WorkOrderItem.item_id r,
                    WorkOrderItem.quantity_used r)) rows
     = map (fun l => (WorkOrder.id wo, wli_item_id l, wli_quantity_used l))
           (cwo_items input)) /\
  itemsTable db' = itemsTable db /\
  stockAdjustmentsTable db' = stockAdjustmentsTable db.
Proof.
  createWorkOrder_branches input db number; try discriminate.
  unfold outcome, store_after, insert_work_order_items.
  cbn [map fst snd workOrdersTable workOrderItemsTable itemsTable
       stockAdjustmentsTable work_order_items_id_seq].
  intros [= <-]. cbn [WorkOrder.id].
  split; [reflexivity|]. split; [reflexivity|].
  split; [|split; reflexivity].
  eexists. split; [reflexivity|].
  rewrite (number_rows_map _ _ (fun v : Z * Z * Z => v)).
  - now rewrite map_id.
  - intros id [[x y] z]. reflexivity.
Qed.

Lemma check_lines_error (ls : list WorkOrderLineInput) (db : DB) (e : error) :
  snd (for_of ls check_line db) = Err e ->
  validation_error e = true /\ ls <> [].
Proof.
  induction ls as [|l ls IH]; simpl; [discriminate|].
  intros H. split; [|discriminate]. revert H.
  unfold bind.
  destruct (check_line l db) as [d1 [u|e1]] eqn:C.
  - destruct (check_line_result l db) as (r & Hc & _).
    rewrite Hc in C. injection C as <- _. intros H. now apply IH.
  - simpl. intros [= <-]. revert C.
    unfold check_line. unfold_handler.
    destruct (filter _ (itemsTable db)) as [|d rest]; simpl;
      [now intros [= _ <-]|].
    destruct (Item.current_stock d <? wli_quantity_used l);
      [now intros [= _ <-] | discriminate].
Qed.

(** X1: what a throwing [createWorkOrder] leaves behind.  When it throws
    from its validating steps (technician unknown or not a TECHNICIAN, item
    unknown, stock insufficient) it has written nothing.  When the number is
    taken, the tables are as before.  But a request without lines passes
    every check, stores an OPEN work order, and only then throws, from the
    insert of its empty list of lines: the caller is told of a failure while
    a work order without lines stays in the store. *)
Theorem createWorkOrder_failure_keeps_store (input : CreateWorkOrderInput)
    (createdBy number : string) (now : Z) (db : DB) (e : error) :
  outcome (createWorkOrder input createdBy number now db) = Err e ->
  let db' := store_after (createWorkOrder input createdBy number now db) in
  (validation_error e = true -> db' = db) /\
  (forall index, e = UniqueViolation index ->
     work_order_number_taken db number = true /\
     workOrdersTable db' = workOrdersTable db /\
     workOrderItemsTable db' = workOrderItemsTable db /\
     itemsTable db' = itemsTable db) /\
  (e = NoValues ->
     cwo_items input = [] /\
     workOrdersTable db'
     = workOrdersTable db ++
         [WorkOrder.mk (work_orders_id_seq db) number (cwo_description input)
            (cwo_assigned_technician input) OPEN createdBy now now None] /\
     workOrderItemsTable db' = workOrderItemsTable db /\
     itemsTable db' = itemsTable db) /\
  ((exists t0, find_user db (cwo_assigned_technician input) = Some t0 /\
               User.role t0 = TECHNICIAN) ->
   cwo_items input = [] ->
   work_order_number_taken db number = false ->
   e = NoValues).
Proof.
  rewrite createWorkOrder_cases.
  destruct (find_user db (cwo_assigned_technician input)) as [t0|] eqn:F.
  2:{ intros [= <-]. cbn. split; [reflexivity|]. split; [discriminate|].
      split; [discriminate|]. intros (t & Ht & _). discriminate. }
  destruct (UserRole_eqb (User.role t0) TECHNICIAN) eqn:R.
  2:{ intros [= <-]. cbn. split; [reflexivity|]. split; [discriminate|].
      split; [discriminate|]. intros (t & [= <-] & Ht).
      rewrite Ht in R. discriminate. }
  destruct (snd (for_of (cwo_items input) check_line db)) as [u|e1] eqn:L.
  2:{ intros [= <-]. destruct (check_lines_error _ _ _ L) as [Hv Hne].
      cbn. split; [reflexivity|].
      split; [intros index ->; discriminate|].
      split; [intros ->; discriminate|]. intros _ H. congruence. }
  cbv zeta. unfold insert_work_order.
  destruct (work_order_number_taken db number) eqn:T.
  { intros [= <-]. unfold store_after.
    cbn [fst snd workOrdersTable workOrderItemsTable itemsTable].
    split; [discriminate|]. split; [intros index _; now repeat split|].
    split; [discriminate|]. intros _ _ H. discriminate. }
  destruct (cwo_items input) as [|l ls] eqn:E; [|discriminate].
  intros [= <-]. unfold store_after.
  cbn [fst snd workOrdersTable workOrderItemsTable itemsTable].
  split; [discriminate|]. split; [discriminate|].
  split; [intros _; now repeat split | reflexivity].
Qed.

(** A work order asking for 31 of an item of which 30 are in stock is
    refused and leaves no trace; a work order without lines is refused and
    stays in the store. *)
Lemma createWorkOrder_failure_keeps_store_witness :
  let short := mkCreateWorkOrderInput "repair" "tech_clerk_123"
                 [mkWorkOrderLineInput 1 5; mkWorkOrderLineInput 2 31] in
  let empty := mkCreateWorkOrderInput "repair" "tech_clerk_123" [] in
  outcome (createWorkOrder short "manager" "WO-2024-01-15-0001" 9
             completion_store)
  = Err (InsufficientStockForItem "Test Item 2" 30 31) /\
  store_after (createWorkOrder short "manager" "WO-2024-01-15-0001" 9
                 completion_store)
  = completion_store /\
  outcome (createWorkOrder empty "manager" "WO-2024-01-15-0001" 9
             completion_store)
  = Err NoValues /\
  workOrdersTable
    (store_after (createWorkOrder empty "manager" "WO-2024-01-15-0001" 9
                    completion_store))
  = [work_order_in_progress;
     WorkOrder.mk 2 "WO-2024-01-15-0001" "repair" "tech_clerk_123" OPEN
       "manager" 9 9 None].
Proof.
  intros short empty.
  destruct (createWorkOrder_failure_keeps_store short "manager"
              "WO-2024-01-15-0001" 9 completion_store
              (InsufficientStockForItem "Test Item 2" 30 31) eq_refl)
    as (Hkeep & _).
  destruct (createWorkOrder_failure_keeps_store empty "manager"
              "WO-2024-01-15-0001" 9 completion_store NoValues eq_refl)
    as (_ & _ & Hempty & _).
  destruct (Hempty eq_refl) as (_ & Hwo & _).
  split; [reflexivity|]. split; [exact (Hkeep eq_refl)|].
  split; [reflexivity | exact Hwo].
Defined.

(** X2: when the quantities of the request fit their column,
    [createWorkOrder] succeeds exactly when the first user with the assigned
    clerk id has the TECHNICIAN role, every requested line, taken on its own,
    names an existing item holding at least the requested quantity, the
    request has at least one line, and the number is not yet stored.  Lines
    for the same item are not added up. *)
Theorem createWorkOrder_succeeds_iff (input : CreateWorkOrderInput)
    (createdBy number : string) (now : Z) (db : DB) :
  work_order_fits input = true ->
  (is_Ok (outcome (createWorkOrder input createdBy number now db)) = true <->
   (exists t0, find_user db (cwo_assigned_technician input) = Some t0 /\
               User.role t0 = TECHNICIAN) /\
   forallb (line_available db) (cwo_items input) = true /\
   cwo_items input <> [] /\
   work_order_number_taken db number = false).
Proof.
  intros _.
  destruct (createWorkOrder_ok_iff input createdBy number now db) as [To From].
  split; [exact To | exact From].
Qed.

(** Two lines of 20 for item 2, of which 30 are in stock, are accepted. *)
Lemma createWorkOrder_succeeds_iff_witness :
  let input := mkCreateWorkOrderInput "repair" "tech_clerk_123"
                 [mkWorkOrderLineInput 2 20; mkWorkOrderLineInput 2 20] in
  work_order_fits input = true /\
  stock_of completion_store 2 = Some 30 /\
  is_Ok (outcome (createWorkOrder input "manager" "WO-2024-01-15-0001" 9
                    completion_store)) = true.
Proof.
  intros input. split; [reflexivity|]. split; [reflexivity|].
  apply (createWorkOrder_succeeds_iff input "manager" "WO-2024-01-15-0001" 9
           completion_store eq_refl).
  split; [exists technician; now split|].
  split; [reflexivity|]. split; [discriminate | reflexivity].
Defined.

(** X3: a successful [createWorkOrder] returns and stores one OPEN work order
    numbered by the serial sequence, with no completion date, and stores one
    line per requested line, in order, under that work order's id; items and
    audit rows are untouched. *)
Theorem createWorkOrder_success (input : CreateWorkOrderInput)
    (createdBy number : string) (now : Z) (db : DB) (wo : WorkOrder.t) :
  outcome (createWorkOrder input createdBy number now db) = Ok wo ->
  let db' := store_after (createWorkOrder input createdBy number now db) in
  wo = WorkOrder.mk (work_orders_id_seq db) number (cwo_description input)
         (cwo_assigned_technician input) OPEN createdBy now now None /\
  workOrdersTable db' = workOrdersTable db ++ [wo] /\
  (exists rows,
     workOrderItemsTable db' = workOrderItemsTable db ++ rows /\
     map (fun r => (WorkOrderItem.work_order_id r, WorkOrderItem.item_id r,
                    WorkOrderItem.quantity_used r)) rows
     = map (fun l => (WorkOrder.id wo, wli_item_id l, wli_quantity_used l))
           (cwo_items input)) /\
  itemsTable db' = itemsTable db /\
  stockAdjustmentsTable db' = stockAdjustmentsTable db.
Proof.
  intros H db'.
  destruct (createWorkOrder_returns _ _ _ _ _ _ H)
    as (Hwo & Htable & Hlines & Hitems & Hrows).
  split; [exact Hwo|]. split; [exact Htable|].
  split; [exact Hlines|]. split; [exact Hitems | exact Hrows].
Qed.

Lemma createWorkOrder_success_witness :
  exists wo,
    outcome (createWorkOrder
               (mkCreateWorkOrderInput "repair" "tech_clerk_123"
                  [mkWorkOrderLineInput 1 5; mkWorkOrderLineInput 2 3])
               "manager" "WO-2024-01-15-0001" 9 completion_store) = Ok wo /\
    WorkOrder.id wo = 2 /\ WorkOrder.status wo = OPEN /\
    length (workOrderItemsTable
              (store_after
                 (createWorkOrder
                    (mkCreateWorkOrderInput "repair" "tech_clerk_123"
                       [mkWorkOrderLineInput 1 5; mkWorkOrderLineInput 2 3])
                    "manager" "WO-2024-01-15-0001" 9 completion_store)))
    = 4%nat.
Proof.
  eexists. split; [reflexivity|].
  destruct (createWorkOrder_success
              (mkCreateWorkOrderInput "repair" "tech_clerk_123"
                 [mkWorkOrderLineInput 1 5; mkWorkOrderLineInput 2 3])
              "manager" "WO-2024-01-15-0001" 9 completion_store _ eq_refl)
    as (Hwo & _).
  split; [reflexivity|]. split; reflexivity.
Defined.

Lemma line_available_same_items (db db' : DB) (l : WorkOrderLineInput) :
  itemsTable db' = itemsTable db ->
  line_available db' l = line_available db l.
Proof. unfold line_available, find_item. now intros ->. Qed.

Lemma lines_available_same_items (db db' : DB)
    (ls : list WorkOrderLineInput) :
  itemsTable db' = itemsTable db ->
  forallb (line_available db') ls = forallb (line_available db) ls.
Proof.
  intros H. induction ls as [|l ls IH]; simpl; [reflexivity|].
  now rewrite IH, (line_available_same_items _ _ l H).
Qed.

Lemma createWorkOrder_users (input : CreateWorkOrderInput)
    (createdBy number : string) (now : Z) (db : DB) :
  usersTable (store_after (createWorkOrder input createdBy number now db))
  = usersTable db.
Proof. createWorkOrder_branches input db number; reflexivity. Qed.

(** X4: creating a work order reserves nothing: when [createWorkOrder]
    succeeds, the same request succeeds again on the store it left, under
    any number that is not yet stored, for any creator and at any time; so
    two work orders can each be promised the same stock. *)
Theorem createWorkOrder_reserves_nothing (input : CreateWorkOrderInput)
    (createdBy number : string) (now : Z) (db : DB) (wo : WorkOrder.t) :
  outcome (createWorkOrder input createdBy number now db) = Ok wo ->
  forall createdBy' number' now',
    work_order_number_taken
      (store_after (createWorkOrder input createdBy number now db)) number'
    = false ->
    is_Ok (outcome (createWorkOrder input createdBy' number' now'
                      (store_after
                         (createWorkOrder input createdBy number now db))))
    = true.
Proof.
  intros H createdBy' number' now' Hfree.
  destruct (createWorkOrder_returns _ _ _ _ _ _ H) as (_ & _ & _ & Hitems & _).
  assert (Hok : is_Ok (outcome (createWorkOrder input createdBy number now db))
                = true) by now rewrite H.
  apply createWorkOrder_ok_iff in Hok.
  destruct Hok as (Htech & Hlines & Hne & _).
  apply createWorkOrder_ok_iff.
  split.
  { unfold find_user in *. now rewrite createWorkOrder_users. }
  split; [rewrite <- Hlines; now apply lines_available_same_items|].
  split; assumption.
Qed.

(** All 30 units of item 2 are promised to a first work order and then, under
    the next number, to a second one. *)
Lemma createWorkOrder_reserves_nothing_witness :
  is_Ok (outcome
           (createWorkOrder
              (mkCreateWorkOrderInput "repair" "tech_clerk_123"
                 [mkWorkOrderLineInput 2 30])
              "manager" "WO-2024-01-15-0002" 10
              (store_after
                 (createWorkOrder
                    (mkCreateWorkOrderInput "repair" "tech_clerk_123"
                       [mkWorkOrderLineInput 2 30])
                    "manager" "WO-2024-01-15-0001" 9 completion_store))))
  = true.
Proof.
  exact (createWorkOrder_reserves_nothing
           (mkCreateWorkOrderInput "repair" "tech_clerk_123"
              [mkWorkOrderLineInput 2 30])
           "manager" "WO-2024-01-15-0001" 9 completion_store _ eq_refl
           "manager" "WO-2024-01-15-0002" 10 eq_refl).
Defined.

(** ** What [adjustStock] leaves alone *)

Lemma adjustStock_store (input : AdjustStockInput) (by_ : string) (now : Z)
    (db : DB) :
  store_after (adjustStock input by_ now db) = db \/
  exists item newStock row,
    find_item db (asi_item_id input) = Some item /\
    outcome (adjustStock input by_ now db) = Ok row /\
    StockAdjustment.item_id row = asi_item_id input /\
    StockAdjustment.new_stock row = newStock /\
    store_after (adjustStock input by_ now db)
    = fst (insert_stock_adjustment (asi_item_id input)
             (asi_adjustment_type input)
             (StockAdjustment.quantity_change row) (asi_reason input)
             (Item.current_stock item) newStock by_ now
             (fst (update_item_stock (asi_item_id input) newStock now db))).
Proof.
  destruct (find_item db (asi_item_id input)) as [item|] eqn:F.
  - destruct (adjustStock_cases input item) as [H | [[H1 H2] | [H1 H2]]].
    + right. rewrite (adjustStock_commits _ _ _ _ _ F H).
      eexists item, _, _. split; [reflexivity|]. split; [reflexivity|].
      split; [reflexivity|]. split; reflexivity.
    + left. now rewrite (adjustStock_insufficient _ _ _ _ _ F H1 H2).
    + left. now rewrite (adjustStock_negative_correction _ _ _ _ _ F H1 H2).
  - left. now rewrite (adjustStock_not_found _ _ _ _ F).
Qed.

Lemma item_ids_update (i newStock now : Z) (db : DB) :
  map Item.id (itemsTable (fst (update_item_stock i newStock now db)))
  = map Item.id (itemsTable db).
Proof.
  unfold update_item_stock. simpl. rewrite map_map. apply map_ext.
  intros it. destruct (Item.id it =? i); reflexivity.
Qed.

(** X5: whatever its outcome, [adjustStock] changes the stock of no item
    other than the one it names, adds or removes no item, and touches no
    table besides the items and the audit rows. *)
Theorem adjustStock_frame (input : AdjustStockInput) (by_ : string) (now : Z)
    (db : DB) :
  let db' := store_after (adjustStock input by_ now db) in
  (forall j, j <> asi_item_id input -> stock_of db' j = stock_of db j) /\
  map Item.id (itemsTable db') = map Item.id (itemsTable db) /\
  usersTable db' = usersTable db /\
  suppliersTable db' = suppliersTable db /\
  purchaseOrdersTable db' = purchaseOrdersTable db /\
  purchaseOrderItemsTable db' = purchaseOrderItemsTable db /\
  workOrdersTable db' = workOrdersTable db /\
  workOrderItemsTable db' = workOrderItemsTable db.
Proof.
  intros db'. subst db'.
  destruct (adjustStock_store input by_ now db)
    as [-> | (item & newStock & row & _ & _ & _ & _ & ->)].
  - repeat split; reflexivity.
  - split.
    + intros j Hj.
      change (stock_of (fst (update_item_stock (asi_item_id input) newStock
                               now db)) j = stock_of db j).
      apply stock_of_update_other. congruence.
    + split; [apply item_ids_update | repeat split; reflexivity].
Qed.

(** ** The audit trail and the stock stay in step *)

Lemma last_adjustment_app (rows : list StockAdjustment.t)
    (r : StockAdjustment.t) (id : Z) :
  last_adjustment (rows ++ [r]) id
  = if StockAdjustment.item_id r =? id then Some r
    else last_adjustment rows id.
Proof. unfold last_adjustment. now rewrite fold_left_app. Qed.

Lemma ledger_agrees_same (db db' : DB) :
  (forall i, stock_of db' i = stock_of db i) ->
  stockAdjustmentsTable db' = stockAdjustmentsTable db ->
  ledger_agrees db -> ledger_agrees db'.
Proof.
  intros Hs Ht H id row. rewrite Ht, Hs. apply H.
Qed.

Lemma stock_of_insert_adjustment (id : Z) (ty : StockAdjustmentType)
    (change : Z) (reason : string) (previous newStock : Z) (by_ : string)
    (now : Z) (db : DB) (j : Z) :
  stock_of (fst (insert_stock_adjustment id ty change reason previous newStock
                   by_ now db)) j = stock_of db j.
Proof. reflexivity. Qed.

(** One recorded movement: the stock of [id] is set to [newStock] and a row
    saying so is appended. *)
Lemma ledger_agrees_movement (db : DB) (id newStock now : Z)
    (ty : StockAdjustmentType) (change previous : Z) (reason by_ : string)
    (item : Item.t) :
  find_item db id = Some item ->
  ledger_agrees db ->
  ledger_agrees
    (fst (insert_stock_adjustment id ty change reason previous newStock by_ now
            (fst (update_item_stock id newStock now db)))).
Proof.
  intros F H j row.
  rewrite stock_of_insert_adjustment.
  assert (T : stockAdjustmentsTable
                (fst (insert_stock_adjustment id ty change reason previous
                        newStock by_ now
                        (fst (update_item_stock id newStock now db))))
              = stockAdjustmentsTable db
                ++ [StockAdjustment.mk (stock_adjustments_id_seq db) id ty
                      change reason previous newStock by_ now])
    by reflexivity.
  rewrite T, last_adjustment_app. cbn [StockAdjustment.item_id].
  destruct (Z.eqb_spec id j) as [<- | Hne].
  - intros [= <-]. rewrite stock_of_update_same. unfold stock_of.
    now rewrite F.
  - rewrite stock_of_update_other by assumption. apply H.
Qed.

Lemma adjustStock_ledger (input : AdjustStockInput) (by_ : string) (now : Z)
    (db : DB) :
  ledger_agrees db ->
  ledger_agrees (store_after (adjustStock input by_ now db)).
Proof.
  intros H.
  destruct (adjustStock_store input by_ now db)
    as [-> | (item & newStock & row & F & _ & _ & _ & ->)]; [exact H|].
  now apply (ledger_agrees_movement _ _ _ _ _ _ _ _ _ item).
Qed.

Lemma deduct_line_ledger (wo : WorkOrder.t) (now : Z) (l : WorkOrderItem.t)
    (db : DB) :
  ledger_agrees db -> ledger_agrees (fst (deduct_line wo now l db)).
Proof.
  intros H. pose proof (deduct_line_cases wo now l db) as C.
  destruct (find_item db (WorkOrderItem.item_id l)) as [item|] eqn:F.
  - destruct C as [[_ ->] | [_ ->]]; [exact H|].
    now apply (ledger_agrees_movement _ _ _ _ _ _ _ _ _ item).
  - now rewrite C.
Qed.

Lemma completeWorkOrder_ledger (input : CompleteWorkOrderInput) (now : Z)
    (db : DB) :
  ledger_agrees db ->
  ledger_agrees (store_after (completeWorkOrder input now db)).
Proof.
  intros H.
  destruct (find_work_order db (cwi_work_order_id input)) as [wo|] eqn:F;
    [|now rewrite (completeWorkOrder_not_found _ _ _ F)].
  destruct (status_dec (WorkOrder.status wo)) as [S|S];
    [|now rewrite (completeWorkOrder_wrong_status _ _ _ _ F S)].
  rewrite (completeWorkOrder_in_progress _ _ _ _ F S).
  pose proof (for_of_preserves ledger_agrees (deduct_line wo now)
                (lines_of db (cwi_work_order_id input))
                (deduct_line_ledger wo now) db H) as P.
  destruct (for_of _ _ db) as [db1 [u|e]]; exact P.
Qed.

Lemma createWorkOrder_adjustments (input : CreateWorkOrderInput)
    (createdBy number : string) (now : Z) (db : DB) :
  stockAdjustmentsTable
    (store_after (createWorkOrder input createdBy number now db))
  = stockAdjustmentsTable db.
Proof. createWorkOrder_branches input db number; reflexivity. Qed.

Lemma createPurchaseOrder_adjustments (input : CreatePurchaseOrderInput)
    (createdBy number : string) (now : Z) (db : DB) :
  stockAdjustmentsTable
    (store_after (createPurchaseOrder input createdBy number now db))
  = stockAdjustmentsTable db.
Proof. createPurchaseOrder_branches input db number; reflexivity. Qed.

Lemma updateItem_adjustments (input : UpdateItemInput) (now : Z) (db : DB) :
  stockAdjustmentsTable (store_after (updateItem input now db))
  = stockAdjustmentsTable db.
Proof. updateItem_branches input db; reflexivity. Qed.

Lemma stock_of_same_items (db db' : DB) (i : Z) :
  itemsTable db' = itemsTable db -> stock_of db' i = stock_of db i.
Proof. unfold stock_of, find_item. now intros ->. Qed.

(** X6: if the most recent audit row of every audited item records the stock
    the item holds, this is still so after [adjustStock], [completeWorkOrder]
    (also when it stops part-way), [createWorkOrder], [createPurchaseOrder]
    and [updateItem], whether they return or throw. *)
Theorem ledger_stays_in_step (db : DB) :
  ledger_agrees db ->
  (forall input by_ now,
     ledger_agrees (store_after (adjustStock input by_ now db))) /\
  (forall input now,
     ledger_agrees (store_after (completeWorkOrder input now db))) /\
  (forall input createdBy number now,
     ledger_agrees (store_after (createWorkOrder input createdBy number now db)))
  /\
  (forall input createdBy number now,
     ledger_agrees
       (store_after (createPurchaseOrder input createdBy number now db))) /\
  (forall input now,
     ledger_agrees (store_after (updateItem input now db))).
Proof.
  intros H.
  split; [intros; now apply adjustStock_ledger|].
  split; [intros; now apply completeWorkOrder_ledger|].
  split.
  { intros. apply (ledger_agrees_same db); [|apply createWorkOrder_adjustments|exact H].
    intros i. apply stock_of_same_items, createWorkOrder_items. }
  split.
  { intros. apply (ledger_agrees_same db);
      [|apply createPurchaseOrder_adjustments|exact H].
    intros i. apply stock_of_same_items, createPurchaseOrder_items. }
  intros. apply (ledger_agrees_same db);
    [apply updateItem_stock_of | apply updateItem_adjustments | exact H].
Qed.

(** The completion that stops at its second line leaves an audit row for
    item 1 that agrees with its stock, 45; a later removal of 5 leaves a
    second row that agrees with the stock 40. *)
Lemma ledger_stays_in_step_witness :
  let db1 := store_after (completeWorkOrder (mkCompleteWorkOrderInput 1) 7
                            short_store) in
  let db2 := store_after (adjustStock (mkAdjustStockInput 1 REMOVAL 5 "used")
                            "tech_clerk_123" 8 db1) in
  ledger_agrees short_store /\
  ledger_agrees db1 /\
  last_adjustment (stockAdjustmentsTable db1) 1
  = Some (StockAdjustment.mk 1 1 REMOVAL (-5)
            "Work order completion: WO-TEST-001" 50 45 "tech_clerk_123" 7) /\
  ledger_agrees db2 /\
  last_adjustment (stockAdjustmentsTable db2) 1
  = Some (StockAdjustment.mk 2 1 REMOVAL (-5) "used" 45 40 "tech_clerk_123" 8)
  /\
  stock_of db2 1 = Some 40.
Proof.
  intros db1 db2.
  assert (H : ledger_agrees short_store) by (intros id row; discriminate).
  destruct (ledger_stays_in_step short_store H) as (_ & Hc & _).
  assert (H1 : ledger_agrees db1) by apply Hc.
  destruct (ledger_stays_in_step db1 H1) as (Ha & _).
  split; [exact H|]. split; [exact H1|]. split; [reflexivity|].
  split; [apply Ha|]. split; reflexivity.
Defined.

Lemma find_item_after_update (db : DB) (id newStock now : Z) (item : Item.t) :
  find_item db id = Some item ->
  find_item (fst (update_item_stock id newStock now db)) id
  = Some (Item_set_stock newStock now item).
Proof.
  unfold find_item, update_item_stock. simpl.
  rewrite (filter_update_same Item.t Item.id (Item_set_stock newStock now))
    by (intros; reflexivity).
  destruct (filter _ (itemsTable db)); [discriminate|].
  now intros [= ->].
Qed.

Lemma find_item_after_adjustStock (input : AdjustStockInput) (by_ : string)
    (now : Z) (db : DB) (item : Item.t) (row : StockAdjustment.t) :
  find_item db (asi_item_id input) = Some item ->
  outcome (adjustStock input by_ now db) = Ok row ->
  find_item (store_after (adjustStock input by_ now db)) (asi_item_id input)
  = Some (Item_set_stock (StockAdjustment.new_stock row) now item).
Proof.
  intros F Hok.
  destruct (adjustStock_cases input item) as [H | [[H1 H2] | [H1 H2]]].
  - rewrite (adjustStock_commits _ _ _ _ _ F H) in Hok |- *.
    unfold outcome in Hok. simpl in Hok. injection Hok as <-.
    exact (find_item_after_update db _ _ now item F).
  - rewrite (adjustStock_insufficient _ _ _ _ _ F H1 H2) in Hok. discriminate.
  - rewrite (adjustStock_negative_correction _ _ _ _ _ F H1 H2) in Hok.
    discriminate.
Qed.

(** X7: a successful adjustment of an item whose stock was not negative can
    be taken back: a CORRECTION by the opposite of the change stored in the
    returned row succeeds and puts the stock of the item back to what it was,
    leaving a second audit row. *)
Theorem adjustStock_reversible (input : AdjustStockInput) (by_ : string)
    (now : Z) (db : DB) (item : Item.t) (row : StockAdjustment.t) :
  find_item db (asi_item_id input) = Some item ->
  0 <= Item.current_stock item ->
  outcome (adjustStock input by_ now db) = Ok row ->
  forall reason' by' now',
    let db1 := store_after (adjustStock input by_ now db) in
    let back := adjustStock
                  (mkAdjustStockInput (asi_item_id input) CORRECTION
                     (- StockAdjustment.quantity_change row) reason')
                  by' now' db1 in
    exists row',
      outcome back = Ok row' /\
      StockAdjustment.previous_stock row' = StockAdjustment.new_stock row /\
      StockAdjustment.new_stock row' = Item.current_stock item /\
      stock_of (store_after back) (asi_item_id input)
      = Some (Item.current_stock item) /\
      stockAdjustmentsTable (store_after back)
      = stockAdjustmentsTable db ++ [row; row'].
Proof.
  intros F Hnn Hok reason' by' now' db1 back.
  destruct (adjustStock_success_row _ _ _ _ _ _ F Hok) as (Hrow & _ & Htab).
  fold db1 in Htab.
  pose proof (find_item_after_adjustStock _ _ _ _ _ _ F Hok) as F1.
  fold db1 in F1.
  set (undo := mkAdjustStockInput (asi_item_id input) CORRECTION
                 (- StockAdjustment.quantity_change row) reason') in *.
  assert (Hnew : StockAdjustment.new_stock row
                 = Item.current_stock item + StockAdjustment.quantity_change row)
    by (rewrite Hrow; reflexivity).
  assert (Hc : asi_adjustment_type undo = ADDITION \/
               0 <= Item.current_stock
                      (Item_set_stock (StockAdjustment.new_stock row) now item)
                    + normalized_change (asi_adjustment_type undo)
                                        (asi_quantity_change undo)).
  { right. simpl. lia. }
  pose proof (adjustStock_commits undo by' now' db1 _ F1 Hc) as E.
  assert (Hok2 : outcome back
                 = Ok (StockAdjustment.mk (stock_adjustments_id_seq db1)
                         (asi_item_id input) CORRECTION
                         (- StockAdjustment.quantity_change row) reason'
                         (StockAdjustment.new_stock row)
                         (StockAdjustment.new_stock row
                          + - StockAdjustment.quantity_change row) by' now')).
  { subst back. rewrite E. reflexivity. }
  destruct (adjustStock_success_row undo by' now' db1 _ _ F1 Hok2)
    as (_ & Hstock & Htab2).
  eexists. split; [exact Hok2|].
  split; [reflexivity|]. split; [simpl; lia|].
  split.
  - etransitivity; [exact Hstock|]. simpl. f_equal. lia.
  - etransitivity; [exact Htab2|]. rewrite Htab, <- app_assoc. reflexivity.
Qed.

Lemma adjustStock_reversible_witness :
  exists row',
    outcome (adjustStock (mkAdjustStockInput 1 CORRECTION 40 "undo")
               "user_test123" 6
               (store_after
                  (adjustStock (mkAdjustStockInput 1 REMOVAL 40 "damaged")
                     "user_test123" 5 adjust_store))) = Ok row' /\
    StockAdjustment.new_stock row' = 100 /\
    stock_of (store_after
                (adjustStock (mkAdjustStockInput 1 CORRECTION 40 "undo")
                   "user_test123" 6
                   (store_after
                      (adjustStock (mkAdjustStockInput 1 REMOVAL 40 "damaged")
                         "user_test123" 5 adjust_store)))) 1 = Some 100.
Proof.
  assert (Hnn : 0 <= Item.current_stock test_item) by (simpl; lia).
  destruct (adjustStock_reversible
              (mkAdjustStockInput 1 REMOVAL 40 "damaged") "user_test123" 5
              adjust_store test_item
              (StockAdjustment.mk 1 1 REMOVAL (-40) "damaged" 100 60
                 "user_test123" 5)
              eq_refl Hnn eq_refl "undo" "user_test123" 6)
    as (row' & Hok & _ & Hnew & Hstock & _).
  exists row'. split; [exact Hok|]. split; [exact Hnew | exact Hstock].
Defined.

(** ** The life cycle of a work order *)

Lemma deduct_line_work_orders (wo : WorkOrder.t) (now : Z)
    (l : WorkOrderItem.t) (db : DB) :
  workOrdersTable (fst (deduct_line wo now l db)) = workOrdersTable db /\
  work_orders_id_seq (fst (deduct_line wo now l db)) = work_orders_id_seq db.
Proof.
  pose proof (deduct_line_cases wo now l db) as C.
  destruct (find_item db (WorkOrderItem.item_id l)) as [item|].
  - destruct C as [[_ ->] | [_ ->]]; split; reflexivity.
  - rewrite C. split; reflexivity.
Qed.

Lemma completeWorkOrder_work_orders (input : CompleteWorkOrderInput)
    (now : Z) (db : DB) :
  work_orders_id_seq (store_after (completeWorkOrder input now db))
  = work_orders_id_seq db /\
  (workOrdersTable (store_after (completeWorkOrder input now db))
   = workOrdersTable db \/
   workOrdersTable (store_after (completeWorkOrder input now db))
   = map (fun wo => if WorkOrder.id wo =? cwi_work_order_id input
                    then WorkOrder_complete now wo else wo)
         (workOrdersTable db)).
Proof.
  destruct (find_work_order db (cwi_work_order_id input)) as [wo|] eqn:F;
    [|rewrite (completeWorkOrder_not_found _ _ _ F); split; [|left];
      reflexivity].
  destruct (status_dec (WorkOrder.status wo)) as [S|S];
    [|rewrite (completeWorkOrder_wrong_status _ _ _ _ F S); split; [|left];
      reflexivity].
  rewrite (completeWorkOrder_in_progress _ _ _ _ F S).
  pose proof (for_of_preserves
                (fun d => workOrdersTable d = workOrdersTable db /\
                          work_orders_id_seq d = work_orders_id_seq db)
                (deduct_line wo now)
                (lines_of db (cwi_work_order_id input))) as P.
  assert (Q : workOrdersTable
                (fst (for_of (lines_of db (cwi_work_order_id input))
                        (deduct_line wo now) db)) = workOrdersTable db /\
              work_orders_id_seq
                (fst (for_of (lines_of db (cwi_work_order_id input))
                        (deduct_line wo now) db)) = work_orders_id_seq db).
  { apply P; [|split; reflexivity].
    intros x d [Hd Hs].
    destruct (deduct_line_work_orders wo now x d) as [-> ->]. now split. }
  destruct (for_of _ _ db) as [db1 [u|e]]; simpl in Q; destruct Q as [Q1 Q2].
  - split; [exact Q2|]. right. unfold store_after. simpl. now rewrite Q1.
  - split; [exact Q2 | left; exact Q1].
Qed.

Lemma createWorkOrder_work_orders (input : CreateWorkOrderInput)
    (createdBy number : string) (now : Z) (db : DB) :
  let db' := store_after (createWorkOrder input createdBy number now db) in
  workOrdersTable db' = workOrdersTable db \/
  workOrdersTable db'
  = workOrdersTable db
    ++ [WorkOrder.mk (work_orders_id_seq db) number (cwo_description input)
          (cwo_assigned_technician input) OPEN createdBy now now None].
Proof.
  cbv zeta. createWorkOrder_branches input db number;
    try (left; reflexivity); right; reflexivity.
Qed.

Lemma createPurchaseOrder_work_orders (input : CreatePurchaseOrderInput)
    (createdBy number : string) (now : Z) (db : DB) :
  workOrdersTable
    (store_after (createPurchaseOrder input createdBy number now db))
  = workOrdersTable db /\
  work_orders_id_seq
    (store_after (createPurchaseOrder input createdBy number now db))
  = work_orders_id_seq db.
Proof. createPurchaseOrder_branches input db number; split; reflexivity. Qed.

Lemma updateItem_work_orders (input : UpdateItemInput) (now : Z) (db : DB) :
  workOrdersTable (store_after (updateItem input now db)) = workOrdersTable db
  /\
  work_orders_id_seq (store_after (updateItem input now db))
  = work_orders_id_seq db.
Proof. updateItem_branches input db; split; reflexivity. Qed.

Lemma no_in_progress_completed (id now : Z) (rows : list WorkOrder.t) :
  Forall (fun wo => WorkOrder.status wo <> IN_PROGRESS) rows ->
  Forall (fun wo => WorkOrder.status wo <> IN_PROGRESS)
         (map (fun wo => if WorkOrder.id wo =? id
                         then WorkOrder_complete now wo else wo) rows).
Proof.
  intros H. rewrite Forall_map. eapply Forall_impl; [|exact H].
  intros wo Hwo. destruct (WorkOrder.id wo =? id); [discriminate | exact Hwo].
Qed.

(** X8: no handler starts work.  If no stored work order is IN_PROGRESS,
    none is after [adjustStock], [completeWorkOrder], [createWorkOrder],
    [createPurchaseOrder], [updateItem] or [createItem]: work orders are
    created OPEN and no handler moves one to IN_PROGRESS. *)
Theorem work_never_starts (db : DB) :
  no_in_progress db ->
  (forall input by_ now,
     no_in_progress (store_after (adjustStock input by_ now db))) /\
  (forall input now,
     no_in_progress (store_after (completeWorkOrder input now db))) /\
  (forall input createdBy number now,
     no_in_progress
       (store_after (createWorkOrder input createdBy number now db))) /\
  (forall input createdBy number now,
     no_in_progress
       (store_after (createPurchaseOrder input createdBy number now db))) /\
  (forall input now,
     no_in_progress (store_after (updateItem input now db))) /\
  (forall input now,
     no_in_progress (store_after (createItem input now db))).
Proof.
  unfold no_in_progress. intros H.
  split.
  { intros input by_ now.
    destruct (adjustStock_store input by_ now db)
      as [-> | (item & newStock & row & _ & _ & _ & _ & ->)]; exact H. }
  split.
  { intros input now.
    destruct (completeWorkOrder_work_orders input now db) as [_ [-> | ->]];
      [exact H | now apply no_in_progress_completed]. }
  split.
  { intros input createdBy number now.
    destruct (createWorkOrder_work_orders input createdBy number now db)
      as [-> | ->]; [exact H|].
    apply Forall_app. split; [exact H|].
    constructor; [simpl; discriminate | constructor]. }
  split.
  { intros input createdBy number now.
    destruct (createPurchaseOrder_work_orders input createdBy number now db)
      as [-> _]. exact H. }
  split.
  { intros input now.
    destruct (updateItem_work_orders input now db) as [-> _]. exact H. }
  intros input now. unfold createItem, store_after. exact H.
Qed.

Lemma work_never_starts_witness :
  no_in_progress open_store /\
  no_in_progress
    (store_after
       (createWorkOrder
          (mkCreateWorkOrderInput "repair" "tech_clerk_123" [])
          "manager" "WO-2024-01-15-0001" 9 open_store)) /\
  length (workOrdersTable
            (store_after
               (createWorkOrder
                  (mkCreateWorkOrderInput "repair" "tech_clerk_123" [])
                  "manager" "WO-2024-01-15-0001" 9 open_store))) = 2%nat.
Proof.
  assert (H : no_in_progress open_store)
    by (repeat constructor; simpl; discriminate).
  destruct (work_never_starts open_store H) as (_ & _ & Hc & _).
  split; [exact H|]. split; [apply Hc | reflexivity].
Defined.

Lemma find_work_order_In (db : DB) (id : Z) (wo : WorkOrder.t) :
  find_work_order db id = Some wo ->
  In wo (workOrdersTable db) /\ WorkOrder.id wo = id.
Proof.
  unfold find_work_order. intros H.
  destruct (filter _ (workOrdersTable db)) as [|w rest] eqn:E; [discriminate|].
  injection H as ->.
  assert (Hin : In wo (wo :: rest)) by now left.
  rewrite <- E in Hin. apply filter_In in Hin. destruct Hin as [Hin Hid].
  split; [exact Hin | now apply Z.eqb_eq].
Qed.

(** X9: while no stored work order is IN_PROGRESS, every call of
    [completeWorkOrder] throws (work order missing, or not IN_PROGRESS) and
    leaves the store exactly as it was: no stock is deducted and no audit row
    is written. *)
Theorem completeWorkOrder_needs_started_work (db : DB)
    (input : CompleteWorkOrderInput) (now : Z) :
  no_in_progress db ->
  store_after (completeWorkOrder input now db) = db /\
  (outcome (completeWorkOrder input now db)
   = Err (WorkOrderNotFound (cwi_work_order_id input)) \/
   exists status,
     status <> IN_PROGRESS /\
     outcome (completeWorkOrder input now db)
     = Err (WorkOrderNotInProgress status)).
Proof.
  intros H.
  destruct (find_work_order db (cwi_work_order_id input)) as [wo|] eqn:F.
  - destruct (find_work_order_In _ _ _ F) as [Hin _].
    unfold no_in_progress in H. rewrite Forall_forall in H.
    specialize (H wo Hin).
    rewrite (completeWorkOrder_wrong_status _ _ _ _ F H).
    split; [reflexivity|]. right. exists (WorkOrder.status wo). now split.
  - rewrite (completeWorkOrder_not_found _ _ _ F).
    split; [reflexivity | now left].
Qed.

Lemma completeWorkOrder_needs_started_work_witness :
  no_in_progress open_store /\
  store_after (completeWorkOrder (mkCompleteWorkOrderInput 1) 7 open_store)
  = open_store.
Proof.
  assert (H : no_in_progress open_store)
    by (repeat constructor; simpl; discriminate).
  split; [exact H|].
  exact (proj1 (completeWorkOrder_needs_started_work open_store
                  (mkCompleteWorkOrderInput 1) 7 H)).
Defined.

Lemma filter_id_fresh (rows : list WorkOrder.t) (seq : Z) :
  Forall (fun wo => WorkOrder.id wo < seq) rows ->
  filter (fun wo => WorkOrder.id wo =? seq) rows = [].
Proof.
  induction 1 as [|wo rows Hlt _ IH]; simpl; [reflexivity|].
  destruct (Z.eqb_spec (WorkOrder.id wo) seq); [lia | exact IH].
Qed.

(** X10: a work order cannot be completed right after it was created: when
    the ids of the stored work orders are below the serial sequence, the
    work order returned by a successful [createWorkOrder] is found under its
    id with status OPEN, and [completeWorkOrder] on that id throws the
    not-IN_PROGRESS error and changes nothing. *)
Theorem created_work_order_not_completable (input : CreateWorkOrderInput)
    (createdBy number : string) (now : Z) (db : DB) (wo : WorkOrder.t) :
  work_order_keys_fresh db ->
  outcome (createWorkOrder input createdBy number now db) = Ok wo ->
  let db' := store_after (createWorkOrder input createdBy number now db) in
  find_work_order db' (WorkOrder.id wo) = Some wo /\
  WorkOrder.status wo = OPEN /\
  forall later,
    completeWorkOrder (mkCompleteWorkOrderInput (WorkOrder.id wo)) later db'
    = (db', Err (WorkOrderNotInProgress OPEN)).
Proof.
  intros Hfresh Hok db'.
  destruct (createWorkOrder_returns _ _ _ _ _ _ Hok) as (Hwo & Htab & _).
  fold db' in Htab.
  assert (F : find_work_order db' (WorkOrder.id wo) = Some wo).
  { unfold find_work_order. rewrite Htab, filter_app.
    assert (Hid : WorkOrder.id wo = work_orders_id_seq db) by now rewrite Hwo.
    rewrite Hid, (filter_id_fresh _ _ Hfresh). simpl.
    rewrite <- Hid, Z.eqb_refl. reflexivity. }
  assert (S : WorkOrder.status wo = OPEN) by now rewrite Hwo.
  split; [exact F|]. split; [exact S|].
  intros later.
  rewrite (completeWorkOrder_wrong_status
             (mkCompleteWorkOrderInput (WorkOrder.id wo)) later db' wo F);
    [now rewrite S | rewrite S; discriminate].
Qed.

Lemma created_work_order_not_completable_witness :
  work_order_keys_fresh completion_store /\
  exists wo,
    outcome (createWorkOrder
               (mkCreateWorkOrderInput "repair" "tech_clerk_123"
                  [mkWorkOrderLineInput 1 5])
               "manager" "WO-2024-01-15-0001" 9 completion_store) = Ok wo /\
    WorkOrder.id wo = 2 /\
    outcome
      (completeWorkOrder (mkCompleteWorkOrderInput 2) 10
         (store_after
            (createWorkOrder
               (mkCreateWorkOrderInput "repair" "tech_clerk_123"
                  [mkWorkOrderLineInput 1 5])
               "manager" "WO-2024-01-15-0001" 9 completion_store)))
    = Err (WorkOrderNotInProgress OPEN).
Proof.
  assert (H : work_order_keys_fresh completion_store)
    by (repeat constructor; simpl; lia).
  split; [exact H|].
  eexists. split; [reflexivity|]. split; [reflexivity|].
  destruct (created_work_order_not_completable
              (mkCreateWorkOrderInput "repair" "tech_clerk_123"
                 [mkWorkOrderLineInput 1 5])
              "manager" "WO-2024-01-15-0001" 9 completion_store _ H eq_refl)
    as (_ & _ & Hc).
  specialize (Hc 10). simpl in Hc.
  exact (f_equal snd Hc).
Defined.

(** ** [createPurchaseOrder]: when it accepts and what it reports *)

Lemma selected_ids_requested (ids : list Z) (rows : list Item.t) :
  incl (map Item.id (filter (fun it => includes ids (Item.id it)) rows)) ids.
Proof.
  intros x Hx. apply in_map_iff in Hx. destruct Hx as (it & <- & Hit).
  apply filter_In in Hit. now apply includes_In.
Qed.

(** With distinct item ids in the store, the query of step 3 returns as many
    rows as there are lines exactly when the lines name pairwise distinct
    stored items. *)
Lemma select_in_array_count_iff (ls : list PurchaseOrderLineInput) (db : DB) :
  NoDup (map Item.id (itemsTable db)) ->
  length (filter (fun it => includes (map pli_item_id ls) (Item.id it))
                 (itemsTable db))
  = length (map pli_item_id ls) <->
  (forall l, In l ls -> In (pli_item_id l) (map Item.id (itemsTable db))) /\
  NoDup (map pli_item_id ls).
Proof.
  intros Hkeys.
  set (ids := map pli_item_id ls).
  set (found := filter (fun it => includes ids (Item.id it)) (itemsTable db)).
  assert (Hnd : NoDup (map Item.id found))
    by (apply selected_ids_distinct; exact Hkeys).
  assert (Hincl : incl (map Item.id found) ids)
    by apply selected_ids_requested.
  split.
  - intros E.
    assert (Hlen : (length ids <= length (map Item.id found))%nat)
      by (rewrite length_map; lia).
    split.
    + intros l Hl.
      assert (Hin : In (pli_item_id l) (map Item.id found)).
      { apply (NoDup_length_incl Hnd Hlen Hincl). unfold ids.
        now apply in_map. }
      apply in_map_iff in Hin. destruct Hin as (it & <- & Hit).
      apply in_map. unfold found in Hit. now apply filter_In in Hit.
    + apply (NoDup_incl_NoDup Hnd Hlen Hincl).
  - intros (Hall & Hids).
    apply select_in_array_count; try assumption.
    intros id Hin. apply in_map_iff in Hin.
    destruct Hin as (l & <- & Hl). now apply Hall.
Qed.

(** X11: in a store whose items have distinct ids, and for a request whose
    numbers fit their columns, [createPurchaseOrder] succeeds exactly when
    the supplier exists, every line names an existing item, no two lines name
    the same item, there is at least one line, and the number is not yet
    stored. *)
Theorem createPurchaseOrder_succeeds_iff (input : CreatePurchaseOrderInput)
    (createdBy number : string) (now : Z) (db : DB) :
  NoDup (map Item.id (itemsTable db)) ->
  purchase_order_fits input = true ->
  (is_Ok (outcome (createPurchaseOrder input createdBy number now db)) = true
   <->
   find_supplier db (cpo_supplier_id input) <> None /\
   (forall l, In l (cpo_items input) ->
              In (pli_item_id l) (map Item.id (itemsTable db))) /\
   NoDup (map pli_item_id (cpo_items input)) /\
   cpo_items input <> [] /\
   po_number_taken db number = false).
Proof.
  intros Hkeys _. rewrite createPurchaseOrder_cases.
  destruct (find_supplier db (cpo_supplier_id input)) as [s|];
    [|simpl; split; [discriminate | intros [H _]; now contradiction H]].
  cbv zeta.
  pose proof (select_in_array_count_iff (cpo_items input) db Hkeys) as Hcount.
  destruct (Nat.eqb_spec
              (length (filter (fun it => includes (map pli_item_id
                                                      (cpo_items input))
                                                  (Item.id it))
                              (itemsTable db)))
              (length (map pli_item_id (cpo_items input)))) as [E | NE].
  - apply Hcount in E. destruct E as [Hall Hids].
    destruct (po_number_taken db number); simpl;
      [split; [discriminate | intros (_ & _ & _ & _ & H); discriminate]|].
    destruct (cpo_items input) as [|l ls]; simpl.
    + split; [discriminate | intros (_ & _ & _ & H & _); congruence].
    + split; [intros _ | reflexivity].
      split; [discriminate|]. split; [exact Hall|]. split; [exact Hids|].
      split; [discriminate | reflexivity].
  - simpl. split; [discriminate|]. intros (_ & Hall & Hids & _).
    exfalso. apply NE. apply Hcount. now split.
Qed.

(** Scenario E is accepted: its two lines name the two stored items. *)
Lemma createPurchaseOrder_succeeds_iff_witness :
  let input := mkCreatePurchaseOrderInput 1 decimal_lines None in
  NoDup (map Item.id (itemsTable purchasing_store)) /\
  purchase_order_fits input = true /\
  is_Ok (outcome (createPurchaseOrder input "test_user_123"
                    "PO-2024-01-15-0001" 9 purchasing_store))
  = true.
Proof.
  intros input.
  assert (H : NoDup (map Item.id (itemsTable purchasing_store))).
  { simpl. repeat constructor; simpl; intuition lia. }
  split; [exact H|]. split; [reflexivity|].
  apply (createPurchaseOrder_succeeds_iff input "test_user_123"
           "PO-2024-01-15-0001" 9 purchasing_store H eq_refl).
  split; [discriminate|].
  split; [intros l [<- | [<- | []]]; simpl; tauto|].
  split; [simpl; repeat constructor; simpl; intuition lia|].
  split; [discriminate | reflexivity].
Defined.

Lemma missing_ids_spec (ids : list Z) (db : DB) :
  filter (fun id => negb (includes
                            (map Item.id
                               (filter (fun it => includes ids (Item.id it))
                                       (itemsTable db))) id)) ids
  = filter (fun id => match find_item db id with
                      | None => true
                      | Some _ => false
                      end) ids.
Proof.
  apply filter_ext_in. intros id Hid.
  unfold find_item.
  destruct (filter (fun it => Item.id it =? id) (itemsTable db))
    as [|it rest] eqn:E.
  - destruct (includes _ id) eqn:I; [|reflexivity]. exfalso.
    apply includes_In in I. apply in_map_iff in I.
    destruct I as (it & Hit & Hin). apply filter_In in Hin.
    assert (Hin' : In it (filter (fun it => Item.id it =? id) (itemsTable db))).
    { apply filter_In. split; [tauto | now apply Z.eqb_eq]. }
    now rewrite E in Hin'.
  - assert (Hin : In it (it :: rest)) by now left.
    rewrite <- E in Hin. apply filter_In in Hin. destruct Hin as [Hin Hid'].
    apply Z.eqb_eq in Hid'.
    assert (I : includes
                  (map Item.id
                     (filter (fun it0 => includes ids (Item.id it0))
                             (itemsTable db)))
                  id = true).
    { apply includes_In. rewrite <- Hid'. apply in_map. apply filter_In.
      split; [exact Hin|]. apply includes_In. now rewrite Hid'. }
    now rewrite I.
Qed.

(** X12: what a throwing [createPurchaseOrder] leaves behind.  When it
    throws from its validating steps it has written nothing: an unknown
    supplier is reported before the lines are looked at, and otherwise the
    error lists, in request order, exactly the requested item ids for which
    no item is stored.  When the number is taken, the tables are as before.
    But a request without lines passes every check, stores a DRAFT purchase
    order, and only then throws, from the insert of its empty list of lines:
    the caller is told of a failure while a purchase order without lines
    stays in the store. *)
Theorem createPurchaseOrder_failure (input : CreatePurchaseOrderInput)
    (createdBy number : string) (now : Z) (db : DB) (e : error) :
  outcome (createPurchaseOrder input createdBy number now db) = Err e ->
  let db' := store_after (createPurchaseOrder input createdBy number now db) in
  (validation_error e = true ->
     db' = db /\
     (find_supplier db (cpo_supplier_id input) = None ->
      e = SupplierNotFound (cpo_supplier_id input)) /\
     (find_supplier db (cpo_supplier_id input) <> None ->
      e = ItemsNotFound
            (filter (fun id => match find_item db id with
                               | None => true
                               | Some _ => false
                               end)
                    (map pli_item_id (cpo_items input))))) /\
  (forall index, e = UniqueViolation index ->
     po_number_taken db number = true /\
     purchaseOrdersTable db' = purchaseOrdersTable db /\
     purchaseOrderItemsTable db' = purchaseOrderItemsTable db /\
     itemsTable db' = itemsTable db) /\
  (e = NoValues ->
     cpo_items input = [] /\
     purchaseOrdersTable db'
     = purchaseOrdersTable db ++
         [PurchaseOrder.mk (purchase_orders_id_seq db) number
            (cpo_supplier_id input) DRAFT (0 # 1) (or_null (cpo_notes input))
            createdBy now now] /\
     purchaseOrderItemsTable db' = purchaseOrderItemsTable db /\
     itemsTable db' = itemsTable db) /\
  (find_supplier db (cpo_supplier_id input) <> None ->
   cpo_items input = [] ->
   po_number_taken db number = false ->
   e = NoValues).
Proof.
  rewrite createPurchaseOrder_cases.
  destruct (find_supplier db (cpo_supplier_id input)) as [s|].
  2:{ intros [= <-]. cbn. split; [|split; [discriminate|]].
      - intros _. split; [reflexivity|]. split; [reflexivity | congruence].
      - split; [discriminate | congruence]. }
  cbv zeta.
  destruct (Nat.eqb_spec
              (length (filter (fun it => includes (map pli_item_id
                                                      (cpo_items input))
                                                  (Item.id it))
                              (itemsTable db)))
              (length (map pli_item_id (cpo_items input)))) as [E | NE].
  2:{ intros [= <-]. unfold store_after. cbn [fst snd validation_error].
      split; [|split; [discriminate|]].
      - intros _. split; [reflexivity|]. split; [discriminate|].
        intros _. f_equal. apply missing_ids_spec.
      - split; [discriminate|]. intros _ Hnil _. exfalso. apply NE.
        rewrite Hnil. clear. induction (itemsTable db); simpl; auto. }
  unfold insert_purchase_order.
  destruct (po_number_taken db number) eqn:T.
  { intros [= <-]. unfold store_after.
    cbn [fst snd purchaseOrdersTable purchaseOrderItemsTable itemsTable].
    split; [discriminate|]. split; [intros index _; now repeat split|].
    split; [discriminate|]. intros _ _ H. discriminate. }
  destruct (cpo_items input) as [|l ls] eqn:Hitems; [|discriminate].
  intros [= <-]. unfold store_after.
  cbn [fst snd purchaseOrdersTable purchaseOrderItemsTable itemsTable].
  split; [discriminate|]. split; [discriminate|].
  split; [intros _; now repeat split | reflexivity].
Qed.

(** An order naming two unknown items is refused and leaves no trace; an
    order without lines is refused and stays in the store, valued 0. *)
Lemma createPurchaseOrder_failure_witness :
  let unknown := mkCreatePurchaseOrderInput 1
                   [mkPurchaseOrderLineInput 1 1 (1550 # 100);
                    mkPurchaseOrderLineInput 99998 1 (20 # 1);
                    mkPurchaseOrderLineInput 99999 1 (30 # 1)] None in
  let empty := mkCreatePurchaseOrderInput 1 [] None in
  outcome (createPurchaseOrder unknown "test_user_123" "PO-2024-01-15-0001" 9
             purchasing_store)
  = Err (ItemsNotFound [99998; 99999]) /\
  store_after (createPurchaseOrder unknown "test_user_123"
                 "PO-2024-01-15-0001" 9 purchasing_store)
  = purchasing_store /\
  outcome (createPurchaseOrder empty "test_user_123" "PO-2024-01-15-0001" 9
             purchasing_store)
  = Err NoValues /\
  purchaseOrdersTable
    (store_after (createPurchaseOrder empty "test_user_123"
                    "PO-2024-01-15-0001" 9 purchasing_store))
  = [PurchaseOrder.mk 1 "PO-2024-01-15-0001" 1 DRAFT (0 # 1) None
       "test_user_123" 9 9].
Proof.
  intros unknown empty.
  destruct (createPurchaseOrder_failure unknown "test_user_123"
              "PO-2024-01-15-0001" 9 purchasing_store
              (ItemsNotFound [99998; 99999]) eq_refl) as (Hval & _).
  destruct (createPurchaseOrder_failure empty "test_user_123"
              "PO-2024-01-15-0001" 9 purchasing_store NoValues eq_refl)
    as (_ & _ & Hempty & _).
  destruct (Hempty eq_refl) as (_ & Hpo & _).
  split; [reflexivity|]. split; [exact (proj1 (Hval eq_refl))|].
  split; [reflexivity | exact Hpo].
Defined.

Lemma createPurchaseOrder_returns (input : CreatePurchaseOrderInput)
    (createdBy number : string) (now : Z) (db : DB) (po : PurchaseOrder.t) :
  outcome (createPurchaseOrder input createdBy number now db) = Ok po ->
  let db' := store_after (createPurchaseOrder input createdBy number now db) in
  po = PurchaseOrder.mk (purchase_orders_id_seq db) number
         (cpo_supplier_id input) DRAFT (totalAmount (cpo_items input))
         (or_null (cpo_notes input)) createdBy now now /\
  purchaseOrdersTable db' = purchaseOrdersTable db ++ [po] /\
  suppliersTable db' = suppliersTable db /\
  find_supplier db (cpo_supplier_id input) <> None.
Proof.
  rewrite createPurchaseOrder_cases.
  destruct (find_supplier db (cpo_supplier_id input)) as [s|] eqn:F;
    [|discriminate].
  cbv zeta. destruct (Nat.eqb _ _); [|discriminate].
  unfold insert_purchase_order.
  destruct (po_number_taken db number); [discriminate|].
  destruct (cpo_items input) as [|l ls]; [discriminate|].
  unfold outcome, store_after, insert_purchase_order_items.
  cbn [map fst snd purchaseOrdersTable suppliersTable].
  intros [= <-]. split; [reflexivity|]. split; [reflexivity|].
  split; [reflexivity | discriminate].
Qed.

(** ** [getPurchaseOrders]: the join with the suppliers *)

Lemma getPurchaseOrders_In (db : DB) (po : PurchaseOrder.t) :
  In po (getPurchaseOrders db) <->
  In po (purchaseOrdersTable db) /\
  find_supplier db (PurchaseOrder.supplier_id po) <> None.
Proof.
  unfold getPurchaseOrders, find_supplier. rewrite in_flat_map. split.
  - intros (p & Hp & Hin). apply in_map_iff in Hin.
    destruct Hin as (s & <- & Hs). split; [exact Hp|].
    apply filter_In in Hs. destruct Hs as [Hs Hid].
    apply Z.eqb_eq in Hid.
    destruct (filter (fun s0 => Supplier.id s0 =? PurchaseOrder.supplier_id p)
                     (suppliersTable db)) eqn:E; [|discriminate].
    assert (Hin : In s (filter (fun s0 => Supplier.id s0
                                          =? PurchaseOrder.supplier_id p)
                               (suppliersTable db))).
    { apply filter_In. split; [exact Hs|]. apply Z.eqb_eq. now symmetry. }
    now rewrite E in Hin.
  - intros [Hp Hs]. exists po. split; [exact Hp|].
    destruct (filter (fun s => Supplier.id s =? PurchaseOrder.supplier_id po)
                     (suppliersTable db)) as [|s rest] eqn:E;
      [exfalso; apply Hs; reflexivity|].
    assert (Hin : In s (s :: rest)) by now left.
    rewrite <- E in Hin. apply filter_In in Hin. destruct Hin as [Hin Hid].
    apply in_map_iff. exists s. split; [reflexivity|].
    apply filter_In. split; [exact Hin|]. apply Z.eqb_eq.
    apply Z.eqb_eq in Hid. now symmetry.
Qed.

(** X13: [getPurchaseOrders] returns a stored purchase order exactly when a
    supplier with its [supplier_id] is stored, others being dropped without
    an error; in particular the order returned by a successful
    [createPurchaseOrder] is listed by the next [getPurchaseOrders]. *)
Theorem getPurchaseOrders_lists_created (input : CreatePurchaseOrderInput)
    (createdBy number : string) (now : Z) (db : DB) (po : PurchaseOrder.t) :
  outcome (createPurchaseOrder input createdBy number now db) = Ok po ->
  let db' := store_after (createPurchaseOrder input createdBy number now db) in
  In po (getPurchaseOrders db') /\
  (forall p, In p (getPurchaseOrders db') <->
             In p (purchaseOrdersTable db') /\
             find_supplier db' (PurchaseOrder.supplier_id p) <> None).
Proof.
  intros Hok db'. split; [|intros p; apply getPurchaseOrders_In].
  apply getPurchaseOrders_In. subst db'.
  destruct (createPurchaseOrder_returns _ _ _ _ _ _ Hok)
    as (Hpo & Htable & Hsup & Hfound).
  split.
  - rewrite Htable. apply in_or_app. right. now left.
  - unfold find_supplier in *. rewrite Hsup, Hpo. exact Hfound.
Qed.

Lemma getPurchaseOrders_lists_created_witness :
  exists po,
    outcome (createPurchaseOrder
               (mkCreatePurchaseOrderInput 1 decimal_lines None)
               "test_user_123" "PO-2024-01-15-0001" 9 purchasing_store)
    = Ok po /\
    In po (getPurchaseOrders
             (store_after
                (createPurchaseOrder
                   (mkCreatePurchaseOrderInput 1 decimal_lines None)
                   "test_user_123" "PO-2024-01-15-0001" 9 purchasing_store))).
Proof.
  eexists. split; [reflexivity|].
  exact (proj1 (getPurchaseOrders_lists_created
                  (mkCreatePurchaseOrderInput 1 decimal_lines None)
                  "test_user_123" "PO-2024-01-15-0001" 9 purchasing_store _
                  eq_refl)).
Defined.

(** ** [getInventoryHealth]: three lists that split the catalogue *)

Lemma categorize_all (items : list Item.t) :
  forall c w h,
    fold_left categorize items (c, w, h)
    = (c ++ filter (has_status CRITICAL) (map healthItem items),
       w ++ filter (has_status WARNING) (map healthItem items),
       h ++ filter (has_status HEALTHY) (map healthItem items)).
Proof.
  induction items as [|item items IH]; intros c w h.
  - simpl. now rewrite !app_nil_r.
  - change (fold_left categorize (item :: items) (c, w, h))
      with (fold_left categorize items (categorize (c, w, h) item)).
    assert (Step : categorize (c, w, h) item
                   = match ihi_status (healthItem item) with
                     | CRITICAL => (c ++ [healthItem item], w, h)
                     | WARNING => (c, w ++ [healthItem item], h)
                     | HEALTHY => (c, w, h ++ [healthItem item])
                     end) by reflexivity.
    assert (Hf : forall s,
              filter (has_status s) (map healthItem (item :: items))
              = if match s, ihi_status (healthItem item) with
                   | CRITICAL, CRITICAL | WARNING, WARNING
                   | HEALTHY, HEALTHY => true
                   | _, _ => false
                   end
                then healthItem item
                     :: filter (has_status s) (map healthItem items)
                else filter (has_status s) (map healthItem items))
      by reflexivity.
    rewrite Step, !Hf.
    destruct (ihi_status (healthItem item)); cbv iota; rewrite IH;
      now rewrite <- ?app_assoc.
Qed.

Lemma getInventoryHealth_lists (db : DB) :
  critical (getInventoryHealth db)
  = filter (has_status CRITICAL) (map healthItem (itemsTable db)) /\
  warning (getInventoryHealth db)
  = filter (has_status WARNING) (map healthItem (itemsTable db)) /\
  healthy (getInventoryHealth db)
  = filter (has_status HEALTHY) (map healthItem (itemsTable db)) /\
  summary (getInventoryHealth db)
  = mkInventoryHealthSummary
      (Z.of_nat (length (itemsTable db)))
      (Z.of_nat (length (critical (getInventoryHealth db))))
      (Z.of_nat (length (warning (getInventoryHealth db))))
      (Z.of_nat (length (healthy (getInventoryHealth db)))).
Proof.
  unfold getInventoryHealth. rewrite categorize_all. simpl.
  repeat split.
Qed.

Lemma split_by_status (hs : list InventoryHealthItem) :
  Permutation
    (filter (has_status CRITICAL) hs ++ filter (has_status WARNING) hs
     ++ filter (has_status HEALTHY) hs) hs.
Proof.
  induction hs as [|h hs IH]; simpl; [constructor|].
  unfold has_status at 1 3 5. destruct (ihi_status h); simpl.
  - now constructor.
  - rewrite <- Permutation_middle. now constructor.
  - rewrite app_assoc, <- Permutation_middle, <- app_assoc. now constructor.
Qed.

(** X14: the inventory health report splits the catalogue: every item appears
    in exactly one of the three lists (together they are a rearrangement of
    all items), each list holds only items of its status, and the counts of the
    summary are the lengths of the lists and add up to [total_items]. *)
Theorem inventory_health_partition (db : DB) :
  let r := getInventoryHealth db in
  Permutation (critical r ++ warning r ++ healthy r)
              (map healthItem (itemsTable db)) /\
  critical_count (summary r) = Z.of_nat (length (critical r)) /\
  warning_count (summary r) = Z.of_nat (length (warning r)) /\
  healthy_count (summary r) = Z.of_nat (length (healthy r)) /\
  total_items (summary r)
  = critical_count (summary r) + warning_count (summary r)
    + healthy_count (summary r) /\
  Forall (fun h => ihi_status h = CRITICAL) (critical r) /\
  Forall (fun h => ihi_status h = WARNING) (warning r) /\
  Forall (fun h => ihi_status h = HEALTHY) (healthy r).
Proof.
  intros r. subst r.
  destruct (getInventoryHealth_lists db) as (Hc & Hw & Hh & Hs).
  pose proof (split_by_status (map healthItem (itemsTable db))) as P.
  rewrite <- Hc, <- Hw, <- Hh in P.
  split; [exact P|]. rewrite Hs. simpl.
  split; [reflexivity|]. split; [reflexivity|]. split; [reflexivity|].
  split.
  { apply Permutation_length in P. rewrite !length_app, length_map in P.
    lia. }
  rewrite Hc, Hw, Hh.
  repeat split; apply Forall_forall; intros h Hin; apply filter_In in Hin;
    destruct Hin as [_ Hst]; unfold has_status in Hst;
    destruct (ihi_status h); congruence.
Qed.

(** X15: how the report classifies.  An item is listed CRITICAL exactly when
    its stock is 0 (also when its minimum is 0 or less), WARNING exactly when
    its stock is not 0 and at most its minimum (so a negative stock counts as
    a warning, never as critical), and HEALTHY exactly when its stock is not
    0 and above its minimum. *)
Theorem inventory_health_classifies (db : DB) (h : InventoryHealthItem) :
  let r := getInventoryHealth db in
  (In h (critical r) <->
   exists item, In item (itemsTable db) /\ h = healthItem item /\
                Item.current_stock item = 0) /\
  (In h (warning r) <->
   exists item, In item (itemsTable db) /\ h = healthItem item /\
                Item.current_stock item <> 0 /\
                Item.current_stock item <= Item.minimum_stock item) /\
  (In h (healthy r) <->
   exists item, In item (itemsTable db) /\ h = healthItem item /\
                Item.current_stock item <> 0 /\
                Item.minimum_stock item < Item.current_stock item).
Proof.
  intros r. subst r.
  destruct (getInventoryHealth_lists db) as (-> & -> & -> & _).
  assert (St : forall item,
            (has_status CRITICAL (healthItem item) = true <->
             Item.current_stock item = 0) /\
            (has_status WARNING (healthItem item) = true <->
             Item.current_stock item <> 0 /\
             Item.current_stock item <= Item.minimum_stock item) /\
            (has_status HEALTHY (healthItem item) = true <->
             Item.current_stock item <> 0 /\
             Item.minimum_stock item < Item.current_stock item)).
  { intros item. unfold has_status, healthItem. simpl.
    destruct (Z.eqb_spec (Item.current_stock item) 0);
      [|destruct (Z.leb_spec (Item.current_stock item)
                             (Item.minimum_stock item))];
      repeat split; intros; try discriminate; try lia; try tauto. }
  repeat split.
  - intros Hin. apply filter_In in Hin. destruct Hin as [Hin Hst].
    apply in_map_iff in Hin. destruct Hin as (item & <- & Hitem).
    exists item. split; [exact Hitem|]. split; [reflexivity|].
    now apply St.
  - intros (item & Hitem & -> & Hs). apply filter_In.
    split; [now apply in_map | now apply St].
  - intros Hin. apply filter_In in Hin. destruct Hin as [Hin Hst].
    apply in_map_iff in Hin. destruct Hin as (item & <- & Hitem).
    exists item. split; [exact Hitem|]. split; [reflexivity|].
    now apply St.
  - intros (item & Hitem & -> & Hs). apply filter_In.
    split; [now apply in_map | now apply St].
  - intros Hin. apply filter_In in Hin. destruct Hin as [Hin Hst].
    apply in_map_iff in Hin. destruct Hin as (item & <- & Hitem).
    exists item. split; [exact Hitem|]. split; [reflexivity|].
    now apply St.
  - intros (item & Hitem & -> & Hs). apply filter_In.
    split; [now apply in_map | now apply St].
Qed.

(** ** Sorting *)

Lemma insert_by_permutation {A} (leb : A -> A -> bool) (x : A) (l : list A) :
  Permutation (insert_by leb x l) (x :: l).
Proof.
  induction l as [|y l IH]; simpl; [reflexivity|].
  destruct (leb x y); [reflexivity|].
  rewrite IH. apply perm_swap.
Qed.

Lemma order_by_permutation {A} (leb : A -> A -> bool) (l : list A) :
  Permutation (order_by leb l) l.
Proof.
  induction l as [|x l IH]; simpl; [constructor|].
  rewrite insert_by_permutation. now constructor.
Qed.

Section OrderBy.
Variable A : Type.
Variable leb : A -> A -> bool.
Variable R : A -> A -> Prop.
Hypothesis leb_R : forall x y, leb x y = true -> R x y.
Hypothesis not_leb_R : forall x y, leb x y = false -> R y x.

Lemma insert_by_sorted (x : A) (l : list A) :
  Sorted R l -> Sorted R (insert_by leb x l).
Proof.
  induction 1 as [|y l Hl IH Hy]; simpl.
  - repeat constructor.
  - destruct (leb x y) eqn:E.
    + constructor; [now constructor|]. constructor. now apply leb_R.
    + constructor; [exact IH|].
      destruct l as [|z l]; simpl.
      * constructor. now apply not_leb_R.
      * destruct (leb x z); constructor;
          [now apply not_leb_R | now inversion Hy].
Qed.

Lemma order_by_sorted (l : list A) : Sorted R (order_by leb l).
Proof.
  induction l as [|x l IH]; simpl; [constructor|].
  now apply insert_by_sorted.
Qed.
End OrderBy.

(** ** [getLowStockAlerts] and the inventory screen *)

Lemma filter_or_split {A} (p q : A -> bool) (l : list A) :
  (forall x, In x l -> p x && q x = false) ->
  Permutation (filter (fun x => p x || q x) l) (filter p l ++ filter q l).
Proof.
  induction l as [|x l IH]; intros H; simpl; [constructor|].
  assert (Hx : p x && q x = false) by (apply H; now left).
  assert (IH' : Permutation (filter (fun x => p x || q x) l)
                            (filter p l ++ filter q l))
    by (apply IH; intros y Hy; apply H; now right).
  destruct (p x), (q x); simpl in *; try discriminate.
  - now constructor.
  - rewrite <- Permutation_middle. now constructor.
  - exact IH'.
Qed.

(** X16: the low-stock alerts are the stored items whose stock is at most
    their minimum, each exactly once, the same items the inventory screen
    computes as [lowStockItems]; they come in order of ascending stock, so
    items that are out of stock come first, and, when the collation orders
    any two names, items with equal stock come in name order. *)
Theorem low_stock_alerts_sorted (name_leb : string -> string -> bool)
    (db : DB) :
  (forall x y, name_leb x y = true \/ name_leb y x = true) ->
  let alerts := getLowStockAlerts name_leb db in
  Permutation alerts (lowStockItems (itemsTable db)) /\
  (forall it, In it alerts <->
              In it (itemsTable db) /\
              Item.current_stock it <= Item.minimum_stock it) /\
  StronglySorted (fun a b => Item.current_stock a <= Item.current_stock b)
                 alerts /\
  Sorted (fun a b => Item.current_stock a < Item.current_stock b \/
                     (Item.current_stock a = Item.current_stock b /\
                      name_leb (Item.name a) (Item.name b) = true)) alerts.
Proof.
  intros Htotal alerts.
  assert (P : Permutation alerts (lowStockItems (itemsTable db)))
    by apply order_by_permutation.
  split; [exact P|]. split.
  { intros it. split.
    - intros Hin. apply (Permutation_in _ P) in Hin.
      apply filter_In in Hin. destruct Hin as [Hin Hle].
      split; [exact Hin | now apply Z.leb_le].
    - intros [Hin Hle]. apply (Permutation_in _ (Permutation_sym P)).
      apply filter_In. split; [exact Hin | now apply Z.leb_le]. }
  split.
  - apply Sorted_StronglySorted; [intros a b c; lia|].
    apply (order_by_sorted _ (alert_leb name_leb)); unfold alert_leb;
      intros a b H.
    + apply orb_true_iff in H. destruct H as [H | H];
        [apply Z.ltb_lt in H; lia|].
      apply andb_true_iff in H. destruct H as [H _].
      apply Z.eqb_eq in H. lia.
    + apply orb_false_iff in H. destruct H as [H _].
      apply Z.ltb_ge in H. exact H.
  - apply (order_by_sorted _ (alert_leb name_leb)); unfold alert_leb;
      intros a b H.
    + apply orb_true_iff in H. destruct H as [H | H];
        [left; now apply Z.ltb_lt|].
      apply andb_true_iff in H. destruct H as [H1 H2].
      right. split; [now apply Z.eqb_eq | exact H2].
    + apply orb_false_iff in H. destruct H as [H1 H2].
      apply Z.ltb_ge in H1. apply andb_false_iff in H2.
      destruct H2 as [H2 | H2].
      * left. apply Z.eqb_neq in H2. lia.
      * destruct (Z.eq_dec (Item.current_stock a) (Item.current_stock b))
          as [E | NE]; [|left; lia].
        right. split; [now symmetry|].
        destruct (Htotal (Item.name a) (Item.name b)); [congruence | assumption].
Qed.

Lemma low_stock_alerts_sorted_witness :
  getLowStockAlerts String.leb
    (mkDB [] [Item.mk 1 "A" "Widget" None 3 5 (1 # 1) 0 0;
              Item.mk 2 "B" "Bolt" None 0 5 (1 # 1) 0 0;
              Item.mk 3 "C" "Anchor" None 3 5 (1 # 1) 0 0;
              Item.mk 4 "D" "Plenty" None 50 5 (1 # 1) 0 0]
          [] [] [] [] [] [] 5 1 1 1 1 1)
  = [Item.mk 2 "B" "Bolt" None 0 5 (1 # 1) 0 0;
     Item.mk 3 "C" "Anchor" None 3 5 (1 # 1) 0 0;
     Item.mk 1 "A" "Widget" None 3 5 (1 # 1) 0 0] /\
  StronglySorted (fun a b => Item.current_stock a <= Item.current_stock b)
    (getLowStockAlerts String.leb
       (mkDB [] [Item.mk 1 "A" "Widget" None 3 5 (1 # 1) 0 0;
                 Item.mk 2 "B" "Bolt" None 0 5 (1 # 1) 0 0;
                 Item.mk 3 "C" "Anchor" None 3 5 (1 # 1) 0 0;
                 Item.mk 4 "D" "Plenty" None 50 5 (1 # 1) 0 0]
             [] [] [] [] [] [] 5 1 1 1 1 1)).
Proof.
  split; [reflexivity|].
  exact (proj1 (proj2 (proj2 (low_stock_alerts_sorted String.leb _
                                String.leb_total)))).
Defined.

Lemma map_id_filter_status (s : InventoryHealthStatus) (items : list Item.t) :
  map ihi_id (filter (has_status s) (map healthItem items))
  = map Item.id (filter (fun it => has_status s (healthItem it)) items).
Proof.
  induction items as [|it items IH]; simpl; [reflexivity|].
  destruct (has_status s (healthItem it)); simpl; now rewrite IH.
Qed.

(** X17: when no item has a negative minimum, the low-stock alerts name
    exactly the items that the inventory health report lists as CRITICAL or
    WARNING, each once. *)
Theorem low_stock_alerts_match_health (name_leb : string -> string -> bool)
    (db : DB) :
  Forall (fun it => 0 <= Item.minimum_stock it) (itemsTable db) ->
  Permutation
    (map Item.id (getLowStockAlerts name_leb db))
    (map ihi_id (critical (getInventoryHealth db)
                 ++ warning (getInventoryHealth db))).
Proof.
  intros Hmin.
  destruct (getInventoryHealth_lists db) as (-> & -> & _).
  rewrite map_app, !map_id_filter_status, <- map_app.
  apply Permutation_map.
  unfold getLowStockAlerts. rewrite order_by_permutation.
  rewrite <- filter_or_split.
  - rewrite (filter_ext_in
               (fun it => Item.current_stock it <=? Item.minimum_stock it)
               (fun it => has_status CRITICAL (healthItem it)
                          || has_status WARNING (healthItem it)));
      [reflexivity|].
    intros it Hin. rewrite Forall_forall in Hmin. specialize (Hmin it Hin).
    unfold has_status, healthItem. simpl.
    destruct (Z.eqb_spec (Item.current_stock it) 0) as [E | NE].
    + simpl. apply Z.leb_le. lia.
    + destruct (Item.current_stock it <=? Item.minimum_stock it); reflexivity.
  - intros it _. unfold has_status. destruct (ihi_status (healthItem it));
      reflexivity.
Qed.

(** Three low items and one well stocked: the alerts name the items 2, 3, 1
    and the report the items 2, 1, 3. *)
Lemma low_stock_alerts_match_health_witness :
  let db := mkDB [] [Item.mk 1 "A" "Widget" None 3 5 (1 # 1) 0 0;
                     Item.mk 2 "B" "Bolt" None 0 5 (1 # 1) 0 0;
                     Item.mk 3 "C" "Anchor" None 3 5 (1 # 1) 0 0;
                     Item.mk 4 "D" "Plenty" None 50 5 (1 # 1) 0 0]
                 [] [] [] [] [] [] 5 1 1 1 1 1 in
  Forall (fun it => 0 <= Item.minimum_stock it) (itemsTable db) /\
  map Item.id (getLowStockAlerts String.leb db) = [2; 3; 1] /\
  map ihi_id (critical (getInventoryHealth db)
              ++ warning (getInventoryHealth db)) = [2; 1; 3] /\
  Permutation
    (map Item.id (getLowStockAlerts String.leb db))
    (map ihi_id (critical (getInventoryHealth db)
                 ++ warning (getInventoryHealth db))).
Proof.
  intros db.
  assert (H : Forall (fun it => 0 <= Item.minimum_stock it) (itemsTable db))
    by (repeat constructor; simpl; lia).
  split; [exact H|]. split; [reflexivity|]. split; [reflexivity|].
  exact (low_stock_alerts_match_health String.leb db H).
Defined.

(** X18: the badge of the inventory screen says what the server report says
    for the same item (Out of Stock with CRITICAL, Low Stock with WARNING, In
    Stock with HEALTHY), and, when the item's minimum is not negative, the
    screen counts it as low stock exactly when its badge is not In Stock. *)
Theorem stock_badge_matches_report (item : Item.t) :
  (getStockStatus item = OutOfStock <-> ihi_status (healthItem item) = CRITICAL)
  /\
  (getStockStatus item = LowStock <-> ihi_status (healthItem item) = WARNING)
  /\
  (getStockStatus item = InStock <-> ihi_status (healthItem item) = HEALTHY)
  /\
  (0 <= Item.minimum_stock item ->
   forall items,
     In item (lowStockItems items) <->
     In item items /\ getStockStatus item <> InStock).
Proof.
  unfold getStockStatus, healthItem. simpl.
  destruct (Z.eqb_spec (Item.current_stock item) 0) as [E | NE];
    [|destruct (Z.leb_spec (Item.current_stock item)
                           (Item.minimum_stock item)) as [L | G]];
    (split; [split; congruence|]); (split; [split; congruence|]);
    (split; [split; congruence|]);
    intros Hmin items; unfold lowStockItems; rewrite filter_In;
    (split; intros [Hin H]; (split; [exact Hin|]));
    try discriminate; try congruence.
  - apply Z.leb_le. lia.
  - now apply Z.leb_le.
  - apply Z.leb_le in H. lia.
Qed.

Lemma stock_badge_matches_report_witness :
  0 <= Item.minimum_stock item1 /\
  getStockStatus item1 = InStock /\
  ~ In item1 (lowStockItems [item1; item2]).
Proof.
  assert (H : 0 <= Item.minimum_stock item1) by (simpl; lia).
  split; [exact H|]. split; [reflexivity|].
  destruct (stock_badge_matches_report item1) as (_ & _ & _ & Hlow).
  intros Hin. apply (Hlow H) in Hin. destruct Hin as [_ Hbadge].
  now apply Hbadge.
Defined.

(** ** [getStockAdjustments]: the joined, filtered, ordered page *)

Lemma joined_adjustments_In (db : DB) (r : StockAdjustment.t) :
  In r (joined_adjustments db) <->
  In r (stockAdjustmentsTable db) /\
  find_item db (StockAdjustment.item_id r) <> None /\
  find_user db (StockAdjustment.adjusted_by r) <> None.
Proof.
  unfold joined_adjustments, find_item, find_user.
  rewrite in_flat_map. split.
  - intros (r0 & Hr0 & Hin). apply in_flat_map in Hin.
    destruct Hin as (it & Hit & Hin). apply in_map_iff in Hin.
    destruct Hin as (u & <- & Hu).
    apply filter_In in Hit. destruct Hit as [Hit Eit].
    apply filter_In in Hu. destruct Hu as [Hu Eu].
    split; [exact Hr0|]. split.
    + assert (Hin : In it (filter (fun it0 => Item.id it0
                                              =? StockAdjustment.item_id r0)
                                  (itemsTable db))).
      { apply filter_In. split; [exact Hit|]. now rewrite Z.eqb_sym. }
      destruct (filter (fun it0 => Item.id it0 =? StockAdjustment.item_id r0)
                       (itemsTable db)); [contradiction | discriminate].
    + assert (Hin : In u (filter (fun u0 => String.eqb (User.clerk_id u0)
                                              (StockAdjustment.adjusted_by r0))
                                 (usersTable db))).
      { apply filter_In. split; [exact Hu|]. now rewrite String.eqb_sym. }
      destruct (filter (fun u0 => String.eqb (User.clerk_id u0)
                                    (StockAdjustment.adjusted_by r0))
                       (usersTable db)); [contradiction | discriminate].
  - intros (Hr & Hitem & Huser). exists r. split; [exact Hr|].
    destruct (filter (fun it => Item.id it =? StockAdjustment.item_id r)
                     (itemsTable db)) as [|it rest] eqn:Eit;
      [exfalso; apply Hitem; reflexivity|].
    destruct (filter (fun u => String.eqb (User.clerk_id u)
                                 (StockAdjustment.adjusted_by r))
                     (usersTable db)) as [|u urest] eqn:Eu;
      [exfalso; apply Huser; reflexivity|].
    assert (Hit : In it (it :: rest)) by now left.
    rewrite <- Eit in Hit. apply filter_In in Hit. destruct Hit as [Hit Hid].
    assert (Hu : In u (u :: urest)) by now left.
    rewrite <- Eu in Hu. apply filter_In in Hu. destruct Hu as [Hu Hc].
    apply in_flat_map. exists it. split.
    + apply filter_In. split; [exact Hit | now rewrite Z.eqb_sym].
    + apply in_map_iff. exists u. split; [reflexivity|].
      apply filter_In. split; [exact Hu | now rewrite String.eqb_sym].
Qed.

Lemma StronglySorted_skipn {A} (R : A -> A -> Prop) (n : nat) (l : list A) :
  StronglySorted R l -> StronglySorted R (skipn n l).
Proof.
  revert l. induction n as [|n IH]; intros l H; simpl; [exact H|].
  destruct l as [|x l]; [constructor|]. apply IH. now inversion H.
Qed.

Lemma StronglySorted_firstn {A} (R : A -> A -> Prop) (n : nat) (l : list A) :
  StronglySorted R l -> StronglySorted R (firstn n l).
Proof.
  revert l. induction n as [|n IH]; intros l H; simpl; [constructor|].
  destruct l as [|x l]; [constructor|].
  inversion H as [|? ? Hl Hx]; subst. constructor; [now apply IH|].
  rewrite Forall_forall in Hx |- *. intros y Hy. apply Hx.
  rewrite <- (firstn_skipn n l). apply in_or_app. now left.
Qed.

Lemma conditions_spec (filters : GetStockAdjustmentsFilters)
    (r : StockAdjustment.t) :
  conditions filters r = true <->
  (forall id, gsf_item_id filters = Some id ->
              StockAdjustment.item_id r = id) /\
  (forall by_, gsf_adjusted_by filters = Some by_ -> by_ <> EmptyString ->
               StockAdjustment.adjusted_by r = by_) /\
  (forall ty, gsf_adjustment_type filters = Some ty ->
              StockAdjustment.adjustment_type r = ty) /\
  (forall d, gsf_start_date filters = Some d ->
             d <= StockAdjustment.created_at r) /\
  (forall d, gsf_end_date filters = Some d ->
             StockAdjustment.created_at r <= d).
Proof.
  unfold conditions. rewrite !andb_true_iff.
  assert (Hty : forall a b, StockAdjustmentType_eqb a b = true <-> a = b)
    by (intros [] []; simpl; split; congruence).
  split.
  - intros ((((H1 & H2) & H3) & H4) & H5).
    split; [intros id E; rewrite E in H1; now apply Z.eqb_eq|].
    split.
    { intros by_ E Hne. rewrite E in H2.
      destruct by_; [congruence | now apply String.eqb_eq]. }
    split; [intros ty E; rewrite E in H3; now apply Hty|].
    split; [intros d E; rewrite E in H4; now apply Z.leb_le|].
    intros d E; rewrite E in H5; now apply Z.leb_le.
  - intros (H1 & H2 & H3 & H4 & H5).
    repeat split.
    + destruct (gsf_item_id filters); [apply Z.eqb_eq; now apply H1 | reflexivity].
    + destruct (gsf_adjusted_by filters) as [[|c s]|]; try reflexivity.
      apply String.eqb_eq. apply H2; [reflexivity | discriminate].
    + destruct (gsf_adjustment_type filters);
        [apply Hty; now apply H3 | reflexivity].
    + destruct (gsf_start_date filters);
        [apply Z.leb_le; now apply H4 | reflexivity].
    + destruct (gsf_end_date filters);
        [apply Z.leb_le; now apply H5 | reflexivity].
Qed.

Lemma limit_rows_incl {A} (limit : Z) (rows : list A) (x : A) :
  In x (limit_rows limit rows) -> In x rows.
Proof.
  unfold limit_rows. destruct (limit <? 0); [trivial|].
  intros H. rewrite <- (firstn_skipn (Z.to_nat limit) rows).
  apply in_or_app. now left.
Qed.

(** What every page is made of: joined rows that meet the filters, newest
    first. *)
Lemma getStockAdjustments_rows (filters : GetStockAdjustmentsFilters)
    (db : DB) (page : list StockAdjustment.t) :
  getStockAdjustments filters db = Some page ->
  StronglySorted (fun a b => StockAdjustment.created_at b
                             <= StockAdjustment.created_at a) page /\
  Forall (fun r => In r (joined_adjustments db) /\
                   conditions filters r = true) page.
Proof.
  unfold getStockAdjustments.
  destruct (offset_of filters <? 0); [discriminate|]. intros [= <-].
  split.
  - assert (S : StronglySorted
                  (fun a b => StockAdjustment.created_at b
                              <= StockAdjustment.created_at a)
                  (skipn (Z.to_nat (offset_of filters))
                     (order_by
                        (fun a b => StockAdjustment.created_at b
                                    <=? StockAdjustment.created_at a)
                        (filter (conditions filters)
                           (joined_adjustments db))))).
    { apply StronglySorted_skipn.
      apply Sorted_StronglySorted; [intros a b c; lia|].
      apply (order_by_sorted _
               (fun a b => StockAdjustment.created_at b
                           <=? StockAdjustment.created_at a));
        intros a b H; [now apply Z.leb_le | apply Z.leb_gt in H; lia]. }
    unfold limit_rows. destruct (limit_of filters <? 0); [exact S|].
    now apply StronglySorted_firstn.
  - apply Forall_forall. intros r Hr. apply limit_rows_incl in Hr.
    assert (Hs : In r (order_by
                         (fun a b => StockAdjustment.created_at b
                                     <=? StockAdjustment.created_at a)
                         (filter (conditions filters)
                            (joined_adjustments db)))).
    { rewrite <- (firstn_skipn (Z.to_nat (offset_of filters))).
      apply in_or_app. now right. }
    apply (Permutation_in _ (order_by_permutation _ _)) in Hs.
    now apply filter_In in Hs.
Qed.

(** X19: every page [getStockAdjustments] returns is ordered newest first
    and consists of stored audit rows whose item and whose acting user are
    both stored and which meet every filter that was given, where an empty
    [adjusted_by] counts as not given.  A limit that is not negative bounds
    the page (100 rows when no limit is given); a negative limit bounds
    nothing: from offset 0 the page then holds every joined row that meets
    the filters. *)
Theorem getStockAdjustments_page (filters : GetStockAdjustmentsFilters)
    (db : DB) (page : list StockAdjustment.t) :
  getStockAdjustments filters db = Some page ->
  (0 <= limit_of filters -> Z.of_nat (length page) <= limit_of filters) /\
  (gsf_limit filters = None -> (length page <= 100)%nat) /\
  (limit_of filters < 0 -> offset_of filters = 0 ->
   forall r, In r (joined_adjustments db) -> conditions filters r = true ->
             In r page) /\
  StronglySorted (fun a b => StockAdjustment.created_at b
                             <= StockAdjustment.created_at a) page /\
  Forall
    (fun r =>
       In r (stockAdjustmentsTable db) /\
       find_item db (StockAdjustment.item_id r) <> None /\
       find_user db (StockAdjustment.adjusted_by r) <> None /\
       (forall id, gsf_item_id filters = Some id ->
                   StockAdjustment.item_id r = id) /\
       (forall by_, gsf_adjusted_by filters = Some by_ ->
                    by_ <> EmptyString ->
                    StockAdjustment.adjusted_by r = by_) /\
       (forall ty, gsf_adjustment_type filters = Some ty ->
                   StockAdjustment.adjustment_type r = ty) /\
       (forall d, gsf_start_date filters = Some d ->
                  d <= StockAdjustment.created_at r) /\
       (forall d, gsf_end_date filters = Some d ->
                  StockAdjustment.created_at r <= d)) page.
Proof.
  intros Hpage.
  destruct (getStockAdjustments_rows _ _ _ Hpage) as [Hsorted Hrows].
  revert Hpage. unfold getStockAdjustments.
  destruct (offset_of filters <? 0); [discriminate|]. intros [= <-].
  assert (Hlen : 0 <= limit_of filters ->
                 Z.of_nat
                   (length
                      (limit_rows (limit_of filters)
                         (skipn (Z.to_nat (offset_of filters))
                            (order_by
                               (fun a b => StockAdjustment.created_at b
                                           <=? StockAdjustment.created_at a)
                               (filter (conditions filters)
                                  (joined_adjustments db))))))
                 <= limit_of filters).
  { intros Hl. unfold limit_rows.
    destruct (Z.ltb_spec (limit_of filters) 0); [lia|].
    pose proof (firstn_le_length (Z.to_nat (limit_of filters))
                  (skipn (Z.to_nat (offset_of filters))
                     (order_by
                        (fun a b => StockAdjustment.created_at b
                                    <=? StockAdjustment.created_at a)
                        (filter (conditions filters)
                           (joined_adjustments db))))). lia. }
  split; [exact Hlen|]. split.
  { intros Hnone.
    assert (E : limit_of filters = 100) by (unfold limit_of; now rewrite Hnone).
    rewrite E in Hlen |- *. lia. }
  split.
  { intros Hneg Hoff r Hr Hc. unfold limit_rows.
    destruct (Z.ltb_spec (limit_of filters) 0); [|lia].
    rewrite Hoff. cbn [Z.to_nat skipn].
    apply (Permutation_in _ (Permutation_sym (order_by_permutation _ _))).
    apply filter_In. now split. }
  split; [exact Hsorted|].
  eapply Forall_impl; [|exact Hrows].
  intros r [Hj Hc].
  apply joined_adjustments_In in Hj. destruct Hj as (H1 & H2 & H3).
  apply conditions_spec in Hc.
  split; [exact H1|]. split; [exact H2|]. split; [exact H3 | exact Hc].
Qed.

(** After the completion of the work order of the test suite: the rows of
    item 2 among the REMOVAL rows, the empty [adjusted_by] being ignored;
    and both rows under the limit -1. *)
Lemma getStockAdjustments_page_witness :
  let db' := store_after (completeWorkOrder (mkCompleteWorkOrderInput 1) 7
                            completion_store) in
  let filters := mkGetStockAdjustmentsFilters (Some 2) (Some EmptyString)
                   (Some REMOVAL) None None None None in
  let unbounded := mkGetStockAdjustmentsFilters None None None None None
                     (Some (-1)) None in
  getStockAdjustments filters db'
  = Some [StockAdjustment.mk 2 2 REMOVAL (-3)
            "Work order completion: WO-TEST-001" 30 27 "tech_clerk_123" 7] /\
  Forall (fun r => StockAdjustment.item_id r = 2)
    [StockAdjustment.mk 2 2 REMOVAL (-3)
       "Work order completion: WO-TEST-001" 30 27 "tech_clerk_123" 7] /\
  exists page,
    getStockAdjustments unbounded db' = Some page /\ length page = 2%nat /\
    forall r, In r (joined_adjustments db') -> In r page.
Proof.
  intros db' filters unbounded. split; [reflexivity|].
  split.
  - destruct (getStockAdjustments_page filters db' _ eq_refl)
      as (_ & _ & _ & _ & Hall).
    eapply Forall_impl; [|exact Hall].
    intros r (_ & _ & _ & Hid & _). now apply Hid.
  - eexists. split; [reflexivity|]. split; [reflexivity|].
    destruct (getStockAdjustments_page unbounded db' _ eq_refl)
      as (_ & _ & Hall & _).
    intros r Hr. apply Hall; [reflexivity | reflexivity | exact Hr|].
    reflexivity.
Defined.

Lemma firstn_add {A} (n m : nat) (l : list A) :
  firstn (n + m) l = firstn n l ++ firstn m (skipn n l).
Proof.
  revert l. induction n as [|n IH]; intros l; simpl; [reflexivity|].
  destruct l as [|x l]; simpl; [now rewrite firstn_nil | now rewrite IH].
Qed.

(** X20: consecutive pages fit together when no two stored audit rows carry
    the same timestamp, so that the order of the listing is fixed: for a
    non-negative offset and non-negative page sizes, the page of [l1] rows at
    [offset] followed by the page of [l2] rows at [offset + l1] is the page
    of [l1 + l2] rows at [offset]; no row is skipped or repeated at the
    seam. *)
Theorem getStockAdjustments_pages_join (filters : GetStockAdjustmentsFilters)
    (db : DB) (offset l1 l2 : Z) :
  NoDup (map StockAdjustment.created_at (stockAdjustmentsTable db)) ->
  0 <= offset -> 0 <= l1 -> 0 <= l2 ->
  let page o l :=
    getStockAdjustments
      (mkGetStockAdjustmentsFilters (gsf_item_id filters)
         (gsf_adjusted_by filters) (gsf_adjustment_type filters)
         (gsf_start_date filters) (gsf_end_date filters) (Some l) (Some o))
      db in
  exists p1 p2,
    page offset l1 = Some p1 /\
    page (offset + l1) l2 = Some p2 /\
    page offset (l1 + l2) = Some (p1 ++ p2).
Proof.
  intros _ Ho H1 H2 page. subst page. unfold getStockAdjustments, limit_rows.
  unfold limit_of, offset_of. cbn [gsf_limit gsf_offset].
  destruct (Z.ltb_spec l1 0); [lia|]. destruct (Z.ltb_spec l2 0); [lia|].
  destruct (Z.ltb_spec offset 0); [lia|].
  destruct (Z.ltb_spec (offset + l1) 0); [lia|].
  destruct (Z.ltb_spec (l1 + l2) 0); [lia|].
  eexists. eexists. split; [reflexivity|]. split; [reflexivity|].
  f_equal.
  rewrite !Z2Nat.inj_add by assumption.
  rewrite firstn_add, skipn_skipn. do 3 f_equal. apply Nat.add_comm.
Qed.

(** Two adjustments of item 1, at times 8 and 9: the first page of one row
    holds the later one, the second page the earlier one. *)
Lemma getStockAdjustments_pages_join_witness :
  let db1 := store_after
               (adjustStock (mkAdjustStockInput 1 REMOVAL 5 "used")
                  "tech_clerk_123" 8 completion_store) in
  let db' := store_after
               (adjustStock (mkAdjustStockInput 1 ADDITION 2 "returned")
                  "tech_clerk_123" 9 db1) in
  NoDup (map StockAdjustment.created_at (stockAdjustmentsTable db')) /\
  getStockAdjustments
    (mkGetStockAdjustmentsFilters None None None None None (Some 1) (Some 0))
    db'
  = Some [StockAdjustment.mk 2 1 ADDITION 2 "returned" 45 47
            "tech_clerk_123" 9] /\
  getStockAdjustments
    (mkGetStockAdjustmentsFilters None None None None None (Some 1) (Some 1))
    db'
  = Some [StockAdjustment.mk 1 1 REMOVAL (-5) "used" 50 45
            "tech_clerk_123" 8] /\
  getStockAdjustments
    (mkGetStockAdjustmentsFilters None None None None None (Some 2) (Some 0))
    db'
  = Some [StockAdjustment.mk 2 1 ADDITION 2 "returned" 45 47
            "tech_clerk_123" 9;
          StockAdjustment.mk 1 1 REMOVAL (-5) "used" 50 45
            "tech_clerk_123" 8].
Proof.
  intros db1 db'.
  assert (Hnd : NoDup (map StockAdjustment.created_at
                           (stockAdjustmentsTable db'))).
  { simpl. repeat constructor; simpl; intuition lia. }
  assert (H0 : 0 <= 0) by lia. assert (H1 : 0 <= 1) by lia.
  destruct (getStockAdjustments_pages_join no_filters db' 0 1 1 Hnd H0 H1 H1)
    as (p1 & p2 & E1 & E2 & E12).
  split; [exact Hnd|].
  assert (P1 : p1 = [StockAdjustment.mk 2 1 ADDITION 2 "returned" 45 47
                       "tech_clerk_123" 9])
    by (vm_compute in E1; now injection E1 as <-).
  assert (P2 : p2 = [StockAdjustment.mk 1 1 REMOVAL (-5) "used" 50 45
                       "tech_clerk_123" 8])
    by (vm_compute in E2; now injection E2 as <-).
  subst p1 p2.
  split; [exact E1|]. split; [exact E2 | exact E12].
Defined.

Lemma adjustStock_users (input : AdjustStockInput) (by_ : string) (now : Z)
    (db : DB) :
  usersTable (store_after (adjustStock input by_ now db)) = usersTable db.
Proof.
  destruct (adjustStock_store input by_ now db)
    as [-> | (item & newStock & row & _ & _ & _ & _ & ->)]; reflexivity.
Qed.

(** X21: what the listing shows of a fresh adjustment.  After a successful
    [adjustStock], the row it returned is on the first page of every listing
    whose filters it meets, provided the acting user is stored and the page
    is large enough to hold all joined rows; and if the acting user is not
    stored, no listing ever shows the row. *)
Theorem adjustment_listed_iff_user_known (input : AdjustStockInput)
    (by_ : string) (now : Z) (db : DB) (row : StockAdjustment.t) :
  outcome (adjustStock input by_ now db) = Ok row ->
  let db' := store_after (adjustStock input by_ now db) in
  (find_user db by_ <> None ->
   forall filters,
     conditions filters row = true ->
     offset_of filters = 0 ->
     Z.of_nat (length (joined_adjustments db')) <= limit_of filters ->
     exists page, getStockAdjustments filters db' = Some page /\ In row page)
  /\
  (find_user db by_ = None ->
   forall filters page,
     getStockAdjustments filters db' = Some page -> ~ In row page).
Proof.
  intros Hok db'.
  destruct (find_item db (asi_item_id input)) as [item|] eqn:F;
    [|rewrite (adjustStock_not_found _ _ _ _ F) in Hok; discriminate].
  destruct (adjustStock_success_row _ _ _ _ _ _ F Hok) as (Hrow & _ & Htab).
  pose proof (find_item_after_adjustStock _ _ _ _ _ _ F Hok) as F'.
  pose proof (adjustStock_users input by_ now db) as Husers.
  fold db' in Htab, F', Husers.
  assert (Hby : StockAdjustment.adjusted_by row = by_) by now rewrite Hrow.
  assert (Hid : StockAdjustment.item_id row = asi_item_id input)
    by now rewrite Hrow.
  assert (Hu : find_user db' by_ = find_user db by_)
    by (unfold find_user; now rewrite Husers).
  split.
  - intros Huser filters Hc Hoff Hlim.
    unfold getStockAdjustments, limit_rows. rewrite Hoff.
    destruct (Z.ltb_spec (limit_of filters) 0); [lia|]. cbn [Z.ltb].
    eexists. split; [reflexivity|].
    rewrite firstn_all2.
    + apply (Permutation_in _ (Permutation_sym (order_by_permutation _ _))).
      apply filter_In. split; [|exact Hc].
      apply joined_adjustments_In. rewrite Hby, Hid, F', Hu, Htab.
      split; [apply in_or_app; right; now left|].
      split; [discriminate | exact Huser].
    + cbn [Z.to_nat skipn].
      rewrite (Permutation_length (order_by_permutation _ _)).
      pose proof (filter_length_le (conditions filters)
                    (joined_adjustments db')). lia.
  - intros Hnone filters page Hpage Hin.
    destruct (getStockAdjustments_rows _ _ _ Hpage) as (_ & Hall).
    rewrite Forall_forall in Hall.
    destruct (Hall row Hin) as (Hj & _).
    apply joined_adjustments_In in Hj. destruct Hj as (_ & _ & Hknown).
    apply Hknown. now rewrite Hby, Hu.
Qed.

Lemma adjustment_listed_iff_user_known_witness :
  let db' := store_after
               (adjustStock (mkAdjustStockInput 1 REMOVAL 5 "used")
                  "tech_clerk_123" 8 completion_store) in
  find_user completion_store "tech_clerk_123" <> None /\
  (exists page,
     getStockAdjustments no_filters db' = Some page /\
     In (StockAdjustment.mk 1 1 REMOVAL (-5) "used" 50 45 "tech_clerk_123" 8)
        page) /\
  find_user completion_store "stranger" = None /\
  getStockAdjustments no_filters
    (store_after (adjustStock (mkAdjustStockInput 1 REMOVAL 5 "used")
                    "stranger" 8 completion_store)) = Some [].
Proof.
  intros db'.
  assert (Hu : find_user completion_store "tech_clerk_123" <> None)
    by discriminate.
  split; [exact Hu|]. split.
  - destruct (adjustment_listed_iff_user_known
                (mkAdjustStockInput 1 REMOVAL 5 "used") "tech_clerk_123" 8
                completion_store
                (StockAdjustment.mk 1 1 REMOVAL (-5) "used" 50 45
                   "tech_clerk_123" 8) eq_refl) as [Hshown _].
    apply (Hshown Hu no_filters eq_refl eq_refl).
    vm_compute. discriminate.
  - split; reflexivity.
Defined.

(** ** The router: who may do what *)

Lemma requireRole_spec (allowed : list UserRole) (ctx : Context) :
  (requireRole allowed ctx = inl UNAUTHORIZED <->
   userId ctx = None \/ userId ctx = Some EmptyString) /\
  (requireRole allowed ctx = inl FORBIDDEN <->
   (exists id, userId ctx = Some id /\ id <> EmptyString) /\
   (forall role, userRole ctx = Some role -> ~ In role allowed)) /\
  (forall id,
     requireRole allowed ctx = inr id <->
     userId ctx = Some id /\ id <> EmptyString /\
     exists role, userRole ctx = Some role /\ In role allowed) /\
  requireRole allowed ctx <> inl BAD_REQUEST.
Proof.
  assert (Hin : forall role, existsb (UserRole_eqb role) allowed = true
                             <-> In role allowed).
  { intros role. rewrite existsb_exists. split.
    - intros (r & Hr & E). destruct role, r; simpl in E; congruence.
    - intros H. exists role. split; [exact H | destruct role; reflexivity]. }
  unfold requireRole, requireAuth.
  destruct (userId ctx) as [[|c s]|] eqn:U.
  - split; [split; [now right | reflexivity]|].
    split; [split; [discriminate | intros [(id & [= <-] & Hne) _]; congruence]|].
    split; [|discriminate].
    intros id. split; [discriminate | intros ([= <-] & Hne & _); congruence].
  - destruct (userRole ctx) as [role|] eqn:Rl.
    + destruct (existsb (UserRole_eqb role) allowed) eqn:E.
      * apply Hin in E.
        split; [split; [discriminate | intros [H | H]; discriminate]|].
        split.
        { split; [discriminate|]. intros [_ H]. exfalso.
          now apply (H role). }
        split; [|discriminate].
        intros id. split.
        -- intros [= <-]. split; [reflexivity|]. split; [discriminate|].
           exists role. now split.
        -- intros ([= <-] & _). reflexivity.
      * assert (Hn : ~ In role allowed)
          by (intros H; apply Hin in H; congruence).
        split; [split; [discriminate | intros [H | H]; discriminate]|].
        split.
        { split; [intros _ | reflexivity].
          split; [exists (String c s); split; [reflexivity | discriminate]|].
          intros r [= <-]. exact Hn. }
        split; [|discriminate].
        intros id. split; [discriminate|].
        intros (_ & _ & r & [= <-] & Hr). contradiction.
    + split; [split; [discriminate | intros [H | H]; discriminate]|].
      split.
      { split; [intros _ | reflexivity].
        split; [exists (String c s); split; [reflexivity | discriminate]|].
        intros r H. discriminate. }
      split; [|discriminate].
      intros id. split; [discriminate|].
      intros (_ & _ & r & H & _). discriminate.
  - split; [split; [now left | reflexivity]|].
    split; [split; [discriminate | intros [(id & H & _) _]; discriminate]|].
    split; [|discriminate].
    intros id. split; [discriminate | intros (H & _); discriminate].
Qed.

Lemma guard_requireRole (m : Mutation) (ctx : Context) :
  guard m ctx = requireRole (open_to m) ctx.
Proof. destruct m; reflexivity. Qed.

(** X22: the guard in front of a mutation answers UNAUTHORIZED exactly when
    the caller's id is absent or empty, whatever the role; FORBIDDEN exactly
    when the id is present and the role is absent or not among the roles the
    mutation is open to; and otherwise lets the call through under the
    caller's id.  ADMIN is let through to every mutation. *)
Theorem guard_decides (m : Mutation) (ctx : Context) :
  (guard m ctx = inl UNAUTHORIZED <->
   userId ctx = None \/ userId ctx = Some EmptyString) /\
  (guard m ctx = inl FORBIDDEN <->
   (exists id, userId ctx = Some id /\ id <> EmptyString) /\
   (forall role, userRole ctx = Some role -> ~ In role (open_to m))) /\
  (forall id,
     guard m ctx = inr id <->
     userId ctx = Some id /\ id <> EmptyString /\
     exists role, userRole ctx = Some role /\ In role (open_to m)) /\
  (forall id, id <> EmptyString ->
     guard m (mkContext (Some id) (Some ADMIN)) = inr id).
Proof.
  rewrite guard_requireRole.
  destruct (requireRole_spec (open_to m) ctx) as (H1 & H2 & H3 & _).
  split; [exact H1|]. split; [exact H2|]. split; [exact H3|].
  intros id Hne. rewrite guard_requireRole.
  apply (requireRole_spec (open_to m) (mkContext (Some id) (Some ADMIN))).
  simpl. split; [reflexivity|]. split; [exact Hne|].
  exists ADMIN. split; [reflexivity|]. destruct m; simpl; tauto.
Qed.

Lemma guard_decides_witness :
  guard (WorkOrdersComplete (mkCompleteWorkOrderInput 1))
        (mkContext (Some "tech_clerk_123"%string) (Some TECHNICIAN))
  = inr "tech_clerk_123"%string /\
  guard (InventoryAdjustStock (mkAdjustStockInput 1 ADDITION 5 "x"))
        (mkContext (Some "tech_clerk_123"%string) (Some TECHNICIAN))
  = inl FORBIDDEN /\
  guard (InventoryAdjustStock (mkAdjustStockInput 1 ADDITION 5 "x"))
        (mkContext (Some EmptyString) (Some ADMIN))
  = inl UNAUTHORIZED /\
  guard (InventoryAdjustStock (mkAdjustStockInput 1 ADDITION 5 "x"))
        (mkContext (Some "root"%string) (Some ADMIN))
  = inr "root"%string.
Proof.
  split; [reflexivity|]. split; [reflexivity|]. split; [reflexivity|].
  destruct (guard_decides
              (InventoryAdjustStock (mkAdjustStockInput 1 ADDITION 5 "x"))
              (mkContext None None)) as (_ & _ & _ & Hadmin).
  apply Hadmin. discriminate.
Defined.

Lemma reply_store {A} (wrap : A -> Reply) (r : DB * result A) :
  fst (reply wrap r) = store_after r.
Proof. destruct r as [db' [a|e]]; reflexivity. Qed.

Lemma reply_not_denied {A} (wrap : A -> Reply) (r : DB * result A)
    (code : TRPCErrorCode) :
  snd (reply wrap r) <> inl (Denied code).
Proof. destruct r as [db' [a|e]]; discriminate. Qed.

Lemma guard_passes (m : Mutation) (ctx : Context) (id : string) :
  guard m ctx = inr id ->
  userId ctx = Some id /\ id <> EmptyString /\
  exists role, userRole ctx = Some role /\ In role (open_to m).
Proof.
  rewrite guard_requireRole. intros G.
  now apply (requireRole_spec (open_to m) ctx) in G.
Qed.

Lemma createItem_items (input : CreateItemInput) (now : Z) (db : DB)
    (e : error) :
  outcome (createItem input now db) = Err e ->
  itemsTable (store_after (createItem input now db)) = itemsTable db.
Proof. intros H. now destruct (createItem_throws _ _ _ _ H). Qed.

Lemma updateItem_failure_keeps_store (input : UpdateItemInput) (now : Z)
    (db : DB) (e : error) :
  outcome (updateItem input now db) = Err e ->
  store_after (updateItem input now db) = db.
Proof. updateItem_branches input db; [reflexivity | discriminate | reflexivity]. Qed.

(** X23: who can change the items table through the router.  A request that
    the guard or the input schema denies changes nothing in the store.  A
    request whose handler throws leaves the items table as it was, unless
    the handler is the completion of a work order, which may have deducted
    the lines before the failing one.  And whenever the items table has
    changed, the request was an item creation, an item update or a stock
    adjustment from a caller with a non-empty id and the role ADMIN or
    WAREHOUSE_MANAGER, or a work-order completion from a caller with a
    non-empty id and the role ADMIN or TECHNICIAN; creating purchase orders
    or work orders never changes it. *)
Theorem items_change_only_with_role (ctx : Context) (m : Mutation)
    (number : string) (now : Z) (db : DB) :
  (forall code, snd (mutate ctx m number now db) = inl (Denied code) ->
                fst (mutate ctx m number now db) = db) /\
  (forall e, snd (mutate ctx m number now db) = inl (Failed e) ->
             itemsTable (fst (mutate ctx m number now db)) = itemsTable db \/
             exists input, m = WorkOrdersComplete input) /\
  (itemsTable (fst (mutate ctx m number now db)) <> itemsTable db ->
   writes_items m = true /\
   exists id role,
     userId ctx = Some id /\ id <> EmptyString /\
     userRole ctx = Some role /\ In role (open_to m)).
Proof.
  unfold mutate.
  destruct (guard m ctx) as [code | id] eqn:G.
  - split; [reflexivity|]. split; [discriminate|].
    intros H; now contradiction H.
  - destruct (input_schema m) eqn:V; cbn [negb];
      [|split; [reflexivity|]; split; [discriminate|];
        intros H; now contradiction H].
    split; [|split].
    + intros code H. exfalso.
      destruct m; exact (reply_not_denied _ _ _ H).
    + intros e H. destruct m; cbv iota in H |- *;
        try (right; eexists; reflexivity); left; rewrite reply_store.
      * destruct (createItem input now db) as [d [a|e']] eqn:C;
          [discriminate|].
        rewrite <- C. apply (createItem_items input now db e').
        now rewrite C.
      * destruct (updateItem input now db) as [d [a|e']] eqn:C;
          [discriminate|].
        rewrite <- C.
        rewrite (updateItem_failure_keeps_store input now db e');
          [reflexivity | now rewrite C].
      * destruct (adjustStock input id now db) as [d [a|e']] eqn:C;
          [discriminate|].
        rewrite <- C.
        rewrite (adjustStock_failure_keeps_store input id now db e');
          [reflexivity | now rewrite C].
      * apply createPurchaseOrder_items.
      * apply createWorkOrder_items.
    + intros Hch.
      apply guard_passes in G. destruct G as (Hid & Hne & Hrole).
      split.
      * destruct m; try reflexivity; exfalso; apply Hch; cbv iota;
          rewrite reply_store;
          [apply createPurchaseOrder_items | apply createWorkOrder_items].
      * destruct Hrole as (role & Hr & Hin). exists id, role. tauto.
Qed.

(** A stock adjustment from PURCHASING_STAFF is denied and changes nothing;
    the same adjustment from a WAREHOUSE_MANAGER changes the items table; a
    completion that fails at its second line has changed it as well. *)
Lemma items_change_only_with_role_witness :
  fst (mutate (mkContext (Some "buyer"%string) (Some PURCHASING_STAFF))
         (InventoryAdjustStock (mkAdjustStockInput 1 REMOVAL 5 "x"))
         "n" 9 completion_store) = completion_store /\
  itemsTable
    (fst (mutate (mkContext (Some "boss"%string) (Some WAREHOUSE_MANAGER))
            (InventoryAdjustStock (mkAdjustStockInput 1 REMOVAL 5 "x"))
            "n" 9 completion_store))
  <> itemsTable completion_store /\
  snd (mutate (mkContext (Some "tech_clerk_123"%string) (Some TECHNICIAN))
         (WorkOrdersComplete (mkCompleteWorkOrderInput 1)) "n" 9 short_store)
  = inl (Failed (InsufficientStockForItem "ITEM002" 30 31)) /\
  itemsTable
    (fst (mutate (mkContext (Some "tech_clerk_123"%string) (Some TECHNICIAN))
            (WorkOrdersComplete (mkCompleteWorkOrderInput 1)) "n" 9
            short_store))
  <> itemsTable short_store.
Proof.
  split; [|split; [|split]].
  - destruct (items_change_only_with_role
                (mkContext (Some "buyer"%string) (Some PURCHASING_STAFF))
                (InventoryAdjustStock (mkAdjustStockInput 1 REMOVAL 5 "x"))
                "n"%string 9 completion_store) as [Hdenied _].
    exact (Hdenied FORBIDDEN eq_refl).
  - vm_compute. discriminate.
  - reflexivity.
  - vm_compute. discriminate.
Defined.

(** ** What [completeWorkOrder] leaves alone *)

Lemma deduct_line_frame (wo : WorkOrder.t) (now : Z) (l : WorkOrderItem.t)
    (db : DB) :
  let db' := fst (deduct_line wo now l db) in
  map Item.id (itemsTable db') = map Item.id (itemsTable db) /\
  items_id_seq db' = items_id_seq db /\
  workOrderItemsTable db' = workOrderItemsTable db /\
  (forall j, j <> WorkOrderItem.item_id l -> stock_of db' j = stock_of db j).
Proof.
  intros db'. subst db'. pose proof (deduct_line_cases wo now l db) as C.
  destruct (find_item db (WorkOrderItem.item_id l)) as [item|].
  - destruct C as [[_ ->] | [_ ->]]; [repeat split; reflexivity|].
    cbn [fst].
    split; [apply item_ids_update|]. split; [reflexivity|].
    split; [reflexivity|].
    intros j Hj. rewrite stock_of_insert_adjustment.
    apply stock_of_update_other. congruence.
  - rewrite C. repeat split; reflexivity.
Qed.

(** The loop over the lines, whether it runs to its end or stops. *)
Lemma deduct_lines_frame (wo : WorkOrder.t) (now : Z)
    (ls : list WorkOrderItem.t) (d : DB) :
  let d' := fst (for_of ls (deduct_line wo now) d) in
  map Item.id (itemsTable d') = map Item.id (itemsTable d) /\
  items_id_seq d' = items_id_seq d /\
  workOrderItemsTable d' = workOrderItemsTable d /\
  (forall j, (forall l, In l ls -> WorkOrderItem.item_id l <> j) ->
             stock_of d' j = stock_of d j).
Proof.
  revert d. induction ls as [|l ls IH]; intros d; simpl;
    [repeat split; reflexivity|].
  unfold bind.
  destruct (deduct_line_frame wo now l d) as (H1 & H2 & H3 & H4).
  destruct (deduct_line wo now l d) as [d1 [u|e]] eqn:D; simpl in *.
  - destruct (IH d1) as (I1 & I2 & I3 & I4).
    split; [congruence|]. split; [congruence|]. split; [congruence|].
    intros j Hj. rewrite I4 by (intros l' Hl'; apply Hj; now right).
    apply H4. intros E. apply (Hj l); [now left | now symmetry].
  - split; [exact H1|]. split; [exact H2|]. split; [exact H3|].
    intros j Hj. apply H4. intros E. apply (Hj l); [now left | now symmetry].
Qed.

Lemma completeWorkOrder_keys_and_lines (input : CompleteWorkOrderInput)
    (now : Z) (db : DB) :
  let db' := store_after (completeWorkOrder input now db) in
  map Item.id (itemsTable db') = map Item.id (itemsTable db) /\
  items_id_seq db' = items_id_seq db /\
  workOrderItemsTable db' = workOrderItemsTable db.
Proof.
  cbv zeta.
  destruct (find_work_order db (cwi_work_order_id input)) as [wo|] eqn:F;
    [|rewrite (completeWorkOrder_not_found _ _ _ F); now repeat split].
  destruct (status_dec (WorkOrder.status wo)) as [S|S];
    [|rewrite (completeWorkOrder_wrong_status _ _ _ _ F S); now repeat split].
  rewrite (completeWorkOrder_in_progress _ _ _ _ F S).
  destruct (deduct_lines_frame wo now (lines_of db (cwi_work_order_id input))
              db) as (H1 & H2 & H3 & _).
  destruct (for_of _ _ db) as [db1 [u|e]]; now repeat split.
Qed.

(** X24: whatever its outcome, and also when it stops part-way,
    [completeWorkOrder] adds and removes no item, changes the stock of no
    item that none of the work order's lines names, and leaves the stored
    work-order lines as they were. *)
Theorem completeWorkOrder_frame (input : CompleteWorkOrderInput) (now : Z)
    (db : DB) :
  let db' := store_after (completeWorkOrder input now db) in
  map Item.id (itemsTable db') = map Item.id (itemsTable db) /\
  items_id_seq db' = items_id_seq db /\
  workOrderItemsTable db' = workOrderItemsTable db /\
  (forall j,
     (forall l, In l (lines_of db (cwi_work_order_id input)) ->
                WorkOrderItem.item_id l <> j) ->
     stock_of db' j = stock_of db j).
Proof.
  cbv zeta.
  destruct (completeWorkOrder_keys_and_lines input now db) as (K1 & K2 & K3).
  split; [exact K1|]. split; [exact K2|]. split; [exact K3|].
  destruct (find_work_order db (cwi_work_order_id input)) as [wo|] eqn:F;
    [|now rewrite (completeWorkOrder_not_found _ _ _ F)].
  destruct (status_dec (WorkOrder.status wo)) as [S|S];
    [|now rewrite (completeWorkOrder_wrong_status _ _ _ _ F S)].
  rewrite (completeWorkOrder_in_progress _ _ _ _ F S).
  destruct (deduct_lines_frame wo now (lines_of db (cwi_work_order_id input))
              db) as (_ & _ & _ & H4).
  destruct (for_of _ _ db) as [db1 [u|e]]; exact H4.
Qed.

(** ** The router keeps the store sane *)

Lemma createWorkOrder_throws_lines (input : CreateWorkOrderInput)
    (createdBy number : string) (now : Z) (db : DB) (e : error) :
  outcome (createWorkOrder input createdBy number now db) = Err e ->
  workOrderItemsTable
    (store_after (createWorkOrder input createdBy number now db))
  = workOrderItemsTable db.
Proof.
  createWorkOrder_branches input db number; try reflexivity. discriminate.
Qed.

Lemma createWorkOrder_lines_positive (input : CreateWorkOrderInput)
    (createdBy number : string) (now : Z) (db : DB) :
  createWorkOrderInputSchema input = true ->
  Forall (fun l => 0 < WorkOrderItem.quantity_used l) (workOrderItemsTable db)
  ->
  Forall (fun l => 0 < WorkOrderItem.quantity_used l)
    (workOrderItemsTable
       (store_after (createWorkOrder input createdBy number now db))).
Proof.
  intros Hschema H.
  destruct (outcome (createWorkOrder input createdBy number now db))
    as [wo|e] eqn:E.
  - destruct (createWorkOrder_returns _ _ _ _ _ _ E)
      as (_ & _ & (rows & -> & Hrows) & _).
    apply Forall_app. split; [exact H|].
    assert (Hq : map WorkOrderItem.quantity_used rows
                 = map wli_quantity_used (cwo_items input)).
    { apply (f_equal (map snd)) in Hrows. rewrite !map_map in Hrows.
      exact Hrows. }
    apply (proj1 (Forall_map WorkOrderItem.quantity_used (fun q => 0 < q)
                    rows)).
    rewrite Hq. apply Forall_map.
    unfold createWorkOrderInputSchema in Hschema.
    rewrite forallb_forall in Hschema. apply Forall_forall.
    intros l Hl. now apply Z.ltb_lt, Hschema.
  - now rewrite (createWorkOrder_throws_lines _ _ _ _ _ _ E).
Qed.

Lemma createPurchaseOrder_lines (input : CreatePurchaseOrderInput)
    (createdBy number : string) (now : Z) (db : DB) :
  workOrderItemsTable
    (store_after (createPurchaseOrder input createdBy number now db))
  = workOrderItemsTable db.
Proof. createPurchaseOrder_branches input db number; reflexivity. Qed.

Lemma updateItem_lines (input : UpdateItemInput) (now : Z) (db : DB) :
  workOrderItemsTable (store_after (updateItem input now db))
  = workOrderItemsTable db.
Proof. updateItem_branches input db; reflexivity. Qed.

Lemma adjustStock_lines (input : AdjustStockInput) (by_ : string) (now : Z)
    (db : DB) :
  workOrderItemsTable (store_after (adjustStock input by_ now db))
  = workOrderItemsTable db.
Proof.
  destruct (adjustStock_store input by_ now db)
    as [-> | (item & newStock & row & _ & _ & _ & _ & ->)]; reflexivity.
Qed.

(** X25: the router keeps the store sane.  If no item has a negative stock
    and every stored work-order line has a positive quantity, the same holds
    after any mutation request, from any caller, with any input, accepted or
    refused: the input schemas keep negative opening stocks and non-positive
    line quantities out, and the handlers do the rest. *)
Theorem router_keeps_store_sane (ctx : Context) (m : Mutation)
    (number : string) (now : Z) (db : DB) :
  store_sane db -> store_sane (fst (mutate ctx m number now db)).
Proof.
  intros [Hstock Hlines]. unfold mutate.
  destruct (guard m ctx) as [code | id]; [now split|].
  destruct (input_schema m) eqn:V; cbn [negb]; [|now split].
  destruct m; cbv iota; rewrite reply_store; split.
  - unfold stock_nonneg, createItem, store_after. cbn [fst itemsTable].
    destruct (sku_taken db None (cii_sku input)); [exact Hstock|].
    apply Forall_app. split; [exact Hstock|].
    constructor; [simpl | constructor].
    simpl in V. unfold createItemInputSchema in V.
    apply andb_true_iff in V. destruct V as [V _].
    apply andb_true_iff in V. destruct V as [V _]. now apply Z.leb_le.
  - exact Hlines.
  - eapply stock_nonneg_levels;
      [apply updateItem_stock_levels | exact Hstock].
  - now rewrite updateItem_lines.
  - now apply adjustStock_nonneg.
  - now rewrite adjustStock_lines.
  - unfold stock_nonneg. now rewrite createPurchaseOrder_items.
  - now rewrite createPurchaseOrder_lines.
  - unfold stock_nonneg. now rewrite createWorkOrder_items.
  - now apply createWorkOrder_lines_positive.
  - now apply completeWorkOrder_nonneg.
  - destruct (completeWorkOrder_keys_and_lines input now db) as (_ & _ & ->).
    exact Hlines.
Qed.

Lemma router_keeps_store_sane_witness :
  store_sane completion_store /\
  store_sane
    (fst (mutate (mkContext (Some "tech_clerk_123"%string) (Some TECHNICIAN))
            (WorkOrdersComplete (mkCompleteWorkOrderInput 1))
            "n" 9 completion_store)) /\
  snd (mutate (mkContext (Some "boss"%string) (Some WAREHOUSE_MANAGER))
         (InventoryItemsCreate
            (mkCreateItemInput "NEW" "New item" None (-1) 0 (1 # 1)))
         "n" 9 completion_store) = inl (Denied BAD_REQUEST).
Proof.
  assert (H : store_sane completion_store)
    by (split; repeat constructor; simpl; lia).
  split; [exact H|]. split; [|reflexivity].
  exact (router_keeps_store_sane _ _ _ _ _ H).
Defined.

Lemma adjustStock_attribution (input : AdjustStockInput) (by_ : string)
    (now : Z) (db : DB) (row : StockAdjustment.t) :
  outcome (adjustStock input by_ now db) = Ok row ->
  StockAdjustment.adjusted_by row = by_ /\
  In row (stockAdjustmentsTable (store_after (adjustStock input by_ now db))).
Proof.
  intros Hok.
  destruct (find_item db (asi_item_id input)) as [item|] eqn:F;
    [|rewrite (adjustStock_not_found _ _ _ _ F) in Hok; discriminate].
  destruct (adjustStock_success_row _ _ _ _ _ _ F Hok) as (Hrow & _ & ->).
  split; [now rewrite Hrow | apply in_or_app; right; now left].
Qed.

(** X26: what is written through the router carries the caller's id.  When a
    mutation request succeeds, the caller's id is present and not empty, and
    it is the [adjusted_by] of the audit row an adjustment returns and
    stores, and the [created_by] of the purchase order or work order a
    creation returns. *)
Theorem router_attributes_to_caller (ctx : Context) (m : Mutation)
    (number : string) (now : Z) (db : DB) (answer : Reply) :
  snd (mutate ctx m number now db) = inr answer ->
  exists id,
    userId ctx = Some id /\ id <> EmptyString /\
    match answer with
    | AdjustmentReply row =>
      StockAdjustment.adjusted_by row = id /\
      In row (stockAdjustmentsTable (fst (mutate ctx m number now db)))
    | PurchaseOrderReply po => PurchaseOrder.created_by po = id
    | WorkOrderReply wo => WorkOrder.created_by wo = id
    | ItemReply _ | UpdatedItemReply _ | CompletedWorkOrderReply _ => True
    end.
Proof.
  unfold mutate.
  destruct (guard m ctx) as [code | id] eqn:G; [discriminate|].
  apply guard_passes in G. destruct G as (Hid & Hne & _).
  destruct (input_schema m); cbn [negb]; [|discriminate].
  intros H. exists id. split; [exact Hid|]. split; [exact Hne|].
  destruct m; cbv iota in H |- *.
  - destruct (createItem input now db) as [d [a|e]]; simpl in H;
      [injection H as <-; exact I | discriminate].
  - destruct (updateItem input now db) as [d [a|e]]; simpl in H;
      [injection H as <-; exact I | discriminate].
  - pose proof (adjustStock_attribution input id now db) as A.
    rewrite reply_store.
    destruct (adjustStock input id now db) as [d [a|e]]; simpl in H;
      [injection H as <-; now apply A | discriminate].
  - pose proof (createPurchaseOrder_returns input id number now db) as C.
    destruct (createPurchaseOrder input id number now db) as [d [a|e]];
      simpl in H; [injection H as <- | discriminate].
    destruct (C a eq_refl) as (-> & _). reflexivity.
  - pose proof (createWorkOrder_returns input id number now db) as C.
    destruct (createWorkOrder input id number now db) as [d [a|e]];
      simpl in H; [injection H as <- | discriminate].
    destruct (C a eq_refl) as (-> & _). reflexivity.
  - destruct (completeWorkOrder input now db) as [d [a|e]]; simpl in H;
      [injection H as <-; exact I | discriminate].
Qed.

Lemma router_attributes_to_caller_witness :
  exists row,
    snd (mutate (mkContext (Some "boss"%string) (Some WAREHOUSE_MANAGER))
           (InventoryAdjustStock (mkAdjustStockInput 1 REMOVAL 5 "x"))
           "n" 9 completion_store) = inr (AdjustmentReply row) /\
    StockAdjustment.adjusted_by row = "boss"%string.
Proof.
  eexists. split; [reflexivity|].
  destruct (router_attributes_to_caller
              (mkContext (Some "boss"%string) (Some WAREHOUSE_MANAGER))
              (InventoryAdjustStock (mkAdjustStockInput 1 REMOVAL 5 "x"))
              "n"%string 9 completion_store _ eq_refl)
    as (id & Hid & _ & Hby & _).
  injection Hid as <-. exact Hby.
Defined.

(** ** Item ids *)

Lemma item_keys_fresh_same (db db' : DB) :
  map Item.id (itemsTable db') = map Item.id (itemsTable db) ->
  items_id_seq db' = items_id_seq db ->
  item_keys_fresh db -> item_keys_fresh db'.
Proof.
  unfold item_keys_fresh. intros Hids Hseq [Hnd Hlt].
  rewrite Hids, Hseq. split; [exact Hnd|].
  assert (L : Forall (fun i => i < items_id_seq db)
                (map Item.id (itemsTable db)))
    by (rewrite Forall_map; exact Hlt).
  rewrite <- Hids, Forall_map in L. exact L.
Qed.

Lemma adjustStock_item_seq (input : AdjustStockInput) (by_ : string)
    (now : Z) (db : DB) :
  items_id_seq (store_after (adjustStock input by_ now db)) = items_id_seq db.
Proof.
  destruct (adjustStock_store input by_ now db)
    as [-> | (item & newStock & row & _ & _ & _ & _ & ->)]; reflexivity.
Qed.

Lemma createWorkOrder_item_seq (input : CreateWorkOrderInput)
    (createdBy number : string) (now : Z) (db : DB) :
  items_id_seq (store_after (createWorkOrder input createdBy number now db))
  = items_id_seq db.
Proof. createWorkOrder_branches input db number; reflexivity. Qed.

Lemma createPurchaseOrder_item_seq (input : CreatePurchaseOrderInput)
    (createdBy number : string) (now : Z) (db : DB) :
  items_id_seq
    (store_after (createPurchaseOrder input createdBy number now db))
  = items_id_seq db.
Proof. createPurchaseOrder_branches input db number; reflexivity. Qed.

Lemma updateItem_item_keys (input : UpdateItemInput) (now : Z) (db : DB) :
  map Item.id (itemsTable (store_after (updateItem input now db)))
  = map Item.id (itemsTable db) /\
  items_id_seq (store_after (updateItem input now db)) = items_id_seq db.
Proof.
  split.
  - pose proof (updateItem_stock_levels input now db) as H.
    unfold stock_levels in H. apply (f_equal (map fst)) in H.
    now rewrite !map_map in H.
  - updateItem_branches input db; reflexivity.
Qed.

Lemma filter_item_fresh (rows : list Item.t) (seq : Z) :
  Forall (fun it => Item.id it < seq) rows ->
  filter (fun it => Item.id it =? seq) rows = [].
Proof.
  induction 1 as [|it rows Hlt _ IH]; simpl; [reflexivity|].
  destruct (Z.eqb_spec (Item.id it) seq); [lia | exact IH].
Qed.

Lemma adjustStock_item_ids (input : AdjustStockInput) (by_ : string)
    (now : Z) (db : DB) :
  map Item.id (itemsTable (store_after (adjustStock input by_ now db)))
  = map Item.id (itemsTable db).
Proof.
  destruct (adjustStock_store input by_ now db)
    as [-> | (item & newStock & row & _ & _ & _ & _ & ->)]; [reflexivity|].
  apply item_ids_update.
Qed.

(** X27: item ids behave as primary keys.  If the ids of the stored items
    are distinct and below the serial sequence, they still are after any of
    [adjustStock], [completeWorkOrder], [createWorkOrder],
    [createPurchaseOrder], [updateItem] and [createItem], whether the call
    returned or threw; every item that could be read before a [createItem]
    reads the same after it; and an item that [createItem] returns carries
    the next value of the sequence and is found under it, with the stock it
    was given. *)
Theorem item_keys_stay_fresh (db : DB) :
  item_keys_fresh db ->
  (forall input by_ now,
     item_keys_fresh (store_after (adjustStock input by_ now db))) /\
  (forall input now,
     item_keys_fresh (store_after (completeWorkOrder input now db))) /\
  (forall input createdBy number now,
     item_keys_fresh
       (store_after (createWorkOrder input createdBy number now db))) /\
  (forall input createdBy number now,
     item_keys_fresh
       (store_after (createPurchaseOrder input createdBy number now db))) /\
  (forall input now,
     item_keys_fresh (store_after (updateItem input now db))) /\
  (forall input now,
     let db' := store_after (createItem input now db) in
     item_keys_fresh db' /\
     (forall j it, find_item db j = Some it -> find_item db' j = Some it) /\
     (forall created,
        outcome (createItem input now db) = Ok created ->
        Item.id created = items_id_seq db /\
        find_item db' (Item.id created) = Some created /\
        stock_of db' (Item.id created) = Some (cii_current_stock input))).
Proof.
  intros H.
  split.
  { intros. apply (item_keys_fresh_same db);
      [apply adjustStock_item_ids | apply adjustStock_item_seq | exact H]. }
  split.
  { intros. apply (item_keys_fresh_same db);
      [apply completeWorkOrder_keys_and_lines
      | apply completeWorkOrder_keys_and_lines | exact H]. }
  split.
  { intros. apply (item_keys_fresh_same db);
      [now rewrite createWorkOrder_items | apply createWorkOrder_item_seq
       | exact H]. }
  split.
  { intros. apply (item_keys_fresh_same db);
      [now rewrite createPurchaseOrder_items
       | apply createPurchaseOrder_item_seq | exact H]. }
  split.
  { intros. apply (item_keys_fresh_same db);
      [apply updateItem_item_keys | apply updateItem_item_keys | exact H]. }
  intros input now db'. subst db'. destruct H as [Hnd Hlt].
  unfold createItem, store_after, outcome, item_keys_fresh.
  cbn [fst snd itemsTable items_id_seq].
  destruct (sku_taken db None (cii_sku input)).
  { split; [|split; [trivial | discriminate]].
    split; [exact Hnd|].
    eapply Forall_impl; [|exact Hlt]. intros it Hit. simpl in Hit. lia. }
  split; [|split].
  - split.
    + rewrite map_app. simpl.
      apply NoDup_app; [exact Hnd | repeat constructor; intros [] |].
      intros x Hx [<- | []]. apply in_map_iff in Hx.
      destruct Hx as (it & E & Hit). rewrite Forall_forall in Hlt.
      specialize (Hlt it Hit). lia.
    + apply Forall_app. split.
      * eapply Forall_impl; [|exact Hlt]. intros it Hit. simpl in Hit. lia.
      * constructor; [simpl; lia | constructor].
  - intros j it. unfold find_item. cbn [itemsTable]. rewrite filter_app.
    destruct (filter (fun it0 => Item.id it0 =? j) (itemsTable db));
      [discriminate | now intros [= ->]].
  - intros created [= <-]. cbn [Item.id].
    unfold stock_of, find_item. cbn [itemsTable].
    rewrite filter_app, (filter_item_fresh _ _ Hlt). simpl.
    rewrite Z.eqb_refl. simpl. now repeat split.
Qed.

(** A new item in the store of the adjustment tests takes the id 2. *)
Lemma item_keys_stay_fresh_witness :
  item_keys_fresh adjust_store /\
  exists created,
    outcome (createItem (mkCreateItemInput "NEW-1" "New item" None 7 2 (3 # 1))
               9 adjust_store) = Ok created /\
    Item.id created = 2 /\
    stock_of (store_after
                (createItem
                   (mkCreateItemInput "NEW-1" "New item" None 7 2 (3 # 1))
                   9 adjust_store)) 2 = Some 7.
Proof.
  assert (H : item_keys_fresh adjust_store).
  { split; [simpl; repeat constructor; intros [] |
            repeat constructor; simpl; lia]. }
  split; [exact H|].
  destruct (item_keys_stay_fresh adjust_store H) as (_ & _ & _ & _ & _ & Hc).
  destruct (Hc (mkCreateItemInput "NEW-1" "New item" None 7 2 (3 # 1)) 9)
    as (_ & _ & Hcreated).
  eexists. split; [reflexivity|].
  destruct (Hcreated _ eq_refl) as (Hid & _ & Hs).
  split; [exact Hid|]. rewrite Hid in Hs. exact Hs.
Defined.

(** X28: the audit rows of a completion account for every stock movement
    of the call: after a successful [completeWorkOrder], for every item, the
    stock it reads is the stock it read before plus the sum of the changes
    recorded in the rows the call appended for that item. *)
Theorem completion_rows_account_for_stock (input : CompleteWorkOrderInput)
    (now : Z) (db : DB) (returned : option WorkOrder.t) :
  outcome (completeWorkOrder input now db) = Ok returned ->
  let db' := store_after (completeWorkOrder input now db) in
  exists rows,
    stockAdjustmentsTable db' = stockAdjustmentsTable db ++ rows /\
    forall i,
      stock_of db' i =
      option_map
        (fun s => s + fold_right
                        (fun r acc =>
                           (if StockAdjustment.item_id r =? i
                            then StockAdjustment.quantity_change r else 0)
                           + acc) 0 rows)
        (stock_of db i).
Proof.
  intros H db'.
  destruct (completeWorkOrder_returns _ _ _ _ H)
    as (wo & rows & _ & _ & _ & _ & Ht & Hrows & Hst).
  fold db' in Ht, Hst. exists rows. split; [exact Ht|].
  intros i. rewrite Hst.
  assert (E : quantity_used_by (lines_of db (cwi_work_order_id input)) i
              = - fold_right
                    (fun r acc =>
                       (if StockAdjustment.item_id r =? i
                        then StockAdjustment.quantity_change r else 0)
                       + acc) 0 rows).
  { clear - Hrows. induction Hrows as [|l r ls rs Hr _ IH]; simpl;
      [reflexivity|].
    destruct Hr as (Hid & _ & Hq & _). rewrite Hid, Hq, IH.
    destruct (WorkOrderItem.item_id l =? i); lia. }
  rewrite E. destruct (stock_of db i); simpl; [f_equal; lia | reflexivity].
Qed.

Lemma completion_rows_account_for_stock_witness :
  exists rows,
    stockAdjustmentsTable
      (store_after (completeWorkOrder (mkCompleteWorkOrderInput 1) 7
                      completion_store)) = rows /\
    map StockAdjustment.quantity_change rows = [-5; -3] /\
    stock_of (store_after (completeWorkOrder (mkCompleteWorkOrderInput 1) 7
                             completion_store)) 2 = Some 27.
Proof.
  destruct (completion_rows_account_for_stock (mkCompleteWorkOrderInput 1) 7
              completion_store _ eq_refl) as (rows & Ht & Hst).
  exists rows. split; [exact Ht|]. split.
  - simpl in Ht. rewrite <- Ht. reflexivity.
  - reflexivity.
Defined.
